(** * Audio mixer: a shallow embedding of [python_desktop_app/audio_processor.py]

    The development follows the class [AudioProcessor]: the tempo filter
    builder, the concat playlist writer, the render supervisor and the
    playback controller.

    Conventions of the embedding.
    - A Python [float] is a rational number ([Q]).  The operations the code
      performs on the values studied here (halving, doubling, comparison,
      division of a byte count by [1024 * 1024]) are exact on binary floats,
      so no rounding is lost on them; elsewhere [Q] is the idealisation.
      Infinities and NaN are not represented.
    - A Python [str] is a [string] of 8-bit characters.
    - The outside world (file system, subprocesses, the pygame music player,
      the wall clock, the progress log) is an explicit [World] value that the
      methods thread through; what the external programs do is supplied by an
      [Env] of oracles.
    - A method returns an [Outcome]: a value, a raised exception, or [Hang]
      when the Python code would loop forever. *)

From Stdlib Require Import ZArith QArith Qround Qabs Qminmax Lqa Lia.
From Stdlib Require Import List String Ascii Bool DecimalString Sorted.
From stdpp Require Import gmap strings.
Import ListNotations.

Open Scope Q_scope.

(* ===================================================================== *)
(** * Numbers: comparisons, [int()], rounding and [format(x, ".df")]     *)
(* ===================================================================== *)

Definition Qlt_bool (a b : Q) : bool := negb (Qle_bool b a).

(** Python's [int(x)] on a float: truncation toward zero. *)
Definition py_int (x : Q) : Z := Z.quot (Qnum x) (Z.pos (Qden x)).

(** Rounding to the nearest integer, ties to the even one: the rule of
    Python's [round] and of its fixed-point formatting. *)
Definition round_half_even (x : Q) : Z :=
  let f := Qfloor x in
  match Qcompare (x - inject_Z f) (1 # 2) with
  | Lt => f
  | Gt => (f + 1)%Z
  | Eq => if Z.even f then f else (f + 1)%Z
  end.

(** [str(n)] for an integer. *)
Definition str_of_Z (z : Z) : string := NilZero.string_of_int (Z.to_int z).

Fixpoint zeros (k : nat) : string :=
  match k with
  | O => EmptyString
  | S k' => String "0" (zeros k')
  end.

Definition zero_pad (width : nat) (s : string) : string :=
  zeros (width - String.length s) +:+ s.

(** [f"{x:.df}"]: [d] digits after the point, correctly rounded. *)
Definition format_fixed (d : nat) (x : Q) : string :=
  let scale := (10 ^ Z.of_nat d)%Z in
  let n := Z.abs (round_half_even (x * inject_Z scale)) in
  let sign := if Qlt_bool x 0 then "-" else EmptyString in
  let int_part := str_of_Z (n / scale) in
  match d with
  | O => sign +:+ int_part
  | _ => sign +:+ int_part +:+ "." +:+ zero_pad d (str_of_Z (n mod scale))
  end.

Fixpoint Qpow (b : Q) (k : nat) : Q :=
  match k with
  | O => 1
  | S k' => b * Qpow b k'
  end.

(* ===================================================================== *)
(** * Strings: the [str] methods the code uses                           *)
(* ===================================================================== *)

Definition lower_ascii (c : ascii) : ascii :=
  let n := nat_of_ascii c in
  if (65 <=? n)%nat && (n <=? 90)%nat then ascii_of_nat (n + 32) else c.

(** [s.lower()] *)
Fixpoint lower (s : string) : string :=
  match s with
  | EmptyString => EmptyString
  | String c s' => String (lower_ascii c) (lower s')
  end.

(** [needle in hay] *)
Fixpoint contains (needle hay : string) : bool :=
  String.prefix needle hay ||
  match hay with
  | EmptyString => false
  | String _ hay' => contains needle hay'
  end.

(** [s.split(sep)] for a one-character separator: the pieces between the
    separators, empty pieces included. *)
Fixpoint split_on (sep : ascii) (s : string) : list string :=
  match s with
  | EmptyString => [EmptyString]
  | String c s' =>
      if Ascii.eqb c sep then EmptyString :: split_on sep s'
      else
        match split_on sep s' with
        | [] => [String c EmptyString]
        | piece :: pieces => String c piece :: pieces
        end
  end.

(** [l[-n:]] for a list, [n > 0] *)
Definition last_n {A : Type} (n : nat) (l : list A) : list A :=
  skipn (length l - n) l.

Fixpoint drop_chars (n : nat) (s : string) : string :=
  match n, s with
  | O, _ => s
  | S n', String _ s' => drop_chars n' s'
  | S _, EmptyString => EmptyString
  end.

(** [s[-n:]] for a string, [n > 0] *)
Definition str_last (n : nat) (s : string) : string :=
  drop_chars (String.length s - n) s.

(** [s.replace(c, r)] for a one-character pattern [c] *)
Fixpoint replace_char (c : ascii) (r : string) (s : string) : string :=
  match s with
  | EmptyString => EmptyString
  | String a s' =>
      if Ascii.eqb a c then r +:+ replace_char c r s'
      else String a (replace_char c r s')
  end.

(** [os.path.basename] (POSIX): what follows the last slash. *)
Fixpoint basename (p : string) : string :=
  match p with
  | EmptyString => EmptyString
  | String c p' =>
      if contains "/" p' then basename p'
      else if Ascii.eqb c "/" then p' else p
  end.

Definition newline : ascii := ascii_of_nat 10.
Definition nl : string := String newline EmptyString.

(* ===================================================================== *)
(** * [_build_atempo_filter]                                             *)
(* ===================================================================== *)

(** One element of the Python list [filters].  [AtempoTwo] is the literal
    ["atempo=2.0"], [AtempoHalf] the literal ["atempo=0.5"], and
    [AtempoRem r] the formatted [f"atempo={r:.3f}"]. *)
Inductive AtempoStage : Type :=
| AtempoTwo
| AtempoHalf
| AtempoRem (remaining_speed : Q).

Definition render_stage (s : AtempoStage) : string :=
  match s with
  | AtempoTwo => "atempo=2.0"
  | AtempoHalf => "atempo=0.5"
  | AtempoRem r => "atempo=" +:+ format_fixed 3 r
  end.

(** The tempo the engine reads back from the stage's text: the remainder
    stage carries three decimals only. *)
Definition stage_value (s : AtempoStage) : Q :=
  match s with
  | AtempoTwo => 2
  | AtempoHalf => 1 # 2
  | AtempoRem r => inject_Z (round_half_even (r * 1000)) / 1000
  end.

Fixpoint stage_product (stages : list AtempoStage) : Q :=
  match stages with
  | [] => 1
  | s :: rest => stage_value s * stage_product rest
  end.

Definition stage_in_range (s : AtempoStage) : Prop :=
  1 # 2 <= stage_value s <= 2.

(** [while remaining_speed > 2.0: filters.append("atempo=2.0");
    remaining_speed /= 2.0].  [None]: the fuel ran out. *)
Fixpoint speed_down (fuel : nat) (remaining_speed : Q) (filters : list AtempoStage)
  : option (Q * list AtempoStage) :=
  if Qlt_bool 2 remaining_speed then
    match fuel with
    | O => None
    | S fuel' => speed_down fuel' (remaining_speed / 2) (filters ++ [AtempoTwo])
    end
  else Some (remaining_speed, filters).

(** [while remaining_speed < 0.5: filters.append("atempo=0.5");
    remaining_speed /= 0.5] *)
Fixpoint speed_up (fuel : nat) (remaining_speed : Q) (filters : list AtempoStage)
  : option (Q * list AtempoStage) :=
  if Qlt_bool remaining_speed (1 # 2) then
    match fuel with
    | O => None
    | S fuel' => speed_up fuel' (remaining_speed / (1 # 2)) (filters ++ [AtempoHalf])
    end
  else Some (remaining_speed, filters).

(** The list [filters] at the end of [_build_atempo_filter]. *)
Definition atempo_stages (fuel : nat) (speed : Q) : option (list AtempoStage) :=
  if Qeq_bool speed 1 then Some []
  else
    match speed_down fuel speed [] with
    | None => None
    | Some (r1, f1) =>
        match speed_up fuel r1 f1 with
        | None => None
        | Some (r2, f2) =>
            Some (if negb (Qeq_bool r2 1) then f2 ++ [AtempoRem r2] else f2)
        end
    end.

Definition _build_atempo_filter (fuel : nat) (speed : Q) : option string :=
  option_map (fun filters => String.concat "," (map render_stage filters))
             (atempo_stages fuel speed).

(** Fuel that suffices for a positive speed [n/d]: at most [n] halvings or
    [d] doublings are ever needed. *)
Definition enough_fuel (speed : Q) : nat :=
  (Z.to_nat (Qnum speed) + Pos.to_nat (Qden speed))%nat.

(* ===================================================================== *)
(** * The concat playlist                                                *)
(* ===================================================================== *)

Definition quote : ascii := "'".

(** [safe_path = file_path.replace("'", "'\\''")] *)
Definition safe_path (file_path : string) : string :=
  replace_char quote "'\''" file_path.

(** [f"file '{safe_path}'\n"] without its final newline *)
Definition concat_entry (file_path : string) : string :=
  "file '" +:+ safe_path file_path +:+ "'".

(** What the [for file_path in self.audiobook_files] loop writes to
    [concat_file]. *)
Definition concat_list (audiobook_files : list string) : string :=
  String.concat EmptyString (map (fun p => concat_entry p +:+ nl) audiobook_files).

(** ** The reader of the playlist

    The playlist is consumed by the external engine.  Its reader is not part
    of the repository; the three definitions below restate its quoting rule:
    a line is a keyword followed by one token; in a token a backslash makes
    the next character literal, a quote starts a section copied literally up
    to the next quote, and an unquoted blank ends the token. *)













(* ===================================================================== *)
(** * Progress lines of the encoder                                      *)
(* ===================================================================== *)

Definition is_digit (c : ascii) : bool :=
  let n := nat_of_ascii c in (48 <=? n)%nat && (n <=? 57)%nat.

Definition digit_value (c : ascii) : Z := Z.of_nat (nat_of_ascii c - 48).

(** The longest run of digits at the head of [s] (what a greedy [\d+]
    takes), and the rest. *)
Fixpoint take_digits (s : string) : list ascii * string :=
  match s with
  | EmptyString => ([], EmptyString)
  | String c s' =>
      if is_digit c then let '(ds, rest) := take_digits s' in (c :: ds, rest)
      else ([], s)
  end.

(** [int(digits)] *)
Definition digits_to_Z (ds : list ascii) : Z :=
  fold_left (fun acc c => (10 * acc + digit_value c)%Z) ds 0%Z.

Definition strip_prefix (p s : string) : option string :=
  if String.prefix p s then Some (drop_chars (String.length p) s) else None.

Definition expect_char (c : ascii) (s : string) : option string :=
  match s with
  | String c' s' => if Ascii.eqb c c' then Some s' else None
  | EmptyString => None
  end.

(** The groups of [time=(\d+):(\d+):(\d+\.\d+)] matched at the head of [s]:
    [int(group 1)], [int(group 2)], [float(group 3)]. *)
Definition match_time_here (s : string) : option (Z * Z * Q) :=
  match strip_prefix "time=" s with
  | None => None
  | Some s1 =>
      let '(h, s2) := take_digits s1 in
      match h, expect_char ":" s2 with
      | _ :: _, Some s3 =>
          let '(m, s4) := take_digits s3 in
          match m, expect_char ":" s4 with
          | _ :: _, Some s5 =>
              let '(sec, s6) := take_digits s5 in
              match sec, expect_char "." s6 with
              | _ :: _, Some s7 =>
                  let '(frac, _) := take_digits s7 in
                  match frac with
                  | _ :: _ =>
                      Some (digits_to_Z h, digits_to_Z m,
                            inject_Z (digits_to_Z sec)
                            + inject_Z (digits_to_Z frac)
                              / inject_Z (10 ^ Z.of_nat (length frac)))
                  | [] => None
                  end
              | _, _ => None
              end
          | _, _ => None
          end
      | _, _ => None
      end
  end.

(** [re.search(r'time=(\d+):(\d+):(\d+\.\d+)', line)]: the leftmost match. *)
Fixpoint search_time (line : string) : option (Z * Z * Q) :=
  match match_time_here line with
  | Some g => Some g
  | None =>
      match line with
      | EmptyString => None
      | String _ line' => search_time line'
      end
  end.

(** [hours * 3600 + minutes * 60 + seconds] *)
Definition current_seconds_of (g : Z * Z * Q) : Q :=
  let '(hours, minutes, seconds) := g in
  inject_Z (hours * 3600 + minutes * 60) + seconds.

(** [progress_ratio = min(current_seconds / adjusted_duration, 1.0)] *)
Definition progress_ratio (current_seconds adjusted_duration : Q) : Q :=
  Qmin (current_seconds / adjusted_duration) 1.

(** [progress_pct = min(95, 20 + int(progress_ratio * 75))] *)
Definition progress_pct (current_seconds adjusted_duration : Q) : Z :=
  Z.min 95 (20 + py_int (progress_ratio current_seconds adjusted_duration * 75)).


(** The nested helper [format_time(seconds)] of [render_to_file]. *)
Definition format_time (seconds : Q) : string :=
  if Qlt_bool seconds 60 then str_of_Z (py_int seconds) +:+ "s"
  else if Qlt_bool seconds 3600 then
    str_of_Z (py_int (seconds / 60)) +:+ "m "
    +:+ str_of_Z (py_int (seconds - 60 * inject_Z (Qfloor (seconds / 60)))) +:+ "s"
  else
    str_of_Z (py_int (seconds / 3600)) +:+ "h "
    +:+ str_of_Z (py_int ((seconds - 3600 * inject_Z (Qfloor (seconds / 3600))) / 60))
    +:+ "m".

(* ===================================================================== *)
(** * The outside world                                                  *)
(* ===================================================================== *)

(** The exceptions the code distinguishes.  [KeyboardInterrupt] is not an
    [Exception]; [MemoryError] and [pygame.error] are. *)
Inductive Exn : Type :=
| MemoryError
| KeyboardInterrupt
| PygameError (msg : string)
| OtherError (msg : string).

Definition is_Exception (e : Exn) : bool :=
  match e with
  | KeyboardInterrupt => false
  | _ => true
  end.

(** [str(e)] *)
Definition str_of_exn (e : Exn) : string :=
  match e with
  | MemoryError => EmptyString
  | KeyboardInterrupt => EmptyString
  | PygameError msg => msg
  | OtherError msg => msg
  end.

Inductive Outcome (A : Type) : Type :=
| Ok (a : A)
| Raise (e : Exn)
| Hang.

Arguments Ok {A} a.
Arguments Raise {A} e.
Arguments Hang {A}.

(** A file is known by its text (the playlists) or by its size only (audio). *)
Inductive File : Type :=
| TextFile (content : string)
| DataFile (size : Z).

(** [os.path.getsize] *)
Definition file_size (f : File) : Z :=
  match f with
  | TextFile content => Z.of_nat (String.length content)
  | DataFile size => size
  end.

(** A [pydub.AudioSegment], known by [len(segment)] in milliseconds. *)
Record AudioSegment : Type := { seg_ms : Z }.

Inductive Signal : Type := SIGTERM | SIGKILL.

(** A child process ([subprocess.Popen]). *)
Record Proc : Type := {
  p_running : bool;
  p_returncode : Z;
  p_stderr : string;        (* the whole text of its stderr *)
  p_stubborn : bool;        (* still alive two seconds after SIGTERM *)
  p_signals : list Signal   (* signals received, oldest first *)
}.

(** [pygame.mixer.music] *)
Record Player : Type := {
  pl_loaded : option string;
  pl_playing : bool;
  pl_paused : bool;
  pl_volume : Q
}.

(** [pygame.mixer.music.get_busy()]: false while paused (pygame 2.0.1 and
    later, which [toggle_play_pause] of the front-end relies on). *)
Definition get_busy (p : Player) : bool := pl_playing p && negb (pl_paused p).

Record World : Type := {
  w_fs : gmap string File;
  w_procs : gmap nat Proc;
  w_player : Player;
  w_clock : Q;                     (* [time.time()] *)
  w_next : nat;                    (* source of process ids and temp names *)
  w_progress : list (Z * string)   (* calls of [progress_callback], oldest first *)
}.

(** One piece of a command-line argument: text, or a number that Python
    renders with [str] / [{}]. *)
Inductive Tok : Type :=
| TStr (s : string)
| TNum (q : Q).

Definition Arg : Type := list Tok.
Definition Cmd : Type := list Arg.

(** What one [process.stderr.readline()] of the render loop brings: a line,
    [dt] seconds after the previous one, or Ctrl-C. *)
Inductive ReadEvent : Type :=
| Line (text : string) (dt : Q)
| Interrupt.

(** A run of the encoder started by [render_to_file]. *)
Record RenderRun : Type := {
  rr_spawn_error : option string;   (* [Popen] raises [OSError] *)
  rr_events : list ReadEvent;       (* then end of stream and exit *)
  rr_returncode : Z;
  rr_writes : option Z;             (* size of the output file it leaves, if it writes one *)
  rr_stubborn : bool
}.

(** A run of the encoder started by [play_mix]. *)
Record StreamRun : Type := {
  sr_spawn_error : option string;
  sr_size_at : nat -> Z;            (* size of the temp file at the i-th look *)
  sr_exits_at : option nat;         (* the look from which [poll()] sees it dead *)
  sr_returncode : Z;
  sr_stderr : string;
  sr_load_error : option string;    (* [pygame.error] of [music.load] on its output *)
  sr_stubborn : bool
}.

(** The external programs and libraries. *)
Record Env : Type := {
  ffprobe : string -> option Q;
      (* [get_audio_duration]: the probed duration, [None] on any failure *)
  from_mp3 : string -> Exn + AudioSegment;
  db_to_linear : Q -> Q;                      (* [10 ** (db / 20.0)] *)
  pydub_mix : AudioSegment -> AudioSegment -> Q -> Q -> Q -> Exn + AudioSegment;
  pydub_export : AudioSegment -> string -> Exn + Z;
  render_engine : Cmd -> RenderRun;
  stream_engine : Cmd -> StreamRun
}.

(* ===================================================================== *)
(** * The object                                                         *)
(* ===================================================================== *)

Record AudioProcessor : Type := {
  audiobook : option AudioSegment;
  background_music : option AudioSegment;
  audiobook_path : option string;
  audiobook_files : list string;
  music_path : option string;
  audiobook_speed : Q;
  audiobook_volume : Q;
  music_volume : Q;
  is_playing : bool;
  current_playback_file : option string;
  streaming_process : option nat;
  playback_start_time : Q;
  playback_start_position : Q;
  current_pygame_volume : Q
}.

(** [AudioProcessor.__init__] *)
Definition init_processor : AudioProcessor := {|
  audiobook := None;
  background_music := None;
  audiobook_path := None;
  audiobook_files := [];
  music_path := None;
  audiobook_speed := 1;
  audiobook_volume := 0;
  music_volume := -10;
  is_playing := false;
  current_playback_file := None;
  streaming_process := None;
  playback_start_time := 0;
  playback_start_position := 0;
  current_pygame_volume := 1
|}.

Definition init_player : Player :=
  {| pl_loaded := None; pl_playing := false; pl_paused := false; pl_volume := 1 |}.

(** Truth values of Python objects. *)
Definition truthy_str (o : option string) : bool :=
  match o with
  | Some s => negb (String.eqb s EmptyString)
  | None => false
  end.

Definition truthy_list {A : Type} (l : list A) : bool :=
  match l with
  | [] => false
  | _ :: _ => true
  end.

Definition truthy_float (o : option Q) : bool :=
  match o with
  | Some q => negb (Qeq_bool q 0)
  | None => false
  end.

Definition truthy_segment (o : option AudioSegment) : bool :=
  match o with
  | Some a => negb (seg_ms a =? 0)%Z
  | None => false
  end.

(** Field updates ([self.x = v]). *)

Definition with_audiobook (v : option AudioSegment) (self : AudioProcessor) : AudioProcessor :=
  {| audiobook := v;
     background_music := background_music self;
     audiobook_path := audiobook_path self;
     audiobook_files := audiobook_files self;
     music_path := music_path self;
     audiobook_speed := audiobook_speed self;
     audiobook_volume := audiobook_volume self;
     music_volume := music_volume self;
     is_playing := is_playing self;
     current_playback_file := current_playback_file self;
     streaming_process := streaming_process self;
     playback_start_time := playback_start_time self;
     playback_start_position := playback_start_position self;
     current_pygame_volume := current_pygame_volume self |}.

Definition with_background_music (v : option AudioSegment) (self : AudioProcessor) : AudioProcessor :=
  {| audiobook := audiobook self;
     background_music := v;
     audiobook_path := audiobook_path self;
     audiobook_files := audiobook_files self;
     music_path := music_path self;
     audiobook_speed := audiobook_speed self;
     audiobook_volume := audiobook_volume self;
     music_volume := music_volume self;
     is_playing := is_playing self;
     current_playback_file := current_playback_file self;
     streaming_process := streaming_process self;
     playback_start_time := playback_start_time self;
     playback_start_position := playback_start_position self;
     current_pygame_volume := current_pygame_volume self |}.

Definition with_audiobook_path (v : option string) (self : AudioProcessor) : AudioProcessor :=
  {| audiobook := audiobook self;
     background_music := background_music self;
     audiobook_path := v;
     audiobook_files := audiobook_files self;
     music_path := music_path self;
     audiobook_speed := audiobook_speed self;
     audiobook_volume := audiobook_volume self;
     music_volume := music_volume self;
     is_playing := is_playing self;
     current_playback_file := current_playback_file self;
     streaming_process := streaming_process self;
     playback_start_time := playback_start_time self;
     playback_start_position := playback_start_position self;
     current_pygame_volume := current_pygame_volume self |}.

Definition with_audiobook_files (v : list string) (self : AudioProcessor) : AudioProcessor :=
  {| audiobook := audiobook self;
     background_music := background_music self;
     audiobook_path := audiobook_path self;
     audiobook_files := v;
     music_path := music_path self;
     audiobook_speed := audiobook_speed self;
     audiobook_volume := audiobook_volume self;
     music_volume := music_volume self;
     is_playing := is_playing self;
     current_playback_file := current_playback_file self;
     streaming_process := streaming_process self;
     playback_start_time := playback_start_time self;
     playback_start_position := playback_start_position self;
     current_pygame_volume := current_pygame_volume self |}.

Definition with_music_path (v : option string) (self : AudioProcessor) : AudioProcessor :=
  {| audiobook := audiobook self;
     background_music := background_music self;
     audiobook_path := audiobook_path self;
     audiobook_files := audiobook_files self;
     music_path := v;
     audiobook_speed := audiobook_speed self;
     audiobook_volume := audiobook_volume self;
     music_volume := music_volume self;
     is_playing := is_playing self;
     current_playback_file := current_playback_file self;
     streaming_process := streaming_process self;
     playback_start_time := playback_start_time self;
     playback_start_position := playback_start_position self;
     current_pygame_volume := current_pygame_volume self |}.

Definition with_audiobook_speed (v : Q) (self : AudioProcessor) : AudioProcessor :=
  {| audiobook := audiobook self;
     background_music := background_music self;
     audiobook_path := audiobook_path self;
     audiobook_files := audiobook_files self;
     music_path := music_path self;
     audiobook_speed := v;
     audiobook_volume := audiobook_volume self;
     music_volume := music_volume self;
     is_playing := is_playing self;
     current_playback_file := current_playback_file self;
     streaming_process := streaming_process self;
     playback_start_time := playback_start_time self;
     playback_start_position := playback_start_position self;
     current_pygame_volume := current_pygame_volume self |}.



Definition with_is_playing (v : bool) (self : AudioProcessor) : AudioProcessor :=
  {| audiobook := audiobook self;
     background_music := background_music self;
     audiobook_path := audiobook_path self;
     audiobook_files := audiobook_files self;
     music_path := music_path self;
     audiobook_speed := audiobook_speed self;
     audiobook_volume := audiobook_volume self;
     music_volume := music_volume self;
     is_playing := v;
     current_playback_file := current_playback_file self;
     streaming_process := streaming_process self;
     playback_start_time := playback_start_time self;
     playback_start_position := playback_start_position self;
     current_pygame_volume := current_pygame_volume self |}.

Definition with_current_playback_file (v : option string) (self : AudioProcessor) : AudioProcessor :=
  {| audiobook := audiobook self;
     background_music := background_music self;
     audiobook_path := audiobook_path self;
     audiobook_files := audiobook_files self;
     music_path := music_path self;
     audiobook_speed := audiobook_speed self;
     audiobook_volume := audiobook_volume self;
     music_volume := music_volume self;
     is_playing := is_playing self;
     current_playback_file := v;
     streaming_process := streaming_process self;
     playback_start_time := playback_start_time self;
     playback_start_position := playback_start_position self;
     current_pygame_volume := current_pygame_volume self |}.

Definition with_streaming_process (v : option nat) (self : AudioProcessor) : AudioProcessor :=
  {| audiobook := audiobook self;
     background_music := background_music self;
     audiobook_path := audiobook_path self;
     audiobook_files := audiobook_files self;
     music_path := music_path self;
     audiobook_speed := audiobook_speed self;
     audiobook_volume := audiobook_volume self;
     music_volume := music_volume self;
     is_playing := is_playing self;
     current_playback_file := current_playback_file self;
     streaming_process := v;
     playback_start_time := playback_start_time self;
     playback_start_position := playback_start_position self;
     current_pygame_volume := current_pygame_volume self |}.

Definition with_playback_start_time (v : Q) (self : AudioProcessor) : AudioProcessor :=
  {| audiobook := audiobook self;
     background_music := background_music self;
     audiobook_path := audiobook_path self;
     audiobook_files := audiobook_files self;
     music_path := music_path self;
     audiobook_speed := audiobook_speed self;
     audiobook_volume := audiobook_volume self;
     music_volume := music_volume self;
     is_playing := is_playing self;
     current_playback_file := current_playback_file self;
     streaming_process := streaming_process self;
     playback_start_time := v;
     playback_start_position := playback_start_position self;
     current_pygame_volume := current_pygame_volume self |}.

Definition with_playback_start_position (v : Q) (self : AudioProcessor) : AudioProcessor :=
  {| audiobook := audiobook self;
     background_music := background_music self;
     audiobook_path := audiobook_path self;
     audiobook_files := audiobook_files self;
     music_path := music_path self;
     audiobook_speed := audiobook_speed self;
     audiobook_volume := audiobook_volume self;
     music_volume := music_volume self;
     is_playing := is_playing self;
     current_playback_file := current_playback_file self;
     streaming_process := streaming_process self;
     playback_start_time := playback_start_time self;
     playback_start_position := v;
     current_pygame_volume := current_pygame_volume self |}.

Definition with_current_pygame_volume (v : Q) (self : AudioProcessor) : AudioProcessor :=
  {| audiobook := audiobook self;
     background_music := background_music self;
     audiobook_path := audiobook_path self;
     audiobook_files := audiobook_files self;
     music_path := music_path self;
     audiobook_speed := audiobook_speed self;
     audiobook_volume := audiobook_volume self;
     music_volume := music_volume self;
     is_playing := is_playing self;
     current_playback_file := current_playback_file self;
     streaming_process := streaming_process self;
     playback_start_time := playback_start_time self;
     playback_start_position := playback_start_position self;
     current_pygame_volume := v |}.

Definition set_w_fs (v : gmap string File) (w : World) : World :=
  {| w_fs := v;
     w_procs := w_procs w;
     w_player := w_player w;
     w_clock := w_clock w;
     w_next := w_next w;
     w_progress := w_progress w |}.

Definition set_w_procs (v : gmap nat Proc) (w : World) : World :=
  {| w_fs := w_fs w;
     w_procs := v;
     w_player := w_player w;
     w_clock := w_clock w;
     w_next := w_next w;
     w_progress := w_progress w |}.

Definition set_w_player (v : Player) (w : World) : World :=
  {| w_fs := w_fs w;
     w_procs := w_procs w;
     w_player := v;
     w_clock := w_clock w;
     w_next := w_next w;
     w_progress := w_progress w |}.

Definition set_w_clock (v : Q) (w : World) : World :=
  {| w_fs := w_fs w;
     w_procs := w_procs w;
     w_player := w_player w;
     w_clock := v;
     w_next := w_next w;
     w_progress := w_progress w |}.

Definition set_w_next (v : nat) (w : World) : World :=
  {| w_fs := w_fs w;
     w_procs := w_procs w;
     w_player := w_player w;
     w_clock := w_clock w;
     w_next := v;
     w_progress := w_progress w |}.

Definition set_w_progress (v : list (Z * string)) (w : World) : World :=
  {| w_fs := w_fs w;
     w_procs := w_procs w;
     w_player := w_player w;
     w_clock := w_clock w;
     w_next := w_next w;
     w_progress := v |}.

(* ===================================================================== *)
(** * The monad of the methods: state, exceptions, divergence            *)
(* ===================================================================== *)

Record State : Type := { st_world : World; st_self : AudioProcessor }.

Definition M (A : Type) : Type := State -> Outcome A * State.

Definition ret {A : Type} (a : A) : M A := fun st => (Ok a, st).

Definition bind {A B : Type} (m : M A) (f : A -> M B) : M B :=
  fun st =>
    match m st with
    | (Ok a, st') => f a st'
    | (Raise e, st') => (Raise e, st')
    | (Hang, st') => (Hang, st')
    end.

Definition raise {A : Type} (e : Exn) : M A := fun st => (Raise e, st).

Definition hang {A : Type} : M A := fun st => (Hang, st).

Notation "x <- m ;; k" := (bind m (fun x => k))
  (at level 100, m at next level, right associativity).
Notation "m ;; k" := (bind m (fun _ => k))
  (at level 100, right associativity).

(** [try: body / except ...: handler]; the handler says which exceptions it
    takes. *)
Definition try_except {A : Type} (body : M A) (handler : Exn -> option (M A)) : M A :=
  fun st =>
    match body st with
    | (Raise e, st') =>
        match handler e with
        | Some k => k st'
        | None => (Raise e, st')
        end
    | r => r
    end.

(** [try: body / except: pass] *)
Definition try_pass (body : M unit) : M unit :=
  try_except body (fun _ => Some (ret tt)).

Definition get_self : M AudioProcessor := fun st => (Ok (st_self st), st).

Definition get_world : M World := fun st => (Ok (st_world st), st).

Definition update_self (f : AudioProcessor -> AudioProcessor) : M unit :=
  fun st => (Ok tt, {| st_world := st_world st; st_self := f (st_self st) |}).

Definition update_world (f : World -> World) : M unit :=
  fun st => (Ok tt, {| st_world := f (st_world st); st_self := st_self st |}).

(** ** Clock, files, progress *)

(** [time.time()] *)
Definition time_now : M Q := w <- get_world ;; ret (w_clock w).

(** [time.sleep(dt)] *)
Definition sleep (dt : Q) : M unit :=
  update_world (fun w => set_w_clock (w_clock w + dt) w).

(** [os.path.exists] *)
Definition path_exists (p : string) : M bool :=
  w <- get_world ;;
  ret (match w_fs w !! p with Some _ => true | None => false end).

Definition no_such_file (p : string) : Exn :=
  OtherError ("[Errno 2] No such file or directory: '" +:+ p +:+ "'").

(** [os.path.getsize] *)
Definition getsize (p : string) : M Z :=
  w <- get_world ;;
  match w_fs w !! p with
  | Some f => ret (file_size f)
  | None => raise (no_such_file p)
  end.

(** [os.unlink] *)
Definition unlink (p : string) : M unit :=
  w <- get_world ;;
  match w_fs w !! p with
  | Some _ => update_world (fun w => set_w_fs (delete p (w_fs w)) w)
  | None => raise (no_such_file p)
  end.

Definition write_file (p : string) (f : File) : M unit :=
  update_world (fun w => set_w_fs (<[p := f]> (w_fs w)) w).

(** [tempfile.NamedTemporaryFile(suffix=..., delete=False)], written and
    closed: a new file under a name not used before. *)
Definition named_temporary_file (suffix : string) (f : File) : M string :=
  w <- get_world ;;
  let name := "/tmp/tmp" +:+ str_of_Z (Z.of_nat (w_next w)) +:+ suffix in
  update_world (fun w => set_w_next (S (w_next w)) (set_w_fs (<[name := f]> (w_fs w)) w)) ;;
  ret name.

(** [if progress_callback: progress_callback(percent, message)] *)
Definition progress (progress_callback : bool) (percent : Z) (message : string) : M unit :=
  if progress_callback then
    update_world (fun w => set_w_progress (w_progress w ++ [(percent, message)]) w)
  else ret tt.

(** ** Child processes *)

Definition exited_proc : Proc :=
  {| p_running := false; p_returncode := 0; p_stderr := EmptyString;
     p_stubborn := false; p_signals := [] |}.

Definition lookup_proc (pid : nat) (w : World) : Proc :=
  match w_procs w !! pid with
  | Some p => p
  | None => exited_proc
  end.

Definition update_proc (pid : nat) (f : Proc -> Proc) : M unit :=
  update_world (fun w => set_w_procs (<[pid := f (lookup_proc pid w)]> (w_procs w)) w).

(** [subprocess.Popen(...)] once the executable is found. *)
Definition spawn (returncode : Z) (stderr : string) (stubborn : bool) : M nat :=
  w <- get_world ;;
  let pid := w_next w in
  update_world (fun w =>
    set_w_next (S pid)
      (set_w_procs (<[pid := {| p_running := true; p_returncode := returncode;
                               p_stderr := stderr; p_stubborn := stubborn;
                               p_signals := [] |}]> (w_procs w)) w)) ;;
  ret pid.

Definition proc_exit (p : Proc) : Proc :=
  {| p_running := false; p_returncode := p_returncode p; p_stderr := p_stderr p;
     p_stubborn := p_stubborn p; p_signals := p_signals p |}.

Definition proc_signal (sig : Signal) (dies : bool) (rc : Z) (p : Proc) : Proc :=
  {| p_running := negb dies; p_returncode := if dies then rc else p_returncode p;
     p_stderr := p_stderr p; p_stubborn := p_stubborn p;
     p_signals := p_signals p ++ [sig] |}.

(** [process.poll()] *)
Definition proc_poll (pid : nat) : M (option Z) :=
  w <- get_world ;;
  let p := lookup_proc pid w in
  ret (if p_running p then None else Some (p_returncode p)).

(** [process.terminate()]: nothing is sent to a process that has exited. *)
Definition proc_terminate (pid : nat) : M unit :=
  w <- get_world ;;
  let p := lookup_proc pid w in
  if p_running p then update_proc pid (proc_signal SIGTERM (negb (p_stubborn p)) (-15))
  else ret tt.

(** [process.kill()] *)
Definition proc_kill (pid : nat) : M unit :=
  w <- get_world ;;
  if p_running (lookup_proc pid w) then update_proc pid (proc_signal SIGKILL true (-9))
  else ret tt.

(** [process.wait(timeout=t)] *)
Definition proc_wait_timeout (pid : nat) (t : Q) : M Z :=
  w <- get_world ;;
  let p := lookup_proc pid w in
  if p_running p then
    sleep t ;;
    raise (OtherError ("Command timed out after " +:+ format_fixed 0 t +:+ " seconds"))
  else ret (p_returncode p).

(** [process.stderr.read().decode('utf-8', errors='ignore')]: returns at
    the end of the stream, when the process has exited. *)
Definition proc_read_stderr (pid : nat) : M string :=
  update_proc pid proc_exit ;;
  w <- get_world ;;
  ret (p_stderr (lookup_proc pid w)).

(** The termination ladder [try: terminate(); wait(timeout=2) /
    except: kill()]. *)
Definition terminate_then_kill (pid : nat) (guard_kill : bool) : M unit :=
  try_except (proc_terminate pid ;; _ <- proc_wait_timeout pid 2 ;; ret tt)
    (fun _ => Some (if guard_kill then try_pass (proc_kill pid) else proc_kill pid)).

(** ** The music player *)

Definition update_player (f : Player -> Player) : M unit :=
  update_world (fun w => set_w_player (f (w_player w)) w).

Definition music_stop : M unit :=
  update_player (fun p => {| pl_loaded := pl_loaded p; pl_playing := false;
                            pl_paused := false; pl_volume := pl_volume p |}).

Definition music_load (path : string) (load_error : option string) : M unit :=
  match load_error with
  | Some msg => raise (PygameError msg)
  | None =>
      update_player (fun p => {| pl_loaded := Some path; pl_playing := false;
                                pl_paused := false; pl_volume := pl_volume p |})
  end.

Definition music_play : M unit :=
  update_player (fun p => {| pl_loaded := pl_loaded p; pl_playing := true;
                            pl_paused := false; pl_volume := pl_volume p |}).

Definition music_pause : M unit :=
  update_player (fun p => {| pl_loaded := pl_loaded p; pl_playing := pl_playing p;
                            pl_paused := true; pl_volume := pl_volume p |}).

Definition music_unpause : M unit :=
  update_player (fun p => {| pl_loaded := pl_loaded p; pl_playing := pl_playing p;
                            pl_paused := false; pl_volume := pl_volume p |}).

Definition music_set_volume (v : Q) : M unit :=
  update_player (fun p => {| pl_loaded := pl_loaded p; pl_playing := pl_playing p;
                            pl_paused := pl_paused p; pl_volume := v |}).

Definition music_get_busy : M bool := w <- get_world ;; ret (get_busy (w_player w)).

(* ===================================================================== *)
(** * The methods of [AudioProcessor]                                    *)
(* ===================================================================== *)

Definition MB : Q := inject_Z (1024 * 1024).

Section Methods.

Variable E : Env.

(** [get_audio_duration]: every failure of the probe is [None]; so is a
    path that is [None]. *)
Definition get_audio_duration (file_path : option string) : option Q :=
  match file_path with
  | Some p => ffprobe E p
  | None => None
  end.

(** The loop [for file_path in self.audiobook_files: d = probe(file_path);
    if d: total += d], from [total = 0]. *)
Definition total_duration_of (files : list string) : Q :=
  fold_left
    (fun total file_path =>
       match get_audio_duration (Some file_path) with
       | Some d => if truthy_float (Some d) then total + d else total
       | None => total
       end)
    files 0.

(** [with_audiobook_speed]: [max(0.5, min(2.0, speed))] *)
Definition set_audiobook_speed (speed : Q) : M unit :=
  update_self (with_audiobook_speed (Qmax (1 # 2) (Qmin 2 speed))).

(** [_update_playback_volume] *)
Definition _update_playback_volume : M unit :=
  self <- get_self ;;
  busy <- music_get_busy ;;
  if is_playing self && busy then
    let audiobook_linear := db_to_linear E (audiobook_volume self) in
    let music_linear := db_to_linear E (music_volume self) in
    let combined_linear := audiobook_linear * (7 # 10) + music_linear * (3 # 10) in
    let pygame_volume := Qmax 0 (Qmin 1 combined_linear) in
    music_set_volume pygame_volume ;;
    update_self (with_current_pygame_volume pygame_volume)
  else ret tt.



(** [stop_playback] *)
Definition stop_playback : M (bool * string) :=
  try_except
    (music_stop ;;
     update_self (with_is_playing false) ;;
     self <- get_self ;;
     (* Stop streaming process if running *)
     match streaming_process self with
     | Some pid =>
         terminate_then_kill pid true ;;
         update_self (with_streaming_process None)
     | None => ret tt
     end ;;
     (* Clean up temporary playback file *)
     self <- get_self ;;
     present <- match current_playback_file self with
                | Some f => if truthy_str (Some f) then path_exists f else ret false
                | None => ret false
                end ;;
     match current_playback_file self, present with
     | Some f, true =>
         try_pass (sleep (1 # 10) ;; unlink f) ;;
         update_self (with_current_playback_file None)
     | _, _ => ret tt
     end ;;
     ret (true, "Playback stopped"))
    (fun e =>
       if is_Exception e
       then Some (ret (false, "Error stopping playback: " +:+ str_of_exn e))
       else None).

(** [pause_playback] *)
Definition pause_playback : M (bool * string) :=
  try_except
    (self <- get_self ;;
     busy <- music_get_busy ;;
     if is_playing self && busy then
       music_pause ;; ret (true, "Playback paused")
     else ret (false, "No audio is currently playing"))
    (fun e =>
       if is_Exception e
       then Some (ret (false, "Error pausing playback: " +:+ str_of_exn e))
       else None).

(** [resume_playback] *)
Definition resume_playback : M (bool * string) :=
  try_except
    (music_unpause ;; ret (true, "Playback resumed"))
    (fun e =>
       if is_Exception e
       then Some (ret (false, "Error resuming playback: " +:+ str_of_exn e))
       else None).

(** [is_audio_playing] *)
Definition is_audio_playing : M bool :=
  try_except music_get_busy (fun _ => Some (ret false)).

(** [get_playback_position] *)
Definition get_playback_position : M Q :=
  self <- get_self ;;
  if negb (is_playing self) then ret 0
  else
    try_except
      (now <- time_now ;;
       (* Calculate elapsed time since playback started *)
       let elapsed := now - playback_start_time self in
       (* Add to the starting position *)
       let current_position := playback_start_position self + elapsed in
       ret current_position)
      (fun _ => Some (ret 0)).

Definition division_by_none : Exn :=
  OtherError "unsupported operand type(s) for /: 'NoneType' and 'int'".

(** The second [except] clause of the two loaders. *)
Definition load_error_result (what : string) (e : Exn) : bool * string :=
  let error_msg := str_of_exn e in
  if contains "format" (lower error_msg) || contains "codec" (lower error_msg) then
    (false, "Audio format issue. Make sure the file is a valid MP3. Error: " +:+ error_msg)
  else (false, "Error analyzing " +:+ what +:+ ": " +:+ error_msg).

(** [load_audiobook] *)
Definition load_audiobook (file_path : string) (progress_callback : bool)
  : M (bool * string) :=
  try_except
    (update_self (with_audiobook_path (Some file_path)) ;;
     (* Get file size for progress indication *)
     bytes <- getsize file_path ;;
     let file_size := inject_Z bytes / MB in
     progress progress_callback 0
       ("Analyzing audiobook (" +:+ format_fixed 1 file_size +:+ " MB)...") ;;
     (* Get duration first without loading *)
     let duration_seconds := get_audio_duration (Some file_path) in
     match duration_seconds with
     | Some d =>
         if truthy_float (Some d) then
           progress progress_callback 50
             ("Duration: " +:+ format_fixed 1 (d / 60) +:+ " minutes")
         else ret tt
     | None => ret tt
     end ;;
     if Qlt_bool 300 file_size then
       progress progress_callback 100
         "Ready for streaming playback (file will not be loaded into memory)" ;;
       update_self (with_audiobook None) ;;
       match duration_seconds with
       | Some d =>
           ret (true, "Ready: " +:+ basename file_path +:+ " ("
                      +:+ format_fixed 1 (d / 60) +:+ " min, "
                      +:+ format_fixed 1 file_size +:+ " MB) - Streaming mode")
       | None => raise division_by_none
       end
     else
       progress progress_callback 60 "Loading audio data..." ;;
       match from_mp3 E file_path with
       | inl e => raise e
       | inr segment =>
           update_self (with_audiobook (Some segment)) ;;
           progress progress_callback 100 "Audiobook loaded!" ;;
           let duration := inject_Z (seg_ms segment) / 1000 in
           ret (true, "Loaded: " +:+ basename file_path +:+ " ("
                      +:+ format_fixed 1 duration +:+ "s, "
                      +:+ format_fixed 1 file_size +:+ " MB)")
       end)
    (fun e =>
       match e with
       | MemoryError =>
           (* Even if loading fails, we can still stream it *)
           Some (update_self (with_audiobook None) ;;
                 progress progress_callback 100
                   "File too large for preview, but streaming playback available" ;;
                 ret (true, "Ready for streaming: " +:+ basename file_path
                            +:+ " (too large to load, streaming only)"))
       | KeyboardInterrupt => None
       | _ => Some (ret (load_error_result "audiobook" e))
       end).

(** [load_background_music] *)
Definition load_background_music (file_path : string) (progress_callback : bool)
  : M (bool * string) :=
  try_except
    (update_self (with_music_path (Some file_path)) ;;
     bytes <- getsize file_path ;;
     let file_size := inject_Z bytes / MB in
     progress progress_callback 0
       ("Analyzing music (" +:+ format_fixed 1 file_size +:+ " MB)...") ;;
     let duration_seconds := get_audio_duration (Some file_path) in
     match duration_seconds with
     | Some d =>
         if truthy_float (Some d) then
           progress progress_callback 50
             ("Duration: " +:+ format_fixed 1 d +:+ " seconds")
         else ret tt
     | None => ret tt
     end ;;
     if Qlt_bool 100 file_size then
       progress progress_callback 100
         "Ready for streaming playback (file will not be loaded into memory)" ;;
       update_self (with_background_music None) ;;
       match duration_seconds with
       | Some d =>
           ret (true, "Ready: " +:+ basename file_path +:+ " ("
                      +:+ format_fixed 1 d +:+ "s, "
                      +:+ format_fixed 1 file_size +:+ " MB) - Streaming mode")
       | None =>
           raise (OtherError "unsupported format string passed to NoneType.__format__")
       end
     else
       progress progress_callback 60 "Loading audio data..." ;;
       match from_mp3 E file_path with
       | inl e => raise e
       | inr segment =>
           update_self (with_background_music (Some segment)) ;;
           progress progress_callback 100 "Music loaded!" ;;
           let duration := inject_Z (seg_ms segment) / 1000 in
           ret (true, "Loaded: " +:+ basename file_path +:+ " ("
                      +:+ format_fixed 1 duration +:+ "s, "
                      +:+ format_fixed 1 file_size +:+ " MB)")
       end)
    (fun e =>
       match e with
       | MemoryError =>
           Some (update_self (with_background_music None) ;;
                 progress progress_callback 100
                   "File too large for preview, but streaming playback available" ;;
                 ret (true, "Ready for streaming: " +:+ basename file_path
                            +:+ " (too large to load, streaming only)"))
       | KeyboardInterrupt => None
       | _ => Some (ret (load_error_result "music" e))
       end).

(** ** [play_mix] *)

Definition need_both : bool * string :=
  (false, "Please load both audiobook and background music first.").

Definition no_duration : bool * string :=
  (false, "Could not determine audiobook duration").

Definition zero_division : Exn := OtherError "float division by zero".

(** [a / b] on floats *)
Definition py_div (a b : Q) : M Q :=
  if Qeq_bool b 0 then raise zero_division else ret (a / b).

(** [self._build_atempo_filter(self.audiobook_speed)]: the loops of the
    builder end for a positive speed within [enough_fuel] rounds, and never
    for another one. *)
Definition build_atempo : M string :=
  self <- get_self ;;
  let speed := audiobook_speed self in
  match _build_atempo_filter (enough_fuel speed) speed with
  | Some atempo_filter => ret atempo_filter
  | None => hang
  end.

Definition truthy_text (s : string) : bool := negb (String.eqb s EmptyString).

(** The filter of the audiobook input in the streaming commands:
    [f'[0:a]{trim}{atempo_filter},volume={volume}dB[a];'] *)
Definition stream_audiobook_filter (trim : list Tok) (atempo_filter : string) (volume : Q)
  : Arg :=
  if truthy_text atempo_filter then
    [TStr "[0:a]"] ++ trim ++ [TStr atempo_filter; TStr ",volume="; TNum volume; TStr "dB[a];"]
  else
    [TStr "[0:a]"] ++ trim ++ [TStr "volume="; TNum volume; TStr "dB[a];"].

Definition stream_mix_filter (audiobook_filter : Arg) (music_vol : Q) : Arg :=
  audiobook_filter
  ++ [TStr "[1:a]volume="; TNum music_vol; TStr "dB[m];";
      TStr "[a][m]amix=inputs=2:duration=first:dropout_transition=0"].

Definition stream_output_args (duration_to_play : Q) (temp_path : string) : Cmd :=
  [[TStr "-t"]; [TNum duration_to_play];
   [TStr "-ac"]; [TStr "1"];
   [TStr "-ar"]; [TStr "22050"];
   [TStr "-acodec"]; [TStr "pcm_s16le"];
   [TStr "-f"]; [TStr "wav"];
   [TStr "-y"]; [TStr temp_path]].

Definition concat_input_args (concat_file_path music : string) : Cmd :=
  [[TStr "ffmpeg"]; [TStr "-f"]; [TStr "concat"]; [TStr "-safe"]; [TStr "0"];
   [TStr "-i"]; [TStr concat_file_path];
   [TStr "-stream_loop"]; [TStr "-1"]; [TStr "-i"]; [TStr music]; [TStr "-filter_complex"]].

(** What [play_mix] has in its local variables when it starts the encoder. *)
Record Prepared : Type := {
  pr_temp_path : string;
  pr_concat_file_path : option string;
  pr_cmd : Cmd;
  pr_start_position : Q
}.

(** The [except Exception as e] clause of [play_mix]; [concat_file_path] is
    the local variable of that name, [None] while it is not yet bound. *)
Definition play_mix_handler (concat_file_path : option string) (e : Exn)
  : option (M (bool * string)) :=
  if is_Exception e then
    Some
      (self <- get_self ;;
       (* Clean up on error *)
       match streaming_process self with
       | Some pid =>
           try_pass (_ <- proc_read_stderr pid ;; proc_terminate pid) ;;
           update_self (with_streaming_process None)
       | None => ret tt
       end ;;
       (* Clean up concat file on error *)
       match concat_file_path with
       | Some p =>
           present <- path_exists p ;;
           if truthy_str (Some p) && present then try_pass (unlink p) else ret tt
       | None => ret tt
       end ;;
       ret (false, "Error streaming audio: " +:+ str_of_exn e))
  else None.

(** [play_mix], from [self.stop_playback()] to the command line. *)
Definition play_mix_prepare (start_position : Q) : M ((bool * string) + Prepared) :=
  (* Stop any current playback first *)
  _ <- stop_playback ;;
  self <- get_self ;;
  (* Get duration - handle both single file and multiple files *)
  let duration_opt :=
    if truthy_list (audiobook_files self) then
      let duration := total_duration_of (audiobook_files self) in
      if Qeq_bool duration 0 then None else Some duration
    else
      let duration := get_audio_duration (audiobook_path self) in
      if truthy_float duration then duration else None in
  match duration_opt with
  | None => ret (inl no_duration)
  | Some duration =>
      (* Calculate adjusted duration with speed *)
      adjusted_duration <- py_div duration (audiobook_speed self) ;;
      (* Create a temporary file for streaming output *)
      temp_path <- named_temporary_file ".wav" (DataFile 0) ;;
      atempo_filter <- build_atempo ;;
      let music := match music_path self with Some m => m | None => EmptyString end in
      if truthy_list (audiobook_files self) then
        (* Multiple files - create concat file *)
        concat_file_path <-
          named_temporary_file ".txt" (TextFile (concat_list (audiobook_files self))) ;;
        let trim :=
          if Qlt_bool 0 start_position
          then [TStr "atrim=start="; TNum start_position; TStr ","]
          else [] in
        let audiobook_filter :=
          stream_audiobook_filter trim atempo_filter (audiobook_volume self) in
        ret (inr {| pr_temp_path := temp_path;
                    pr_concat_file_path := Some concat_file_path;
                    pr_cmd := concat_input_args concat_file_path music
                              ++ [stream_mix_filter audiobook_filter (music_volume self)]
                              ++ stream_output_args (adjusted_duration - start_position)
                                                    temp_path;
                    pr_start_position := start_position |})
      else
        (* Single file mode *)
        let audiobook_filter :=
          stream_audiobook_filter [] atempo_filter (audiobook_volume self) in
        let book := match audiobook_path self with Some b => b | None => EmptyString end in
        ret (inr {| pr_temp_path := temp_path;
                    pr_concat_file_path := None;
                    pr_cmd := [[TStr "ffmpeg"]; [TStr "-ss"]; [TNum start_position];
                               [TStr "-i"]; [TStr book];
                               [TStr "-stream_loop"]; [TStr "-1"];
                               [TStr "-i"]; [TStr music]; [TStr "-filter_complex"]]
                              ++ [stream_mix_filter audiobook_filter (music_volume self)]
                              ++ stream_output_args (adjusted_duration - start_position)
                                                    temp_path;
                    pr_start_position := start_position |})
  end.

(** [self.streaming_process = subprocess.Popen(ffmpeg_cmd, ...)] *)
Definition play_mix_spawn (p : Prepared) : M unit :=
  let run := stream_engine E (pr_cmd p) in
  match sr_spawn_error run with
  | Some msg => raise (OtherError msg)
  | None =>
      pid <- spawn (sr_returncode run) (sr_stderr run) (sr_stubborn run) ;;
      update_self (with_streaming_process (Some pid))
  end.

(** What the encoder has done by the [i]-th look of the polling loop. *)
Definition encoder_progress (p : Prepared) (pid : nat) (i : nat) : M unit :=
  let run := stream_engine E (pr_cmd p) in
  w <- get_world ;;
  if p_running (lookup_proc pid w) then
    write_file (pr_temp_path p) (DataFile (sr_size_at run i)) ;;
    match sr_exits_at run with
    | Some j => if (j <=? i)%nat then update_proc pid proc_exit else ret tt
    | None => ret tt
    end
  else ret tt.

Definition none_has_no_poll : Exn :=
  OtherError "'NoneType' object has no attribute 'poll'".

Definition min_file_size : Z := 200000.

(** The loop [while retry_count < 20], entered with [retry_count] and
    [20 - retry_count = rounds] rounds left.  [Some r]: the method returns
    [r]; [None]: the loop is left (by [break] or by its condition). *)
Fixpoint play_mix_poll (p : Prepared) (rounds retry_count : nat)
  : M (option (bool * string)) :=
  match rounds with
  | O => ret None
  | S rounds' =>
      self <- get_self ;;
      match streaming_process self with
      | Some pid => encoder_progress p pid retry_count
      | None => ret tt
      end ;;
      (* Check if file exists and has enough data *)
      present <- path_exists (pr_temp_path p) ;;
      enough <-
        (if present then
           size <- getsize (pr_temp_path p) ;;
           if (min_file_size <? size)%Z then ret true
           else if (0 <? size)%Z then sleep (1 # 2) ;; ret false
           else sleep (3 # 10) ;; ret false
         else sleep (3 # 10) ;; ret false) ;;
      if enough then ret None
      else
        (* Check if ffmpeg has failed *)
        self <- get_self ;;
        match streaming_process self with
        | None => raise none_has_no_poll
        | Some pid =>
            status <- proc_poll pid ;;
            match status with
            | Some _ =>
                stderr_output <- proc_read_stderr pid ;;
                ret (Some (false, "FFmpeg failed: " +:+ str_last 500 stderr_output))
            | None => play_mix_poll p rounds' (S retry_count)
            end
        end
  end.

(** The end of [play_mix]: the two checks of the file, then the player. *)
Definition play_mix_start (p : Prepared) : M (bool * string) :=
  let temp_path := pr_temp_path p in
  let run := stream_engine E (pr_cmd p) in
  present <- path_exists temp_path ;;
  if negb present then ret (false, "Failed to generate audio stream file")
  else
    size <- getsize temp_path ;;
    if (size <? min_file_size)%Z then
      ret (false, "Audio file too small (" +:+ str_of_Z size
                  +:+ " bytes), ffmpeg may have failed")
    else
      (* Start playing while ffmpeg continues streaming *)
      try_except
        (music_load temp_path (sr_load_error run) ;;
         _update_playback_volume ;;
         music_play ;;
         update_self (with_is_playing true) ;;
         update_self (with_current_playback_file (Some temp_path)) ;;
         (* Track playback position *)
         now <- time_now ;;
         update_self (with_playback_start_time now) ;;
         update_self (with_playback_start_position (pr_start_position p)) ;;
         (* Clean up concat file after playback starts *)
         match pr_concat_file_path p with
         | Some c =>
             present <- path_exists c ;;
             if truthy_str (Some c) && present then try_pass (unlink c) else ret tt
         | None => ret tt
         end ;;
         ret (true, "Streaming mixed audio (starting from "
                    +:+ format_fixed 0 (pr_start_position p) +:+ "s)..."))
        (fun e =>
           match e with
           | PygameError msg =>
               Some
                 (self <- get_self ;;
                  match streaming_process self with
                  | Some pid =>
                      _ <- proc_read_stderr pid ;;
                      proc_terminate pid ;;
                      update_self (with_streaming_process None)
                  | None => ret tt
                  end ;;
                  match pr_concat_file_path p with
                  | Some c =>
                      present <- path_exists c ;;
                      if truthy_str (Some c) && present then try_pass (unlink c) else ret tt
                  | None => ret tt
                  end ;;
                  size <- getsize temp_path ;;
                  ret (false, "Playback error: " +:+ msg +:+ ". File size: "
                              +:+ str_of_Z size +:+ " bytes. Check ffmpeg output."))
           | _ => None
           end).

(** [play_mix(start_position)] *)
Definition play_mix (start_position : Q) : M (bool * string) :=
  self <- get_self ;;
  let has_audiobook :=
    truthy_str (audiobook_path self) || truthy_list (audiobook_files self) in
  if negb has_audiobook || negb (truthy_str (music_path self)) then ret need_both
  else
    prepared <-
      try_except (play_mix_prepare start_position)
        (fun e => option_map (fun k => r <- k ;; ret (inl r)) (play_mix_handler None e)) ;;
    match prepared with
    | inl early => ret early
    | inr p =>
        try_except
          (play_mix_spawn p ;;
           (* Wait for ffmpeg to generate enough audio data *)
           sleep 1 ;;
           early <- play_mix_poll p 20 0 ;;
           match early with
           | Some r => ret r
           | None => play_mix_start p
           end)
          (play_mix_handler (pr_concat_file_path p))
    end.

(** The object and the world at the moment [play_mix] has started the
    encoder and waits for the first bytes. *)
Definition play_mix_until_buffering (start_position : Q)
  : M ((bool * string) + Prepared) :=
  prepared <- play_mix_prepare start_position ;;
  match prepared with
  | inl early => ret (inl early)
  | inr p => play_mix_spawn p ;; ret (inr p)
  end.

(** [seek_to_position] *)
Definition seek_to_position (position_seconds : Q) : M (bool * string) :=
  self <- get_self ;;
  let has_audiobook :=
    truthy_str (audiobook_path self) || truthy_list (audiobook_files self) in
  if negb has_audiobook || negb (truthy_str (music_path self)) then
    ret (false, "No audio loaded")
  else
    (* Restart playback from new position *)
    was_playing <- is_audio_playing ;;
    self <- get_self ;;
    if was_playing || is_playing self then
      (* Stop current playback and start from new position *)
      _ <- play_mix position_seconds ;;
      ret (true, "Seeked to " +:+ format_fixed 0 position_seconds +:+ "s")
    else
      (* Not playing, just update the position for next play *)
      ret (true, "Position set to " +:+ format_fixed 0 position_seconds +:+ "s").

(** [play_mix()]: the default [start_position=0]. *)
Definition play_mix_no_offset : M (bool * string) := play_mix 0.

(** ** [render_to_file] *)

(** [mix_audio] *)
Definition mix_audio : M (option AudioSegment * string) :=
  self <- get_self ;;
  match audiobook self, background_music self with
  | Some book, Some music =>
      if truthy_segment (Some book) && truthy_segment (Some music) then
        match pydub_mix E book music (audiobook_speed self) (audiobook_volume self)
                        (music_volume self) with
        | inr mixed_audio => ret (Some mixed_audio, "Audio mixed successfully")
        | inl e =>
            if is_Exception e
            then ret (None, "Error mixing audio: " +:+ str_of_exn e)
            else raise e
        end
      else ret (None, "Please load both audiobook and background music first.")
  | _, _ => ret (None, "Please load both audiobook and background music first.")
  end.

(** The in-memory branch of [render_to_file]. *)
Definition render_in_memory (output_path : string) (progress_callback : bool)
  : M (bool * string) :=
  progress progress_callback 10 "Mixing audio in memory..." ;;
  mixed <- mix_audio ;;
  let '(mixed_audio, message) := mixed in
  match mixed_audio with
  | Some mixed =>
      if truthy_segment (Some mixed) then
        progress progress_callback 50 "Exporting audio..." ;;
        match pydub_export E mixed output_path with
        | inl e => raise e
        | inr size =>
            write_file output_path (DataFile size) ;;
            progress progress_callback 100 "Export complete!" ;;
            ret (true, "Audio saved to: " +:+ output_path)
        end
      else ret (false, message)
  | None => ret (false, message)
  end.

(** The audiobook filter of the render commands. *)
Definition render_audiobook_filter (atempo_filter : string) (volume : Q) : Arg :=
  if truthy_text atempo_filter then
    [TStr "[0:a]aresample=44100,"; TStr atempo_filter; TStr ",volume="; TNum volume;
     TStr "dB[a];"]
  else [TStr "[0:a]aresample=44100,volume="; TNum volume; TStr "dB[a];"].

(** The arguments of the render commands from [-filter_complex] on; a
    [music_path] that is [None] stays [None] in the list. *)
Definition render_tail (audiobook_filter : Arg) (music_vol adjusted_duration : Q)
    (output_path : string) : Cmd :=
  [[TStr "-filter_complex"];
   audiobook_filter
   ++ [TStr "[1:a]aresample=44100,volume="; TNum music_vol; TStr "dB[m];";
       TStr "[a][m]amix=inputs=2:duration=first:dropout_transition=0[out]"];
   [TStr "-map"]; [TStr "[out]"];
   [TStr "-t"]; [TNum adjusted_duration];
   [TStr "-c:a"]; [TStr "libmp3lame"];
   [TStr "-b:a"]; [TStr "192k"];
   [TStr "-ar"]; [TStr "44100"];
   [TStr "-q:a"]; [TStr "2"];
   [TStr "-threads"]; [TStr "0"];
   [TStr "-loglevel"]; [TStr "warning"];
   [TStr "-stats"];
   [TStr "-y"];
   [TStr output_path]].

Definition opt_arg (o : option string) : Arg :=
  match o with
  | Some s => [TStr s]
  | None => []
  end.

Definition popen_none : Exn :=
  OtherError "expected str, bytes or os.PathLike object, not NoneType".

(** U+2022, the bullet of the progress messages, in UTF-8. *)
Definition bullet : string :=
  String (ascii_of_nat 226) (String (ascii_of_nat 128) (String (ascii_of_nat 162) EmptyString)).

(** The body of [if time_match and progress_callback:] once the throttle
    has let the line through: the call of the callback, if any. *)
Definition progress_report (current_seconds adjusted_duration start_time current_time : Q)
  : option (Z * string) :=
  if Qlt_bool 0 adjusted_duration && Qlt_bool 0 current_seconds then
    let ratio := progress_ratio current_seconds adjusted_duration in
    let pct := progress_pct current_seconds adjusted_duration in
    (* Calculate time remaining *)
    let elapsed_time := current_time - start_time in
    let current_min := current_seconds / 60 in
    let total_min := adjusted_duration / 60 in
    let head :=
      str_of_Z pct +:+ "% " +:+ bullet +:+ " " +:+ format_fixed 1 current_min +:+ "/"
      +:+ format_fixed 1 total_min +:+ " min " +:+ bullet +:+ " " in
    if Qlt_bool (1 # 100) ratio then
      let estimated_total_time := elapsed_time / ratio in
      let remaining_time := Qmax 0 (estimated_total_time - elapsed_time) in
      let speed_ratio :=
        if Qlt_bool 0 elapsed_time then current_seconds / elapsed_time else 1 in
      Some (pct, head +:+ format_fixed 2 speed_ratio +:+ "x speed " +:+ bullet
                 +:+ " ETA: " +:+ format_time remaining_time)
    else
      (* Early progress, no reliable ETA yet *)
      Some (pct, head +:+ "Calculating ETA...")
  else None.

(** The local variables the reading loop of [render_to_file] updates. *)
Record ReadLoop : Type := {
  rl_stderr_lines : list string;
  rl_last_update_time : Q
}.

(** One line read by the loop: [stderr_lines.append(line)], then the
    progress report unless the line has no time stamp, there is no
    callback, or the previous update is less than 0.3 s old. *)
Definition render_line (progress_callback : bool) (adjusted_duration start_time : Q)
    (line : string) (loop : ReadLoop) : M ReadLoop :=
  let stderr_lines := rl_stderr_lines loop ++ [line] in
  match search_time line with
  | Some time_match =>
      if progress_callback then
        let current_seconds := current_seconds_of time_match in
        (* Throttle updates to every 0.3 seconds to avoid UI spam *)
        current_time <- time_now ;;
        if Qlt_bool (current_time - rl_last_update_time loop) (3 # 10) then
          ret {| rl_stderr_lines := stderr_lines;
                 rl_last_update_time := rl_last_update_time loop |}
        else
          match progress_report current_seconds adjusted_duration start_time
                                current_time with
          | Some (pct, message) => progress true pct message
          | None => ret tt
          end ;;
          ret {| rl_stderr_lines := stderr_lines; rl_last_update_time := current_time |}
      else ret {| rl_stderr_lines := stderr_lines;
                  rl_last_update_time := rl_last_update_time loop |}
  | None => ret {| rl_stderr_lines := stderr_lines;
                   rl_last_update_time := rl_last_update_time loop |}
  end.

(** The loop [while True: line = process.stderr.readline() ...] over what
    the successive reads bring; at the end of the stream the process has
    exited and has left its output. *)
Fixpoint render_read (progress_callback : bool) (adjusted_duration start_time : Q)
    (pid : nat) (run : RenderRun) (output_path : string)
    (events : list ReadEvent) (loop : ReadLoop) : M ReadLoop :=
  match events with
  | [] =>
      update_proc pid proc_exit ;;
      match rr_writes run with
      | Some size => write_file output_path (DataFile size)
      | None => ret tt
      end ;;
      ret loop
  | Interrupt :: _ => raise KeyboardInterrupt
  | Line text dt :: rest =>
      sleep dt ;;
      loop' <- render_line progress_callback adjusted_duration start_time text loop ;;
      render_read progress_callback adjusted_duration start_time pid run output_path
                  rest loop'
  end.

Definition is_error_line (line : string) : bool :=
  contains "error" (lower line) || contains "invalid" (lower line)
  || contains "failed" (lower line).

(** [error_summary] of a failed render *)
Definition error_summary (stderr_text : string) : string :=
  let error_lines := List.filter is_error_line (split_on newline stderr_text) in
  if truthy_list error_lines then String.concat nl (last_n 5 error_lines)
  else str_last 500 stderr_text.

(** [render_to_file] after [process.wait()].  [concat_file_path] is the
    local variable of that name, [None] when it is not bound. *)
Definition render_finish (output_path : string) (progress_callback : bool)
    (returncode : Z) (stderr_text : string) (concat_file_path : option string)
  : M (bool * string) :=
  if negb (returncode =? 0)%Z then
    ret (false, "FFmpeg render failed (code " +:+ str_of_Z returncode +:+ "):" +:+ nl
                +:+ error_summary stderr_text)
  else
    (* Verify output file exists and has reasonable size *)
    present <- path_exists output_path ;;
    if negb present then ret (false, "Output file was not created")
    else
      bytes <- getsize output_path ;;
      let file_size := inject_Z bytes / MB in
      if Qlt_bool file_size (1 # 10) then
        ret (false, "Output file is too small (" +:+ format_fixed 2 file_size
                    +:+ " MB), render may have failed")
      else
        (* Clean up temporary concat file if it exists *)
        self <- get_self ;;
        match concat_file_path with
        | Some c => if truthy_list (audiobook_files self) then try_pass (unlink c) else ret tt
        | None => ret tt
        end ;;
        progress progress_callback 100
          ("Export complete! (" +:+ format_fixed 1 file_size +:+ " MB)") ;;
        ret (true, "Audio saved to: " +:+ output_path +:+ " ("
                   +:+ format_fixed 1 file_size +:+ " MB)").

Definition render_error (e : Exn) : bool * string :=
  (false, "Error rendering audio: " +:+ str_of_exn e).

(** The two [except] clauses of [render_to_file]; [process] is the local
    variable of that name, [None] while it is not bound. *)
Definition render_handler (process : option nat) (e : Exn) : option (M (bool * string)) :=
  match e with
  | KeyboardInterrupt =>
      Some (match process with
            | Some pid => terminate_then_kill pid false
            | None => ret tt
            end ;;
            ret (false, "Render cancelled by user"))
  | _ => Some (ret (render_error e))
  end.

(** The streaming branch of [render_to_file], from [Popen] on. *)
Definition render_run (output_path : string) (progress_callback : bool)
    (cmd : Cmd) (adjusted_duration : Q) (concat_file_path : option string)
  : M (bool * string) :=
  let run := render_engine E cmd in
  match rr_spawn_error run with
  | Some msg => ret (render_error (OtherError msg))
  | None =>
      pid <- spawn (rr_returncode run) EmptyString (rr_stubborn run) ;;
      try_except
        (start_time <- time_now ;;
         loop <- render_read progress_callback adjusted_duration start_time pid run
                             output_path (rr_events run)
                             {| rl_stderr_lines := []; rl_last_update_time := start_time |} ;;
         (* Wait for process to complete *)
         w <- get_world ;;
         let returncode := p_returncode (lookup_proc pid w) in
         let stderr_text := String.concat EmptyString (rl_stderr_lines loop) in
         render_finish output_path progress_callback returncode stderr_text
                       concat_file_path)
        (render_handler (Some pid))
  end.

(** The streaming branch of [render_to_file]. *)
Definition render_streaming (output_path : string) (progress_callback : bool)
  : M (bool * string) :=
  progress progress_callback 10 "Preparing ffmpeg render..." ;;
  (* Build atempo filter *)
  atempo_filter <- build_atempo ;;
  self <- get_self ;;
  let audiobook_filter := render_audiobook_filter atempo_filter (audiobook_volume self) in
  if truthy_list (audiobook_files self) then
    (* Multiple files - need to concatenate them first *)
    progress progress_callback 15
      ("Preparing to merge "
       +:+ str_of_Z (Z.of_nat (length (audiobook_files self))) +:+ " files...") ;;
    (* Calculate total duration *)
    let total_duration := total_duration_of (audiobook_files self) in
    if Qeq_bool total_duration 0 then ret no_duration
    else
      adjusted_duration <- py_div total_duration (audiobook_speed self) ;;
      (* Create temporary concat file list *)
      concat_file_path <-
        named_temporary_file ".txt" (TextFile (concat_list (audiobook_files self))) ;;
      progress progress_callback 20 "Starting render..." ;;
      match music_path self with
      | None => raise popen_none
      | Some music =>
          render_run output_path progress_callback
            ([[TStr "ffmpeg"]; [TStr "-f"]; [TStr "concat"]; [TStr "-safe"]; [TStr "0"];
              [TStr "-i"]; [TStr concat_file_path];
              [TStr "-stream_loop"]; [TStr "-1"]; [TStr "-i"]; [TStr music]]
             ++ render_tail audiobook_filter (music_volume self) adjusted_duration
                            output_path)
            adjusted_duration (Some concat_file_path)
      end
  else
    (* Single file mode *)
    let duration := get_audio_duration (audiobook_path self) in
    match duration with
    | Some d =>
        if truthy_float (Some d) then
          (* Calculate adjusted duration with speed *)
          adjusted_duration <- py_div d (audiobook_speed self) ;;
          progress progress_callback 20 "Starting render..." ;;
          match audiobook_path self, music_path self with
          | Some book, Some music =>
              render_run output_path progress_callback
                ([[TStr "ffmpeg"]; [TStr "-i"]; [TStr book];
                  [TStr "-stream_loop"]; [TStr "-1"]; [TStr "-i"]; [TStr music]]
                 ++ render_tail audiobook_filter (music_volume self) adjusted_duration
                                output_path)
                adjusted_duration None
          | _, _ => raise popen_none
          end
        else ret no_duration
    | None => ret no_duration
    end.

(** [render_to_file(output_path, progress_callback)] *)
Definition render_to_file (output_path : string) (progress_callback : bool)
  : M (bool * string) :=
  self <- get_self ;;
  (* Check if we have files (either loaded or paths) *)
  let has_audiobook :=
    truthy_segment (audiobook self) || truthy_str (audiobook_path self)
    || truthy_list (audiobook_files self) in
  let has_music := truthy_segment (background_music self) || truthy_str (music_path self) in
  if negb has_audiobook || negb has_music then ret need_both
  else
    try_except
      (if truthy_segment (audiobook self) && truthy_segment (background_music self)
       then render_in_memory output_path progress_callback
       else render_streaming output_path progress_callback)
      (render_handler None).

End Methods.

(* ===================================================================== *)
(** * Reading a run                                                      *)
(* ===================================================================== *)

(** The lines of a stream of reads, in order. *)
Fixpoint event_lines (events : list ReadEvent) : list string :=
  match events with
  | [] => []
  | Line text _ :: rest => text :: event_lines rest
  | Interrupt :: rest => event_lines rest
  end.

Fixpoint no_interrupt (events : list ReadEvent) : bool :=
  match events with
  | [] => true
  | Line _ _ :: rest => no_interrupt rest
  | Interrupt :: _ => false
  end.


(** The output file once the encoder has exited: what it wrote, or else what
    was there before. *)
Definition output_after (run : RenderRun) (output_path : string) (w : World) : option Z :=
  match rr_writes run with
  | Some size => Some size
  | None => option_map file_size (w_fs w !! output_path)
  end.

(** A step that only lets time pass and reports progress. *)
Definition only_reports (st st' : State) (reports : list (Z * string)) : Prop :=
  st_self st' = st_self st /\
  w_fs (st_world st') = w_fs (st_world st) /\
  w_procs (st_world st') = w_procs (st_world st) /\
  w_player (st_world st') = w_player (st_world st) /\
  w_next (st_world st') = w_next (st_world st) /\
  w_progress (st_world st') = w_progress (st_world st) ++ reports.

(** A computation keeps a property of the state, establishes one, or
    always returns. *)
Definition preserves {A : Type} (P : State -> Prop) (m : M A) : Prop :=
  forall st, P st -> P (snd (m st)).


Definition returns {A : Type} (m : M A) : Prop :=
  forall st, exists a, fst (m st) = Ok a.

(** Two objects with the same sources and settings. *)
Definition same_sources (a b : AudioProcessor) : Prop :=
  audiobook a = audiobook b /\
  background_music a = background_music b /\
  audiobook_path a = audiobook_path b /\
  audiobook_files a = audiobook_files b /\
  music_path a = music_path b /\
  audiobook_speed a = audiobook_speed b /\
  audiobook_volume a = audiobook_volume b /\
  music_volume a = music_volume b.


(** The sum of the probes of a list of files, a failed probe counting 0. *)
Definition probe_or_zero (E : Env) (file_path : string) : Q :=
  match ffprobe E file_path with
  | Some d => d
  | None => 0
  end.

Fixpoint sum_Q (l : list Q) : Q :=
  match l with
  | [] => 0
  | x :: rest => x + sum_Q rest
  end.

(* ===================================================================== *)
(** * A sample session                                                   *)
(* ===================================================================== *)

Definition sample_line (text : string) (dt : Q) : ReadEvent := Line (text +:+ nl) dt.

Definition sample_events : list ReadEvent :=
  [sample_line "size=     256kB time=00:00:10.00 bitrate= 192.0kbits/s speed=20x" 1;
   sample_line "size=     512kB time=00:00:30.50 bitrate= 192.0kbits/s speed=20x" (1 # 10);
   sample_line "size=    1024kB time=00:01:00.00 bitrate= 192.0kbits/s speed=20x" 1;
   sample_line "[mp3 @ 0x55] Error while decoding stream" 1;
   sample_line "Conversion failed!" 0].


Definition sample_run (returncode : Z) (writes : option Z) (events : list ReadEvent)
    (stubborn : bool) : RenderRun :=
  {| rr_spawn_error := None; rr_events := events; rr_returncode := returncode;
     rr_writes := writes; rr_stubborn := stubborn |}.

Definition sample_loop : ReadLoop :=
  {| rl_stderr_lines := []; rl_last_update_time := 1000 |}.

(** Three chapters of one minute, the second of which cannot be probed, and
    an encoder whose exit code, output and reads are the parameters. *)
Definition sample_env (returncode : Z) (writes : option Z) (events : list ReadEvent)
    (stubborn : bool) : Env := {|
  ffprobe := fun p => if String.eqb p "ch2.mp3" then None else Some 60;
  from_mp3 := fun _ => inl MemoryError;
  db_to_linear := fun _ => 1;
  pydub_mix := fun a _ _ _ _ => inr a;
  pydub_export := fun _ _ => inr 1000%Z;
  render_engine := fun _ => sample_run returncode writes events stubborn;
  stream_engine := fun _ =>
    {| sr_spawn_error := None; sr_size_at := fun i => (Z.of_nat i * 50000)%Z;
       sr_exits_at := None; sr_returncode := 0; sr_stderr := EmptyString;
       sr_load_error := None; sr_stubborn := stubborn |}
|}.

Definition sample_world : World := {|
  w_fs := {[ "ch1.mp3" := DataFile 5000000; "ch2.mp3" := DataFile 10;
             "ch3.mp3" := DataFile 5000000; "rain.mp3" := DataFile 3000000 ]};
  w_procs := ∅;
  w_player := init_player;
  w_clock := 1000;
  w_next := 0;
  w_progress := []
|}.

(** A folder of three chapters and a music file, nothing playing. *)
Definition sample_folder : State := {|
  st_world := sample_world;
  st_self := with_music_path (Some "rain.mp3")
               (with_audiobook_files ["ch1.mp3"; "ch2.mp3"; "ch3.mp3"] init_processor)
|}.

(** A single audiobook and a music file, nothing playing. *)
Definition sample_single : State := {|
  st_world := sample_world;
  st_self := with_music_path (Some "rain.mp3")
               (with_audiobook_path (Some "ch1.mp3") init_processor)
|}.

(** An encoder that streams without trouble. *)
Definition quiet_env : Env := sample_env 0 None [] false.

(** The single audiobook, played from 50 s, then paused. *)
Definition sample_playing : State := snd (play_mix quiet_env 50 sample_single).


(** The single audiobook while [play_mix] waits for the first bytes of its
    encoder; the encoder obeys SIGTERM or not. *)
Definition sample_buffering (stubborn : bool) : State :=
  snd (play_mix_until_buffering (sample_env 0 None [] stubborn) 0 sample_single).

(** A render of the folder that is interrupted while being read. *)
Definition interrupted_events : list ReadEvent :=
  [sample_line "size=     256kB time=00:00:10.00 bitrate= 192.0kbits/s speed=20x" 1;
   Interrupt].

(* ===================================================================== *)
(** * The other methods of [AudioProcessor]                              *)
(* ===================================================================== *)

(** U+2192, the arrow of the information labels, in UTF-8. *)
Definition arrow : string :=
  String (ascii_of_nat 226) (String (ascii_of_nat 134) (String (ascii_of_nat 146) EmptyString)).

Definition no_audiobook_loaded : Arg := [TStr "No audiobook loaded"].

Section Information.

Variable E : Env.

(** The loop [for i, file_path in enumerate(file_paths)] of
    [load_audiobook_folder], entered at index [i] with the running totals;
    [n] is [len(file_paths)]. *)
Fixpoint analyze_files (progress_callback : bool) (n i : nat) (files : list string)
    (total_size total_duration : Q) : M (Q * Q) :=
  match files with
  | [] => ret (total_size, total_duration)
  | file_path :: rest =>
      bytes <- getsize file_path ;;
      let file_size := inject_Z bytes / MB in
      let total_size := total_size + file_size in
      (* Get duration *)
      let total_duration :=
        match get_audio_duration E (Some file_path) with
        | Some duration =>
            if truthy_float (Some duration) then total_duration + duration
            else total_duration
        | None => total_duration
        end in
      (* Update every 5 files *)
      (if (i mod 5 =? 0)%nat then
         let percent := py_int (inject_Z (Z.of_nat i) / inject_Z (Z.of_nat n) * 80) in
         progress progress_callback percent
           ("Analyzed " +:+ str_of_Z (Z.of_nat (i + 1)) +:+ "/"
            +:+ str_of_Z (Z.of_nat n) +:+ " files...")
       else ret tt) ;;
      analyze_files progress_callback n (S i) rest total_size total_duration
  end.

(** [load_audiobook_folder] *)
Definition load_audiobook_folder (file_paths : list string) (progress_callback : bool)
  : M (bool * string) :=
  try_except
    (if negb (truthy_list file_paths) then ret (false, "No files provided")
     else
       (* Store file paths for rendering *)
       update_self (with_audiobook_files file_paths) ;;
       update_self (with_audiobook_path None) ;;
       let n := length file_paths in
       progress progress_callback 0
         ("Analyzing " +:+ str_of_Z (Z.of_nat n) +:+ " files...") ;;
       totals <- analyze_files progress_callback n 0 file_paths 0 0 ;;
       let total_size := fst totals in
       let total_duration := snd totals in
       progress progress_callback 90
         ("Total: " +:+ str_of_Z (Z.of_nat n) +:+ " files, "
          +:+ format_fixed 1 total_size +:+ " MB, "
          +:+ format_fixed 1 (total_duration / 60) +:+ " min") ;;
       (* Don't load into memory *)
       update_self (with_audiobook None) ;;
       progress progress_callback 100 "Ready for streaming" ;;
       ret (true, "Ready: " +:+ str_of_Z (Z.of_nat n) +:+ " files ("
                  +:+ format_fixed 1 (total_duration / 60) +:+ " min, "
                  +:+ format_fixed 1 total_size +:+ " MB) - Streaming mode"))
    (fun e =>
       if is_Exception e
       then Some (ret (false, "Error analyzing audiobook folder: " +:+ str_of_exn e))
       else None).

(** [get_mixed_duration] *)
Definition get_mixed_duration : M Q :=
  self <- get_self ;;
  let speed := audiobook_speed self in
  (* If not loaded (streaming mode), get duration from file *)
  let from_path :=
    if truthy_str (audiobook_path self) then
      match get_audio_duration E (audiobook_path self) with
      | Some duration =>
          if truthy_float (Some duration) then py_div duration speed else ret 0
      | None => ret 0
      end
    else ret 0 in
  (* If multiple files, sum their durations *)
  let from_files :=
    if truthy_list (audiobook_files self) then
      let total_duration := total_duration_of E (audiobook_files self) in
      if Qlt_bool 0 total_duration then py_div total_duration speed else from_path
    else from_path in
  (* Try to get duration from loaded audiobook first *)
  match audiobook self with
  | Some book =>
      if truthy_segment (Some book) then
        let original_duration := inject_Z (seg_ms book) / 1000 in
        py_div original_duration speed
      else from_files
  | None => from_files
  end.

(** [f"(at {self.audiobook_speed}x speed)"] *)
Definition at_speed (speed : Q) : Arg := [TStr " (at "; TNum speed; TStr "x speed)"].

(** [get_audiobook_info]; the text is a list of pieces because the speed is
    rendered with [str]. *)
Definition get_audiobook_info : M Arg :=
  self <- get_self ;;
  let speed := audiobook_speed self in
  if truthy_segment (audiobook self) then
    (* Loaded in memory *)
    match audiobook self with
    | Some book =>
        let duration := inject_Z (seg_ms book) / 1000 in
        adjusted_duration <- py_div duration speed ;;
        ret ([TStr ("Duration: " +:+ format_fixed 1 duration +:+ "s " +:+ arrow +:+ " "
                    +:+ format_fixed 1 adjusted_duration +:+ "s")]
             ++ at_speed speed)
    | None => ret no_audiobook_loaded
    end
  else if truthy_list (audiobook_files self) then
    (* Multiple files mode *)
    let total_duration := total_duration_of E (audiobook_files self) in
    if Qlt_bool 0 total_duration then
      adjusted_duration <- py_div total_duration speed ;;
      ret ([TStr ("Duration: " +:+ format_fixed 1 (total_duration / 60) +:+ "min "
                  +:+ arrow +:+ " " +:+ format_fixed 1 (adjusted_duration / 60) +:+ "min")]
           ++ at_speed speed
           ++ [TStr (" [" +:+ str_of_Z (Z.of_nat (length (audiobook_files self)))
                     +:+ " files]")])
    else ret no_audiobook_loaded
  else if truthy_str (audiobook_path self) then
    (* Streaming mode (single file) *)
    match get_audio_duration E (audiobook_path self) with
    | Some duration =>
        if truthy_float (Some duration) then
          adjusted_duration <- py_div duration speed ;;
          ret ([TStr ("Duration: " +:+ format_fixed 1 (duration / 60) +:+ "min "
                      +:+ arrow +:+ " " +:+ format_fixed 1 (adjusted_duration / 60) +:+ "min")]
               ++ at_speed speed ++ [TStr " [Streaming]"])
        else ret no_audiobook_loaded
    | None => ret no_audiobook_loaded
    end
  else ret no_audiobook_loaded.

(** [get_music_info] *)
Definition get_music_info : M string :=
  self <- get_self ;;
  if truthy_segment (background_music self) then
    (* Loaded in memory *)
    match background_music self with
    | Some music =>
        let duration := inject_Z (seg_ms music) / 1000 in
        ret ("Duration: " +:+ format_fixed 1 duration +:+ "s (will loop)")
    | None => ret "No music loaded"
    end
  else if truthy_str (music_path self) then
    (* Streaming mode *)
    match get_audio_duration E (music_path self) with
    | Some duration =>
        if truthy_float (Some duration)
        then ret ("Duration: " +:+ format_fixed 1 duration +:+ "s (will loop) [Streaming]")
        else ret "No music loaded"
    | None => ret "No music loaded"
    end
  else ret "No music loaded".

(** ** [preview_mix] *)

(** What pydub and pygame do with an in-memory preview. *)
Variable slice : AudioSegment -> Z -> Q -> AudioSegment.
    (* [mixed_audio[start_ms:end_ms]] *)
Variable export_wav : AudioSegment -> string -> Exn + Z.
    (* [preview.export(temp_path, format='wav')]: the size written *)
Variable wav_load_error : option string.
    (* [pygame.error] of [music.load] on the exported preview *)

(** [if concat_file_path and os.path.exists(concat_file_path): try:
    os.unlink(concat_file_path) except: pass] *)
Definition unlink_concat_file (concat_file_path : option string) : M unit :=
  match concat_file_path with
  | Some p =>
      present <- path_exists p ;;
      if truthy_str (Some p) && present then try_pass (unlink p) else ret tt
  | None => ret tt
  end.

(** The [except Exception as e] clause of [preview_mix]; [concat_file_path]
    is the local variable of that name, [None] while it is not bound. *)
Definition preview_handler (concat_file_path : option string) (e : Exn)
  : option (M (bool * Arg)) :=
  if is_Exception e then
    Some
      ((* Clean up concat file on error *)
       unlink_concat_file concat_file_path ;;
       ret (false, [TStr ("Error playing preview: " +:+ str_of_exn e)]))
  else None.

(** The branch of [preview_mix] for files that are loaded in memory. *)
Definition preview_in_memory (duration_seconds start_position : Q) : M (bool * Arg) :=
  (* Mix audio in memory *)
  mixed <- mix_audio E ;;
  let message := snd mixed in
  match fst mixed with
  | Some mixed_audio =>
      if truthy_segment (Some mixed_audio) then
        (* Calculate start and end positions in milliseconds *)
        let start_ms := py_int (start_position * 1000) in
        let end_ms := inject_Z start_ms + duration_seconds * 1000 in
        (* Make sure we don't exceed the audio length *)
        if (seg_ms mixed_audio <=? start_ms)%Z then
          ret (false, [TStr "Start position is beyond the audio length"])
        else
          let end_ms := Qmin end_ms (inject_Z (seg_ms mixed_audio)) in
          (* Get preview segment *)
          let preview := slice mixed_audio start_ms end_ms in
          (* Export to temporary file and play using pygame *)
          temp_path <- named_temporary_file ".wav" (DataFile 0) ;;
          match export_wav preview temp_path with
          | inl e => raise e
          | inr size =>
              write_file temp_path (DataFile size) ;;
              music_load temp_path wav_load_error ;;
              _update_playback_volume E ;;
              music_play ;;
              update_self (with_is_playing true) ;;
              update_self (with_current_playback_file (Some temp_path)) ;;
              let actual_duration := (end_ms - inject_Z start_ms) / 1000 in
              ret (true, [TStr ("Playing " +:+ format_fixed 1 actual_duration +:+ "s from "
                                +:+ format_fixed 1 start_position +:+ "s...")])
          end
      else ret (false, [TStr message])
  | None => ret (false, [TStr message])
  end.

(** The streaming branch of [preview_mix], up to the command line. *)
Definition preview_prepare (duration_seconds start_position : Q) : M Prepared :=
  temp_path <- named_temporary_file ".wav" (DataFile 0) ;;
  (* Build ffmpeg command for streaming preview *)
  atempo_filter <- build_atempo ;;
  self <- get_self ;;
  let music := match music_path self with Some m => m | None => EmptyString end in
  let output_args :=
    [[TStr "-t"]; [TNum duration_seconds];
     [TStr "-ac"]; [TStr "1"];
     [TStr "-ar"]; [TStr "22050"];
     [TStr "-acodec"]; [TStr "pcm_s16le"];
     [TStr "-f"]; [TStr "wav"];
     [TStr "-y"]; [TStr temp_path]] in
  if truthy_list (audiobook_files self) then
    (* Multiple files - create concat file *)
    concat_file_path <-
      named_temporary_file ".txt" (TextFile (concat_list (audiobook_files self))) ;;
    let trim :=
      if Qlt_bool 0 start_position
      then [TStr "atrim=start="; TNum start_position; TStr ":end=";
            TNum (start_position + duration_seconds); TStr ","]
      else [] in
    let audiobook_filter :=
      stream_audiobook_filter trim atempo_filter (audiobook_volume self) in
    ret {| pr_temp_path := temp_path;
           pr_concat_file_path := Some concat_file_path;
           pr_cmd := concat_input_args concat_file_path music
                     ++ [stream_mix_filter audiobook_filter (music_volume self)]
                     ++ output_args;
           pr_start_position := start_position |}
  else
    (* Single file mode *)
    let audiobook_filter :=
      stream_audiobook_filter [] atempo_filter (audiobook_volume self) in
    let book := match audiobook_path self with Some b => b | None => EmptyString end in
    ret {| pr_temp_path := temp_path;
           pr_concat_file_path := None;
           pr_cmd := [[TStr "ffmpeg"]; [TStr "-ss"]; [TNum start_position];
                      [TStr "-i"]; [TStr book];
                      [TStr "-stream_loop"]; [TStr "-1"];
                      [TStr "-i"]; [TStr music]; [TStr "-filter_complex"]]
                     ++ [stream_mix_filter audiobook_filter (music_volume self)]
                     ++ output_args;
           pr_start_position := start_position |}.

Definition preview_min_file_size : Z := 100000.

(** The loop [while retry_count < 15] of [preview_mix], entered with
    [retry_count] and [15 - retry_count = rounds] rounds left.  [Some r]: the
    method returns [r]; [None]: the loop is left. *)
Fixpoint preview_poll (p : Prepared) (rounds retry_count : nat)
  : M (option (bool * Arg)) :=
  match rounds with
  | O => ret None
  | S rounds' =>
      self <- get_self ;;
      match streaming_process self with
      | Some pid => encoder_progress E p pid retry_count
      | None => ret tt
      end ;;
      present <- path_exists (pr_temp_path p) ;;
      enough <-
        (if present then
           file_size <- getsize (pr_temp_path p) ;;
           if (preview_min_file_size <? file_size)%Z then ret true
           else sleep (4 # 10) ;; ret false
         else sleep (3 # 10) ;; ret false) ;;
      if enough then ret None
      else
        (* Check if ffmpeg failed *)
        self <- get_self ;;
        match streaming_process self with
        | None => raise none_has_no_poll
        | Some pid =>
            status <- proc_poll pid ;;
            match status with
            | Some _ =>
                stderr_output <- proc_read_stderr pid ;;
                ret (Some (false, [TStr ("FFmpeg preview failed: "
                                         +:+ str_last 300 stderr_output)]))
            | None => preview_poll p rounds' (S retry_count)
            end
        end
  end.

(** The end of [preview_mix]: the check of the file, then the player. *)
Definition preview_start (p : Prepared) (duration_seconds : Q) : M (bool * Arg) :=
  let temp_path := pr_temp_path p in
  let run := stream_engine E (pr_cmd p) in
  present <- path_exists temp_path ;;
  ready <-
    (if present then
       size <- getsize temp_path ;;
       ret (negb (size <? preview_min_file_size)%Z)
     else ret false) ;;
  if negb ready then ret (false, [TStr "Preview file not ready"])
  else
    (* Start playing *)
    try_except
      (music_load temp_path (sr_load_error run) ;;
       _update_playback_volume E ;;
       music_play ;;
       update_self (with_is_playing true) ;;
       update_self (with_current_playback_file (Some temp_path)) ;;
       (* Clean up concat file after playback starts *)
       unlink_concat_file (pr_concat_file_path p) ;;
       ret (true, [TStr "Streaming "; TNum duration_seconds;
                   TStr ("s preview from " +:+ format_fixed 0 (pr_start_position p)
                         +:+ "s...")]))
      (fun e =>
         match e with
         | PygameError msg =>
             Some
               (self <- get_self ;;
                stderr_output <-
                  match streaming_process self with
                  | Some pid =>
                      stderr_output <- proc_read_stderr pid ;;
                      proc_terminate pid ;;
                      update_self (with_streaming_process None) ;;
                      ret (Some stderr_output)
                  | None => ret None
                  end ;;
                (* Clean up concat file on error *)
                unlink_concat_file (pr_concat_file_path p) ;;
                ret (false, [TStr ("Preview playback error: " +:+ msg
                                   +:+ ". Check ffmpeg: "
                                   +:+ match stderr_output with
                                       | Some text => str_last 200 text
                                       | None => "no error log"
                                       end)]))
         | _ => None
         end).

(** [preview_mix(duration_seconds, start_position)] *)
Definition preview_mix (duration_seconds start_position : Q) : M (bool * Arg) :=
  self <- get_self ;;
  let has_audiobook :=
    truthy_str (audiobook_path self) || truthy_list (audiobook_files self) in
  if negb has_audiobook || negb (truthy_str (music_path self)) then
    ret (false, [TStr "Please load both audiobook and background music first."])
  else
    prepared <-
      try_except
        ((* Stop any current playback first *)
         _ <- stop_playback ;;
         self <- get_self ;;
         (* If files are loaded in memory, use the old method *)
         if truthy_segment (audiobook self) && truthy_segment (background_music self) then
           r <- preview_in_memory duration_seconds start_position ;; ret (inl r)
         else
           p <- preview_prepare duration_seconds start_position ;; ret (inr p))
        (fun e => option_map (fun k => r <- k ;; ret (inl r)) (preview_handler None e)) ;;
    match prepared with
    | inl early => ret early
    | inr p =>
        try_except
          (play_mix_spawn E p ;;
           (* Wait for initial data *)
           sleep 1 ;;
           early <- preview_poll p 15 0 ;;
           match early with
           | Some r => ret r
           | None => preview_start p duration_seconds
           end)
          (preview_handler (pr_concat_file_path p))
    end.

End Information.

(* ===================================================================== *)
(** * [settings_manager.py]                                              *)
(* ===================================================================== *)

(** A value that [json] reads and writes: [None], a [bool], a number, a
    [str], a [list], a [dict] with string keys. *)
#[warnings="-register-all"]
Inductive Json : Type :=
| JNull
| JBool (b : bool)
| JNum (x : Q)
| JStr (s : string)
| JList (items : list Json)
| JDict (fields : list (string * Json)).

(** What [settings.json] holds: the JSON text of an object (a dictionary,
    the order of whose keys plays no role), or anything
    else (text that is no JSON or is not an object, a file that cannot be
    read); on the second kind [load_settings] raises inside its [try]. *)
Inductive SettingsText : Type :=
| ObjectText (settings : gmap string Json)
| OtherText.

(** The disk as [SettingsManager] sees it. *)
Record SettingsDisk : Type := {
  sd_file : option SettingsText;   (* [None]: [settings_file.exists()] is false *)
  sd_writable : bool               (* [open(settings_file, 'w')] succeeds *)
}.

Section SettingsManager.

Variable home : string.   (* [str(Path.home())] *)

(** [self.default_settings] *)
Definition default_settings : gmap string Json :=
  {[ "auto_reload_files" := JBool true;
     "last_audiobook_path" := JNull;
     "last_music_path" := JNull;
     "last_audiobook_dir" := JStr home;
     "last_music_dir" := JStr home;
     "audiobook_speed" := JNum 1;
     "audiobook_volume" := JNum 0;
     "music_volume" := JNum (-10) ]}.

(** [load_settings]: [{**self.default_settings, **settings}] is the union in
    which the file's entries win. *)
Definition load_settings (disk : SettingsDisk) : gmap string Json :=
  match sd_file disk with
  | Some (ObjectText settings) => settings ∪ default_settings
  | Some OtherText => default_settings
  | None => default_settings
  end.

(** [save_settings] *)
Definition save_settings (settings : gmap string Json) (disk : SettingsDisk)
  : bool * SettingsDisk :=
  if sd_writable disk
  then (true, {| sd_file := Some (ObjectText settings); sd_writable := true |})
  else (false, disk).

(** [get_setting(key, default)] *)
Definition get_setting (key : string) (default : Json) (disk : SettingsDisk) : Json :=
  let settings := load_settings disk in
  match settings !! key with
  | Some value => value
  | None => default
  end.

(** [set_setting(key, value)] *)
Definition set_setting (key : string) (value : Json) (disk : SettingsDisk)
  : bool * SettingsDisk :=
  let settings := load_settings disk in
  save_settings (<[key := value]> settings) disk.

(** [clear_file_paths] *)
Definition clear_file_paths (disk : SettingsDisk) : bool * SettingsDisk :=
  let settings := load_settings disk in
  save_settings (<["last_music_path" := JNull]> (<["last_audiobook_path" := JNull]> settings))
                disk.

End SettingsManager.

(* ===================================================================== *)
(** * [main.py]: what the front-end computes                             *)
(* ===================================================================== *)

(** [a // b] and [a % b] on floats, [b > 0] *)
Definition py_floordiv (a b : Q) : Q := inject_Z (Qfloor (a / b)).

Definition py_mod (a b : Q) : Q := a - b * inject_Z (Qfloor (a / b)).

(** [f"{n:02d}"] *)
Definition format_02d (n : Z) : string :=
  if (n <? 0)%Z then "-" +:+ zero_pad 1 (str_of_Z (- n)) else zero_pad 2 (str_of_Z n).

(** [AudioMixerApp.format_time]: minutes and seconds as [M:SS]. *)
Definition app_format_time (seconds : Q) : string :=
  let minutes := py_int (py_floordiv seconds 60) in
  let secs := py_int (py_mod seconds 60) in
  str_of_Z minutes +:+ ":" +:+ format_02d secs.

(** The variables of the front-end that the settings are made of. *)
Record AudioMixerApp : Type := {
  auto_reload_var : bool;
  app_audiobook_path : option string;
  app_music_path : option string;
  last_audiobook_dir : string;
  last_music_dir : string;
  speed_var : Q;
  audiobook_volume_var : Q;
  music_volume_var : Q
}.

Definition json_of_path (path : option string) : Json :=
  match path with
  | Some p => JStr p
  | None => JNull
  end.

(** The dictionary [settings_dict] of [save_current_settings] *)
Definition settings_dict (app : AudioMixerApp) : gmap string Json :=
  {[ "auto_reload_files" := JBool (auto_reload_var app);
     "last_audiobook_path" := json_of_path (app_audiobook_path app);
     "last_music_path" := json_of_path (app_music_path app);
     "last_audiobook_dir" := JStr (last_audiobook_dir app);
     "last_music_dir" := JStr (last_music_dir app);
     "audiobook_speed" := JNum (speed_var app);
     "audiobook_volume" := JNum (audiobook_volume_var app);
     "music_volume" := JNum (music_volume_var app) ]}.

(** [save_current_settings]: the result of [save_settings] is dropped. *)
Definition save_current_settings (app : AudioMixerApp) (disk : SettingsDisk) : SettingsDisk :=
  snd (save_settings (settings_dict app) disk).

(** [on_auto_reload_toggle], as far as the settings go. *)
Definition on_auto_reload_toggle (home : string) (app : AudioMixerApp) (disk : SettingsDisk)
  : SettingsDisk :=
  let auto_reload_enabled := auto_reload_var app in
  let disk := snd (set_setting home "auto_reload_files" (JBool auto_reload_enabled) disk) in
  if negb auto_reload_enabled then
    (* If user disables auto-reload, clear saved file paths *)
    snd (clear_file_paths home disk)
  else
    (* If user enables auto-reload, save current files if any *)
    save_current_settings app disk.

(* ===================================================================== *)
(** * Partial correctness of a method                                    *)
(* ===================================================================== *)

(** From a state with [P], whenever [m] returns [a] in the state [st'],
    [R a st'] holds. *)
Definition hoare {A : Type} (P : State -> Prop) (m : M A) (R : A -> State -> Prop) : Prop :=
  forall st a st', P st -> m st = (Ok a, st') -> R a st'.

(* ===================================================================== *)
(** * Reading a folder analysis                                          *)
(* ===================================================================== *)

(** The sum of the sizes, in MB, of the files of a list that exist. *)
Definition total_size_of (fs : gmap string File) (files : list string) : Q :=
  fold_left
    (fun total file_path =>
       match fs !! file_path with
       | Some f => total + inject_Z (file_size f) / MB
       | None => total
       end)
    files 0.

(** The percentage that [load_audiobook_folder] reports at the file of
    index [i] among [n]. *)
Definition folder_percent (n i : nat) : Z :=
  py_int (inject_Z (Z.of_nat i) / inject_Z (Z.of_nat n) * 80).

(* ===================================================================== *)
(** * More of the sample session                                         *)
(* ===================================================================== *)


(** The front-end with two files chosen and the checkbox unchecked. *)
Definition sample_app : AudioMixerApp := {|
  auto_reload_var := false;
  app_audiobook_path := Some "ch1.mp3";
  app_music_path := Some "rain.mp3";
  last_audiobook_dir := "/books";
  last_music_dir := "/music";
  speed_var := 5 # 4;
  audiobook_volume_var := 0;
  music_volume_var := - (10)
|}.

(** A settings file of an earlier session. *)
Definition sample_disk : SettingsDisk := {|
  sd_file := Some (ObjectText {[ "last_audiobook_path" := JStr "ch1.mp3";
                                 "audiobook_speed" := JNum (3 # 2) ]});
  sd_writable := true
|}.

(** The single audiobook, previewed for ten seconds from the start; nothing
    is in memory, so that the preview is streamed. *)
Definition sample_previewing : State :=
  snd (preview_mix quiet_env (fun a _ _ => a) (fun _ _ => inr 1000%Z) None 10 0
         sample_single).

(* ===================================================================== *)
(** * Outcomes of a method                                               *)
(* ===================================================================== *)

(** From a state with [P]: when [m] returns [a] the state has [R a], and
    when it raises the state has [X]. *)
Definition triple {A : Type} (P : State -> Prop) (m : M A) (R : A -> State -> Prop)
    (X : State -> Prop) : Prop :=
  forall st, P st ->
    match m st with
    | (Ok a, st') => R a st'
    | (Raise _, st') => X st'
    | (Hang, _) => True
    end.




(* ===================================================================== *)
(** * Theorems                                                           *)
(* ===================================================================== *)

(* --------------------------------------------------------------------- *)
(** ** Numbers and the tempo chain (C1) *)
(* --------------------------------------------------------------------- *)

Lemma Qlt_bool_iff a b : Qlt_bool a b = true <-> a < b.
Proof.
  unfold Qlt_bool. rewrite negb_true_iff.
  split; intro H.
  - apply Qnot_le_lt. intro Hle. apply Qle_bool_iff in Hle. congruence.
  - destruct (Qle_bool b a) eqn:E; [|reflexivity].
    apply Qle_bool_iff in E. lra.
Qed.

Lemma Qlt_bool_false_iff a b : Qlt_bool a b = false <-> b <= a.
Proof.
  unfold Qlt_bool. rewrite negb_false_iff. apply Qle_bool_iff.
Qed.

Lemma round_half_even_error x :
  Qabs (inject_Z (round_half_even x) - x) <= 1 # 2.
Proof.
  unfold round_half_even.
  pose proof (Qfloor_le x) as Hlo. pose proof (Qlt_floor x) as Hhi.
  rewrite inject_Z_plus in Hhi. change (inject_Z 1) with 1 in Hhi.
  apply Qabs_Qle_condition.
  destruct (Qcompare_spec (x - inject_Z (Qfloor x)) (1 # 2)) as [E|E|E];
    [destruct (Z.even (Qfloor x))| |];
    rewrite ?inject_Z_plus; change (inject_Z 1) with 1; lra.
Qed.

Lemma round_half_even_ge x (n : Z) : inject_Z n <= x -> (n <= round_half_even x)%Z.
Proof.
  intros H. unfold round_half_even.
  assert (n <= Qfloor x)%Z as Hf by (apply Qfloor_resp_le in H; rewrite Qfloor_Z in H; exact H).
  destruct (Qcompare _ _); [destruct (Z.even _)| |]; lia.
Qed.

Lemma round_half_even_le x (n : Z) : x <= inject_Z n -> (round_half_even x <= n)%Z.
Proof.
  intros H. unfold round_half_even.
  assert (Qfloor x <= n)%Z as Hf by (apply Qfloor_resp_le in H; rewrite Qfloor_Z in H; exact H).
  destruct (Z.eq_dec (Qfloor x) n) as [E|E].
  - pose proof (Qfloor_le x) as Hlo. rewrite E in *.
    assert (x - inject_Z n == 0) as H0 by lra.
    destruct (Qcompare_spec (x - inject_Z n) (1 # 2)) as [E'|E'|E']; try lra; lia.
  - destruct (Qcompare _ _); [destruct (Z.even _)| |]; lia.
Qed.

Lemma Qpow_pos b k : 0 < b -> 0 < Qpow b k.
Proof. intros Hb. induction k as [|k IH]; simpl; [lra|nra]. Qed.

Lemma stage_product_app l1 l2 :
  stage_product (l1 ++ l2) == stage_product l1 * stage_product l2.
Proof.
  induction l1 as [|s l1 IH]; simpl; [|rewrite IH]; lra.
Qed.

Lemma stage_product_repeat_two k : stage_product (repeat AtempoTwo k) == Qpow 2 k.
Proof.
  induction k as [|k IH]; simpl; [reflexivity|].
  rewrite IH. reflexivity.
Qed.

Lemma stage_product_repeat_half k : stage_product (repeat AtempoHalf k) == Qpow (1 # 2) k.
Proof.
  induction k as [|k IH]; simpl; [reflexivity|].
  rewrite IH. reflexivity.
Qed.

Lemma speed_down_spec fuel : forall r acc r' acc',
  speed_down fuel r acc = Some (r', acc') ->
  exists k, (k <= fuel)%nat /\ acc' = acc ++ repeat AtempoTwo k /\ r == r' * Qpow 2 k /\ r' <= 2 /\
            ((0 < k)%nat -> 1 < r') /\ (k = O -> r' = r).
Proof.
  induction fuel as [|fuel IH]; intros r acc r' acc'; simpl.
  - destruct (Qlt_bool 2 r) eqn:E; [discriminate|].
    intros [= <- <-]. apply Qlt_bool_false_iff in E.
    exists O. simpl. rewrite app_nil_r. repeat split; try lra; try lia.
  - destruct (Qlt_bool 2 r) eqn:E.
    + intros H. apply IH in H as (k & Hk & Hacc & Hr & Hle & Hgt & Hz).
      apply Qlt_bool_iff in E.
      exists (S k). simpl. rewrite Hacc, <- app_assoc. simpl.
      repeat split; try lia; try lra.
      * assert (r / 2 == r * (1 # 2)) as E2 by (field). rewrite E2 in Hr. lra.
      * intros _. destruct k as [|k].
        -- rewrite (Hz eq_refl). assert (r / 2 == r * (1 # 2)) as E2 by field. lra.
        -- apply Hgt. lia.
    + intros [= <- <-]. apply Qlt_bool_false_iff in E.
      exists O. simpl. rewrite app_nil_r. repeat split; try lra; try lia.
Qed.

Lemma speed_up_spec fuel : forall r acc r' acc',
  speed_up fuel r acc = Some (r', acc') ->
  exists k, (k <= fuel)%nat /\ acc' = acc ++ repeat AtempoHalf k /\ r == r' * Qpow (1 # 2) k /\
            1 # 2 <= r' /\ ((0 < k)%nat -> r' < 1) /\ (k = O -> r' = r).
Proof.
  induction fuel as [|fuel IH]; intros r acc r' acc'; simpl.
  - destruct (Qlt_bool r (1 # 2)) eqn:E; [discriminate|].
    intros [= <- <-]. apply Qlt_bool_false_iff in E.
    exists O. simpl. rewrite app_nil_r. repeat split; try lra; try lia.
  - destruct (Qlt_bool r (1 # 2)) eqn:E.
    + intros H. apply IH in H as (k & Hk & Hacc & Hr & Hle & Hgt & Hz).
      apply Qlt_bool_iff in E.
      assert (r / (1 # 2) == r * 2) as E2 by field.
      exists (S k). simpl. rewrite Hacc, <- app_assoc. simpl.
      repeat split; try lia; try lra.
      intros _. destruct k as [|k].
      * rewrite (Hz eq_refl). lra.
      * apply Hgt. lia.
    + intros [= <- <-]. apply Qlt_bool_false_iff in E.
      exists O. simpl. rewrite app_nil_r. repeat split; try lra; try lia.
Qed.

Lemma speed_down_total fuel : forall r acc,
  r <= Qpow 2 (S fuel) -> exists res, speed_down fuel r acc = Some res.
Proof.
  induction fuel as [|fuel IH]; intros r acc Hr; simpl in *.
  - destruct (Qlt_bool 2 r) eqn:E; [|eauto].
    apply Qlt_bool_iff in E. lra.
  - destruct (Qlt_bool 2 r) eqn:E; [|eauto].
    apply IH. simpl. assert (r / 2 == r * (1 # 2)) as E2 by field. lra.
Qed.

Lemma speed_up_total fuel : forall r acc,
  1 <= r * Qpow 2 (S fuel) -> exists res, speed_up fuel r acc = Some res.
Proof.
  induction fuel as [|fuel IH]; intros r acc Hr; simpl in *.
  - destruct (Qlt_bool r (1 # 2)) eqn:E; [|eauto].
    apply Qlt_bool_iff in E. lra.
  - destruct (Qlt_bool r (1 # 2)) eqn:E; [|eauto].
    apply IH. simpl. assert (r / (1 # 2) == r * 2) as E2 by field. rewrite E2. lra.
Qed.

Lemma speed_down_fuel_mono fuel : forall fuel' r acc res,
  speed_down fuel r acc = Some res -> (fuel <= fuel')%nat ->
  speed_down fuel' r acc = Some res.
Proof.
  induction fuel as [|fuel IH]; intros fuel' r acc res; simpl.
  - destruct (Qlt_bool 2 r) eqn:E; [discriminate|].
    intros H _. destruct fuel'; simpl; rewrite E; exact H.
  - destruct (Qlt_bool 2 r) eqn:E.
    + intros H Hle. destruct fuel' as [|fuel']; [lia|]. simpl. rewrite E.
      apply IH; [exact H|lia].
    + intros H _. destruct fuel'; simpl; rewrite E; exact H.
Qed.

Lemma speed_up_fuel_mono fuel : forall fuel' r acc res,
  speed_up fuel r acc = Some res -> (fuel <= fuel')%nat ->
  speed_up fuel' r acc = Some res.
Proof.
  induction fuel as [|fuel IH]; intros fuel' r acc res; simpl.
  - destruct (Qlt_bool r (1 # 2)) eqn:E; [discriminate|].
    intros H _. destruct fuel'; simpl; rewrite E; exact H.
  - destruct (Qlt_bool r (1 # 2)) eqn:E.
    + intros H Hle. destruct fuel' as [|fuel']; [lia|]. simpl. rewrite E.
      apply IH; [exact H|lia].
    + intros H _. destruct fuel'; simpl; rewrite E; exact H.
Qed.

Lemma speed_up_diverges fuel : forall r acc, r <= 0 -> speed_up fuel r acc = None.
Proof.
  induction fuel as [|fuel IH]; intros r acc Hr; simpl.
  - destruct (Qlt_bool r (1 # 2)) eqn:E; [reflexivity|].
    apply Qlt_bool_false_iff in E. lra.
  - destruct (Qlt_bool r (1 # 2)) eqn:E.
    + apply IH. assert (r / (1 # 2) == r * 2) as E2 by field. lra.
    + apply Qlt_bool_false_iff in E. lra.
Qed.

Lemma Qpow2_ge_succ k : inject_Z (Z.of_nat (S k)) <= Qpow 2 k.
Proof.
  induction k as [|k IH].
  - simpl. unfold Qle. simpl. lia.
  - change (Qpow 2 (S k)) with (2 * Qpow 2 k).
    rewrite Nat2Z.inj_succ. unfold Z.succ. rewrite inject_Z_plus.
    change (inject_Z 1) with 1.
    assert (1 <= inject_Z (Z.of_nat (S k))).
    { rewrite Nat2Z.inj_succ. unfold Z.succ. rewrite inject_Z_plus.
      change (inject_Z 1) with 1.
      assert (0 <= inject_Z (Z.of_nat k)) by (unfold Qle; simpl; lia). lra. }
    lra.
Qed.

Lemma speed_down_id fuel r acc : r <= 2 -> speed_down fuel r acc = Some (r, acc).
Proof.
  intros H. apply Qlt_bool_false_iff in H. destruct fuel; simpl; rewrite H; reflexivity.
Qed.

Lemma speed_up_id fuel r acc : 1 # 2 <= r -> speed_up fuel r acc = Some (r, acc).
Proof.
  intros H. apply Qlt_bool_false_iff in H. destruct fuel; simpl; rewrite H; reflexivity.
Qed.

Lemma enough_fuel_down speed fuel :
  0 < speed -> (enough_fuel speed <= fuel)%nat -> speed <= Qpow 2 (S fuel).
Proof.
  intros Hpos Hf.
  pose proof (Qpow2_ge_succ fuel) as Hp.
  pose proof (Qpow_pos 2 fuel ltac:(lra)) as Hp0.
  change (Qpow 2 (S fuel)) with (2 * Qpow 2 fuel).
  assert (speed <= inject_Z (Z.of_nat (S fuel))) as Hs.
  { unfold enough_fuel in Hf. destruct speed as [n d].
    unfold Qlt in Hpos. unfold Qle. simpl in *. nia. }
  lra.
Qed.

Lemma enough_fuel_up speed fuel :
  0 < speed -> (enough_fuel speed <= fuel)%nat -> 1 <= speed * Qpow 2 (S fuel).
Proof.
  intros Hpos Hf.
  pose proof (Qpow2_ge_succ fuel) as Hp.
  change (Qpow 2 (S fuel)) with (2 * Qpow 2 fuel).
  assert (1 <= speed * inject_Z (Z.of_nat (S fuel))) as Hs.
  { unfold enough_fuel in Hf. destruct speed as [n d].
    unfold Qlt in Hpos. unfold Qle, Qmult. simpl in *. nia. }
  nra.
Qed.

Lemma stage_value_rem_error r : Qabs (stage_value (AtempoRem r) - r) <= 1 # 2000.
Proof.
  pose proof (round_half_even_error (r * 1000)) as H.
  apply Qabs_Qle_condition in H. apply Qabs_Qle_condition.
  simpl. set (n := inject_Z (round_half_even (r * 1000))) in *.
  assert (n / 1000 == n * (1 # 1000)) as E by field.
  rewrite E. lra.
Qed.

Lemma stage_value_rem_range r :
  1 # 2 <= r <= 2 -> 1 # 2 <= stage_value (AtempoRem r) <= 2.
Proof.
  intros [Hlo Hhi]. simpl.
  assert (500 <= round_half_even (r * 1000))%Z as H1
    by (apply round_half_even_ge; change (inject_Z 500) with 500; lra).
  assert (round_half_even (r * 1000) <= 2000)%Z as H2
    by (apply round_half_even_le; change (inject_Z 2000) with 2000; lra).
  set (n := round_half_even (r * 1000)) in *.
  assert (inject_Z n / 1000 == inject_Z n * (1 # 1000)) as E by field.
  rewrite E.
  assert (500 <= inject_Z n) by (change 500 with (inject_Z 500); rewrite <- Zle_Qle; exact H1).
  assert (inject_Z n <= 2000) by (change 2000 with (inject_Z 2000); rewrite <- Zle_Qle; exact H2).
  lra.
Qed.

Lemma Forall_repeat_two k : Forall stage_in_range (repeat AtempoTwo k).
Proof. induction k; simpl; constructor; [unfold stage_in_range; simpl; lra|assumption]. Qed.

Lemma Forall_repeat_half k : Forall stage_in_range (repeat AtempoHalf k).
Proof. induction k; simpl; constructor; [unfold stage_in_range; simpl; lra|assumption]. Qed.

Lemma Qpow_half_le_1 j : Qpow (1 # 2) j <= 1.
Proof.
  induction j as [|j IH]; simpl; [lra|].
  pose proof (Qpow_pos (1 # 2) j ltac:(lra)). lra.
Qed.

Lemma Qpow2_ge_4 k : (2 <= k)%nat -> 4 <= Qpow 2 k.
Proof.
  intros H. destruct k as [|[|k]]; try lia. simpl.
  pose proof (Qpow2_ge_succ k) as Hk.
  assert (1 <= inject_Z (Z.of_nat (S k))).
  { rewrite Nat2Z.inj_succ. unfold Z.succ. rewrite inject_Z_plus.
    change (inject_Z 1) with 1.
    assert (0 <= inject_Z (Z.of_nat k)) by (unfold Qle; simpl; lia). lra. }
  lra.
Qed.

Lemma Qeq_bool_false a b : ~ a == b -> Qeq_bool a b = false.
Proof.
  intros H. destruct (Qeq_bool a b) eqn:E; [|reflexivity].
  apply Qeq_bool_iff in E. contradiction.
Qed.

Lemma atempo_stages_shape (speed : Q) :
  0 < speed -> ~ speed == 1 ->
  exists k j r,
    (forall fuel, (enough_fuel speed <= fuel)%nat ->
       atempo_stages fuel speed =
       Some (repeat AtempoTwo k ++ repeat AtempoHalf j ++ [AtempoRem r])) /\
    (k = O \/ j = O) /\
    speed == r * Qpow 2 k * Qpow (1 # 2) j /\
    1 # 2 <= r <= 2 /\
    ((0 < k)%nat -> 1 < r) /\
    ((0 < j)%nat -> r < 1).
Proof.
  intros Hpos Hne.
  set (f0 := enough_fuel speed).
  destruct (speed_down_total f0 speed []) as [[r1 f1] Hd].
  { apply enough_fuel_down; [exact Hpos|lia]. }
  destruct (speed_down_spec _ _ _ _ _ Hd) as (k & _ & Hf1 & Hr1 & Hr1le & Hr1gt & Hk0).
  simpl in Hf1. subst f1.
  destruct k as [|k].
  - specialize (Hk0 eq_refl). subst r1. simpl in *.
    destruct (speed_up_total f0 speed []) as [[r2 f2] Hu].
    { apply enough_fuel_up; [exact Hpos|lia]. }
    destruct (speed_up_spec _ _ _ _ _ Hu) as (j & _ & Hf2 & Hr2 & Hr2ge & Hr2lt & Hj0).
    simpl in Hf2. subst f2.
    assert (~ r2 == 1) as Hr2ne.
    { destruct j as [|j]; [rewrite (Hj0 eq_refl); exact Hne|].
      assert (r2 < 1) by (apply Hr2lt; lia). lra. }
    assert (r2 <= 2) as Hr2le.
    { destruct j as [|j]; [rewrite (Hj0 eq_refl); exact Hr1le|].
      assert (r2 < 1) by (apply Hr2lt; lia). lra. }
    exists O, j, r2. split; [|split; [|split; [|split; [|split]]]];
      try lra; try lia; auto.
    + intros fuel Hfuel. unfold atempo_stages.
      rewrite (Qeq_bool_false _ _ Hne).
      rewrite (speed_down_fuel_mono _ _ _ _ _ Hd Hfuel).
      rewrite (speed_up_fuel_mono _ _ _ _ _ Hu Hfuel).
      rewrite (Qeq_bool_false _ _ Hr2ne). reflexivity.
    + simpl. rewrite Hr2. lra.
  - assert (1 < r1) as Hgt by (apply Hr1gt; lia).
    exists (S k), O, r1. split; [|split; [|split; [|split; [|split]]]];
      try lra; try lia; auto.
    + intros fuel Hfuel. unfold atempo_stages.
      rewrite (Qeq_bool_false _ _ Hne).
      rewrite (speed_down_fuel_mono _ _ _ _ _ Hd Hfuel).
      rewrite speed_up_id by lra.
      rewrite (Qeq_bool_false r1 1) by lra. reflexivity.
    + rewrite Hr1. change (Qpow (1 # 2) 0) with 1. lra.
Qed.

Lemma atempo_stages_total (speed : Q) :
  0 < speed ->
  exists stages, forall fuel, (enough_fuel speed <= fuel)%nat ->
    atempo_stages fuel speed = Some stages.
Proof.
  intros Hpos. destruct (Qeq_dec speed 1) as [E1|Hne].
  - exists []. intros fuel _. unfold atempo_stages.
    apply Qeq_bool_iff in E1. rewrite E1. reflexivity.
  - destruct (atempo_stages_shape speed Hpos Hne) as (k & j & r & Hrun & _).
    eexists. exact Hrun.
Qed.

Lemma atempo_stages_diverge (speed : Q) (fuel : nat) :
  speed <= 0 -> atempo_stages fuel speed = None.
Proof.
  intros Hle. unfold atempo_stages.
  rewrite (Qeq_bool_false speed 1) by lra.
  rewrite speed_down_id by lra. rewrite speed_up_diverges by exact Hle. reflexivity.
Qed.

Lemma chain_product k j r :
  stage_product (repeat AtempoTwo k ++ repeat AtempoHalf j ++ [AtempoRem r])
  == Qpow 2 k * Qpow (1 # 2) j * stage_value (AtempoRem r).
Proof.
  rewrite !stage_product_app, stage_product_repeat_two, stage_product_repeat_half.
  simpl. lra.
Qed.

Lemma scaled_error s r v :
  0 < s -> 1 # 2 <= r -> Qabs (v - r) <= 1 # 2000 ->
  Qabs (s * v - s * r) <= s * r * (1 # 1000).
Proof.
  intros Hs Hr He. apply Qabs_Qle_condition in He. apply Qabs_Qle_condition.
  split; nra.
Qed.

Lemma scaled_error_abs s r v :
  0 < s -> s <= 2 -> Qabs (v - r) <= 1 # 2000 ->
  Qabs (s * v - s * r) <= 1 # 1000.
Proof.
  intros Hs Hs2 He. apply Qabs_Qle_condition in He. apply Qabs_Qle_condition.
  split; nra.
Qed.

(** C1 (as amended).  For every positive speed [_build_atempo_filter]
    returns (its loops end within [enough_fuel] rounds) a chain of stages
    whose values all lie in [[0.5, 2.0]]: the empty chain for speed 1.0,
    otherwise [k] stages 2.0 (one for each halving while the remaining speed
    exceeds 2.0), [j] stages 0.5 (one for each doubling while it is below
    0.5) and one remainder stage printed with three decimals; the remainder
    is above 1 after a halving and below 1 after a doubling.  The product
    of the stage values is within [speed / 1000] of the speed, and within
    1e-3 of it for every speed up to 4.0, so for each of 0.5, 1.0, 1.3, 2.0,
    3.0 and 0.25. *)
Theorem build_atempo_filter_chain (speed : Q) :
  0 < speed ->
  exists stages,
    (forall fuel, (enough_fuel speed <= fuel)%nat ->
       atempo_stages fuel speed = Some stages /\
       (speed == 1 -> _build_atempo_filter fuel speed = Some EmptyString)) /\
    Forall stage_in_range stages /\
    (speed == 1 -> stages = []) /\
    (~ speed == 1 ->
       exists k j r,
         stages = repeat AtempoTwo k ++ repeat AtempoHalf j ++ [AtempoRem r] /\
         (k = O \/ j = O) /\
         speed == r * Qpow 2 k * Qpow (1 # 2) j /\ 1 # 2 <= r <= 2 /\
         ((0 < k)%nat -> 1 < r) /\ ((0 < j)%nat -> r < 1)) /\
    Qabs (stage_product stages - speed) <= speed * (1 # 1000) /\
    (speed <= 4 -> Qabs (stage_product stages - speed) <= 1 # 1000).
Proof.
  intros Hpos.
  destruct (Qeq_dec speed 1) as [E1|Hne].
  - exists []. 
    assert (Qeq_bool speed 1 = true) as Eb by (apply Qeq_bool_iff; exact E1).
    split; [|split; [|split; [|split; [|split]]]].
    + intros fuel _. unfold _build_atempo_filter, atempo_stages. rewrite Eb. split; reflexivity.
    + constructor.
    + reflexivity.
    + intros Hne. contradiction.
    + change (stage_product []) with 1. apply Qabs_Qle_condition. lra.
    + intros _. change (stage_product []) with 1. apply Qabs_Qle_condition. lra.
  - destruct (atempo_stages_shape speed Hpos Hne)
      as (k & j & r & Hrun & Hkj & Hsp & [Hlo Hhi] & Hgt & Hlt).
    exists (repeat AtempoTwo k ++ repeat AtempoHalf j ++ [AtempoRem r]).
    pose proof (stage_value_rem_error r) as Herr.
    pose proof (Qpow_pos 2 k ltac:(lra)) as Hk.
    pose proof (Qpow_pos (1 # 2) j ltac:(lra)) as Hj.
    assert (0 < Qpow 2 k * Qpow (1 # 2) j) as Hab by nra.
    split; [|split; [|split; [|split; [|split]]]].
    + intros fuel Hfuel. split; [apply Hrun; assumption|]. intros E. contradiction.
    + apply Forall_app; split; [apply Forall_repeat_two|].
      apply Forall_app; split; [apply Forall_repeat_half|].
      constructor; [|constructor]. apply stage_value_rem_range. split; assumption.
    + intros E. contradiction.
    + intros _. exists k, j, r. repeat split; auto.
    + rewrite chain_product, Hsp.
      setoid_replace (r * Qpow 2 k * Qpow (1 # 2) j)
        with (Qpow 2 k * Qpow (1 # 2) j * r) using relation Qeq by ring.
      apply scaled_error; assumption.
    + intros H4.
      assert (Qpow 2 k * Qpow (1 # 2) j <= 2) as Hs.
      { destruct Hkj as [Hk0 | Hj0].
        - subst k. change (Qpow 2 0) with 1. pose proof (Qpow_half_le_1 j). lra.
        - subst j. change (Qpow (1 # 2) 0) with 1 in *.
          destruct (le_lt_dec 2 k) as [H2|H2].
          + pose proof (Qpow2_ge_4 k H2) as H5.
            assert (1 < r) by (apply Hgt; lia).
            rewrite Hsp in H4. nra.
          + destruct k as [|[|k]]; try lia.
            * change (Qpow 2 0) with 1. lra.
            * change (Qpow 2 1) with (2 * 1). lra. }
      rewrite chain_product, Hsp.
      setoid_replace (r * Qpow 2 k * Qpow (1 # 2) j)
        with (Qpow 2 k * Qpow (1 # 2) j * r) using relation Qeq by ring.
      apply scaled_error_abs; assumption.
Qed.


Lemma build_atempo_filter_chain_witness :
  0 < 3 /\
  exists stages,
    (forall fuel, (enough_fuel 3 <= fuel)%nat ->
       atempo_stages fuel 3 = Some stages /\
       (3 == 1 -> _build_atempo_filter fuel 3 = Some EmptyString)) /\
    Forall stage_in_range stages /\
    (3 == 1 -> stages = []) /\
    (~ 3 == 1 ->
       exists k j r,
         stages = repeat AtempoTwo k ++ repeat AtempoHalf j ++ [AtempoRem r] /\
         (k = O \/ j = O) /\
         3 == r * Qpow 2 k * Qpow (1 # 2) j /\ 1 # 2 <= r <= 2 /\
         ((0 < k)%nat -> 1 < r) /\ ((0 < j)%nat -> r < 1)) /\
    Qabs (stage_product stages - 3) <= 3 * (1 # 1000) /\
    (3 <= 4 -> Qabs (stage_product stages - 3) <= 1 # 1000).
Proof.
  split; [reflexivity|]. apply (build_atempo_filter_chain 3). reflexivity.
Defined.

(** The filters of the speeds the specification lists. *)
Example atempo_listed_speeds :
  map (_build_atempo_filter 4) [1 # 2; 1; 13 # 10; 2; 3; 1 # 4]
  = [Some "atempo=0.500"; Some EmptyString; Some "atempo=1.300"; Some "atempo=2.000";
     Some "atempo=2.0,atempo=1.500"; Some "atempo=0.5,atempo=0.500"].
Proof. vm_compute. reflexivity. Qed.

(** C1, counterexample.  The speed [6 + 1/512] is a binary float.  Its chain
    is 2.0, 2.0 and a remainder 1.50048828125 printed as 1.500, whose
    product 6.000 misses the speed by more than 1e-3; and for the speed 0
    the second loop of the builder never ends. *)
Lemma atempo_tolerance_counterexample :
  atempo_stages 3 (3073 # 512) = Some [AtempoTwo; AtempoTwo; AtempoRem (3073 # 2048)] /\
  _build_atempo_filter 3 (3073 # 512) = Some "atempo=2.0,atempo=2.0,atempo=1.500" /\
  ~ Qabs (stage_product [AtempoTwo; AtempoTwo; AtempoRem (3073 # 2048)] - (3073 # 512))
    <= 1 # 1000 /\
  (forall fuel, _build_atempo_filter fuel 0 = None).
Proof.
  split; [vm_compute; reflexivity|]. split; [vm_compute; reflexivity|]. split.
  - vm_compute. intros H. apply H. reflexivity.
  - intros fuel. unfold _build_atempo_filter.
    rewrite atempo_stages_diverge by lra. reflexivity.
Qed.

(* --------------------------------------------------------------------- *)
(** ** The playlist entry (C7) *)
(* --------------------------------------------------------------------- *)







(** The whole playlist, read line by line, gives the files back in order
    when no name contains a line break. *)
Lemma append_cons (c : ascii) (a b : string) : String c a +:+ b = String c (a +:+ b).
Proof. reflexivity. Qed.

Lemma append_nil (a : string) : EmptyString +:+ a = a.
Proof. reflexivity. Qed.

Lemma str_app_assoc (a b c : string) : (a +:+ b) +:+ c = a +:+ (b +:+ c).
Proof. induction a as [|x a IH]; [reflexivity|]. now rewrite !append_cons, IH. Qed.






(* --------------------------------------------------------------------- *)
(** ** Progress of a render (C2) *)
(* --------------------------------------------------------------------- *)


Lemma py_int_nonneg (x : Q) : 0 <= x -> py_int x = Qfloor x.
Proof.
  destruct x as [n d]. unfold Qle, py_int, Qfloor. simpl. intros H.
  apply Z.quot_div_nonneg; lia.
Qed.

Lemma Qdiv_nonneg (a b : Q) : 0 <= a -> 0 < b -> 0 <= a / b.
Proof.
  intros Ha Hb. unfold Qdiv. apply Qmult_le_0_compat; [exact Ha|].
  apply Qinv_le_0_compat. lra.
Qed.

Lemma Qdiv_le_mono (a b c : Q) : 0 < c -> a <= b -> a / c <= b / c.
Proof.
  intros Hc Hab. unfold Qdiv. apply Qmult_le_compat_r; [exact Hab|].
  apply Qinv_le_0_compat. lra.
Qed.






Lemma progress_report_some cs ad t0 now r :
  progress_report cs ad t0 now = Some r ->
  0 < ad /\ 0 < cs /\ fst r = progress_pct cs ad.
Proof.
  unfold progress_report.
  destruct (Qlt_bool 0 ad) eqn:Ea; [|discriminate].
  destruct (Qlt_bool 0 cs) eqn:Ec; [|discriminate].
  apply Qlt_bool_iff in Ea, Ec. cbn [andb].
  destruct (Qlt_bool _ _); intros [= <-]; auto.
Qed.

Lemma only_reports_refl st : only_reports st st [].
Proof. unfold only_reports. rewrite app_nil_r. auto 10. Qed.

Lemma only_reports_trans st1 st2 st3 r1 r2 :
  only_reports st1 st2 r1 -> only_reports st2 st3 r2 -> only_reports st1 st3 (r1 ++ r2).
Proof.
  unfold only_reports. intros (A1 & A2 & A3 & A4 & A5 & A6) (B1 & B2 & B3 & B4 & B5 & B6).
  rewrite B1, B2, B3, B4, B5, B6, A1, A2, A3, A4, A5, A6, app_assoc. auto 10.
Qed.

Lemma render_line_effect cb ad t0 text loop st :
  exists loop' st' reports,
    render_line cb ad t0 text loop st = (Ok loop', st') /\
    rl_stderr_lines loop' = rl_stderr_lines loop ++ [text] /\
    only_reports st st' reports /\
    (reports = [] \/
     exists g msg, search_time text = Some g /\ 0 < current_seconds_of g /\ 0 < ad /\
                   reports = [(progress_pct (current_seconds_of g) ad, msg)]).
Proof.
  assert (forall l, exists loop' st' reports,
            (Ok {| rl_stderr_lines := rl_stderr_lines loop ++ [text];
                   rl_last_update_time := l |}, st) = (Ok loop', st') /\
            rl_stderr_lines loop' = rl_stderr_lines loop ++ [text] /\
            only_reports st st' reports /\
            (reports = [] \/
             exists g msg, search_time text = Some g /\ 0 < current_seconds_of g /\
                           0 < ad /\
                           reports = [(progress_pct (current_seconds_of g) ad, msg)]))
    as Hquiet.
  { intros l. eexists _, st, []. split; [reflexivity|]. split; [reflexivity|].
    split; [apply only_reports_refl|left; reflexivity]. }
  unfold render_line.
  destruct (search_time text) as [g|] eqn:Eg; [destruct cb|]; try apply Hquiet.
  unfold bind, time_now, get_world, ret. cbn.
  destruct (Qlt_bool (w_clock (st_world st) - rl_last_update_time loop) (3 # 10));
    [apply Hquiet|].
  destruct (progress_report _ _ _ _) as [[pct msg]|] eqn:Er.
  - apply progress_report_some in Er as (Had & Hcs & Hpct). cbn in Hpct. subst pct.
    unfold progress, update_world. cbn.
    eexists _, _, [_]. split; [reflexivity|]. split; [reflexivity|]. split.
    + unfold only_reports. cbn. auto 10.
    + right. eexists g, msg. auto.
  - cbn. apply Hquiet.
Qed.







(** What the sample stream reports: the second line is held back by the
    throttle. *)
Example sample_progress :
  map fst (w_progress (st_world (snd (render_read true 120 1000 0
                                        (sample_run 0 None [] false) "out.mp3"
                                        sample_events sample_loop sample_folder))))
  = [26%Z; 57%Z].
Proof. vm_compute. reflexivity. Qed.


(* --------------------------------------------------------------------- *)
(** ** The exit of a render (C3) *)
(* --------------------------------------------------------------------- *)


Lemma render_read_completes cb ad t0 pid run out events : forall loop st,
  no_interrupt events = true ->
  exists loop' st',
    render_read cb ad t0 pid run out events loop st = (Ok loop', st') /\
    rl_stderr_lines loop' = rl_stderr_lines loop ++ event_lines events /\
    st_self st' = st_self st /\
    w_fs (st_world st') =
      match rr_writes run with
      | Some size => <[out := DataFile size]> (w_fs (st_world st))
      | None => w_fs (st_world st)
      end /\
    w_procs (st_world st') =
      <[pid := proc_exit (lookup_proc pid (st_world st))]> (w_procs (st_world st)).
Proof.
  induction events as [|[text dt|] rest IH]; intros loop st Hni; [| |discriminate].
  - cbn [render_read event_lines].
    unfold bind, update_proc, update_world, write_file, ret. cbn.
    destruct (rr_writes run); cbn; eexists _, _; rewrite app_nil_r;
      repeat split; reflexivity.
  - cbn [render_read event_lines]. unfold bind at 1. unfold sleep, update_world.
    cbn [fst snd].
    set (st1 := {| st_world := set_w_clock (w_clock (st_world st) + dt) (st_world st);
                   st_self := st_self st |}).
    unfold bind at 1.
    destruct (render_line_effect cb ad t0 text loop st1)
      as (loop' & st2 & r1 & Hrun & Hlines & Hrep & _).
    rewrite Hrun.
    destruct (IH loop' st2 Hni) as (loop'' & st3 & Hrun' & Hlines' & Hself & Hfs & Hprocs).
    destruct Hrep as (Hs2 & Hf2 & Hp2 & _).
    exists loop'', st3. split; [exact Hrun'|].
    rewrite Hlines', Hlines, <- app_assoc, Hself, Hs2, Hfs, Hf2, Hprocs.
    unfold lookup_proc. rewrite Hp2. repeat split; reflexivity.
Qed.

Lemma render_finish_result out cb rc text concat st :
  fst (render_finish out cb rc text concat st) =
  Ok (if negb (rc =? 0)%Z then
        (false, "FFmpeg render failed (code " +:+ str_of_Z rc +:+ "):" +:+ nl
                +:+ error_summary text)
      else
        match option_map file_size (w_fs (st_world st) !! out) with
        | None => (false, "Output file was not created")
        | Some bytes =>
            if Qlt_bool (inject_Z bytes / MB) (1 # 10) then
              (false, "Output file is too small (" +:+ format_fixed 2 (inject_Z bytes / MB)
                      +:+ " MB), render may have failed")
            else
              (true, "Audio saved to: " +:+ out +:+ " ("
                     +:+ format_fixed 1 (inject_Z bytes / MB) +:+ " MB)")
        end).
Proof.
  unfold render_finish.
  destruct (negb (rc =? 0)%Z); [reflexivity|].
  unfold bind at 1. unfold path_exists, bind, get_world, ret. cbn [fst snd].
  destruct (w_fs (st_world st) !! out) as [f|] eqn:Ef; cbn [negb option_map]; [|reflexivity].
  unfold getsize, bind, get_world, ret. cbn [fst snd]. rewrite Ef.
  destruct (Qlt_bool (inject_Z (file_size f) / MB) (1 # 10)); [reflexivity|].
  unfold get_self. cbn [fst snd].
  destruct cb;
    (destruct concat as [c|]; [destruct (truthy_list _)|]);
    unfold try_pass, try_except, unlink, progress, bind, get_world, update_world, ret, raise;
    cbn [fst snd]; try reflexivity;
    destruct (w_fs (st_world st) !! c); reflexivity.
Qed.

Lemma try_except_ok {A : Type} (body : M A) handler st a :
  fst (body st) = Ok a -> fst (try_except body handler st) = Ok a.
Proof.
  unfold try_except. destruct (body st) as [[x|e|] st']; cbn; intros H;
    try discriminate; exact H.
Qed.

Lemma bind_ok {A B : Type} (m : M A) (f : A -> M B) st a st' :
  m st = (Ok a, st') -> bind m f st = f a st'.
Proof. intros H. unfold bind. rewrite H. reflexivity. Qed.

Lemma render_run_result E out cb cmd ad concat st :
  rr_spawn_error (render_engine E cmd) = None ->
  no_interrupt (rr_events (render_engine E cmd)) = true ->
  fst (render_run E out cb cmd ad concat st) =
  Ok (let run := render_engine E cmd in
      let rc := rr_returncode run in
      let stderr_text := String.concat EmptyString (event_lines (rr_events run)) in
      if negb (rc =? 0)%Z then
        (false, "FFmpeg render failed (code " +:+ str_of_Z rc +:+ "):" +:+ nl
                +:+ error_summary stderr_text)
      else
        match output_after run out (st_world st) with
        | None => (false, "Output file was not created")
        | Some bytes =>
            if Qlt_bool (inject_Z bytes / MB) (1 # 10) then
              (false, "Output file is too small (" +:+ format_fixed 2 (inject_Z bytes / MB)
                      +:+ " MB), render may have failed")
            else
              (true, "Audio saved to: " +:+ out +:+ " ("
                     +:+ format_fixed 1 (inject_Z bytes / MB) +:+ " MB)")
        end).
Proof.
  intros Hspawn Hni. unfold render_run. rewrite Hspawn.
  set (run := render_engine E cmd) in *.
  set (pid := w_next (st_world st)).
  set (st1 := {| st_world :=
                   set_w_next (S pid)
                     (set_w_procs
                        (<[pid := {| p_running := true; p_returncode := rr_returncode run;
                                     p_stderr := EmptyString;
                                     p_stubborn := rr_stubborn run;
                                     p_signals := [] |}]> (w_procs (st_world st)))
                        (st_world st));
                 st_self := st_self st |}).
  rewrite (bind_ok _ _ st pid st1) by reflexivity.
  apply try_except_ok.
  rewrite (bind_ok _ _ st1 (w_clock (st_world st1)) st1) by reflexivity.
  destruct (render_read_completes cb ad (w_clock (st_world st1)) pid run
              out (rr_events run)
              {| rl_stderr_lines := []; rl_last_update_time := w_clock (st_world st1) |}
              st1 Hni)
    as (loop' & st2 & Hrun & Hlines & _ & Hfs & Hprocs).
  rewrite (bind_ok _ _ _ _ _ Hrun).
  rewrite (bind_ok _ _ st2 (st_world st2) st2) by reflexivity.
  rewrite render_finish_result. f_equal.
  cbn [rl_stderr_lines app] in Hlines. rewrite Hlines.
  assert (p_returncode (lookup_proc pid (st_world st2)) = rr_returncode run) as ->.
  { unfold lookup_proc. rewrite Hprocs, lookup_insert_eq.
    subst st1. unfold lookup_proc.
    cbn [st_world w_procs set_w_next set_w_procs proc_exit p_returncode].
    rewrite lookup_insert_eq. reflexivity. }
  cbv zeta. destruct (negb _); [reflexivity|].
  assert (option_map file_size (w_fs (st_world st2) !! out)
          = output_after run out (st_world st)) as ->; [|reflexivity].
  rewrite Hfs. unfold output_after.
  destruct (rr_writes run); [rewrite lookup_insert_eq|]; reflexivity.
Qed.



(* --------------------------------------------------------------------- *)
(** ** Loading a file that does not fit in memory (C10) *)
(* --------------------------------------------------------------------- *)


Lemma load_audiobook_no_memory_error E path cb st :
  fst (load_audiobook E path cb st) <> Raise MemoryError.
Proof.
  unfold load_audiobook, try_except.
  match goal with |- context [match ?b st with _ => _ end] => destruct (b st) as [[a|e|] st'] end;
    cbn [fst]; try discriminate.
  destruct e; try discriminate;
    destruct cb; unfold bind, update_self, progress, update_world, ret; cbn; discriminate.
Qed.

Lemma load_background_music_no_memory_error E path cb st :
  fst (load_background_music E path cb st) <> Raise MemoryError.
Proof.
  unfold load_background_music, try_except.
  match goal with |- context [match ?b st with _ => _ end] => destruct (b st) as [[a|e|] st'] end;
    cbn [fst]; try discriminate.
  destruct e; try discriminate;
    destruct cb; unfold bind, update_self, progress, update_world, ret; cbn; discriminate.
Qed.

Lemma Qlt_bool_false a b : b <= a -> Qlt_bool a b = false.
Proof. intros H. apply Qlt_bool_false_iff. exact H. Qed.

(** C10.  When reading the file into memory raises [MemoryError], both
    loaders return [True] with the streaming-only message and leave the
    in-memory segment unset; and no call of a loader ever ends in a
    [MemoryError]. *)
Theorem load_memory_error_is_streaming E path cb st f :
  w_fs (st_world st) !! path = Some f ->
  from_mp3 E path = inl MemoryError ->
  let size_mb := inject_Z (file_size f) / MB in
  let message :=
    "Ready for streaming: " +:+ basename path +:+ " (too large to load, streaming only)" in
  (size_mb <= 300 ->
   fst (load_audiobook E path cb st) = Ok (true, message) /\
   audiobook (st_self (snd (load_audiobook E path cb st))) = None) /\
  (size_mb <= 100 ->
   fst (load_background_music E path cb st) = Ok (true, message) /\
   background_music (st_self (snd (load_background_music E path cb st))) = None) /\
  fst (load_audiobook E path cb st) <> Raise MemoryError /\
  fst (load_background_music E path cb st) <> Raise MemoryError.
Proof.
  intros Hf Hmem size_mb message.
  split; [|split; [|split]];
    [| |apply load_audiobook_no_memory_error|apply load_background_music_no_memory_error].
  - intros Hsize. apply Qlt_bool_false in Hsize. subst size_mb.
    unfold load_audiobook, try_except, getsize, progress, get_audio_duration.
    unfold update_self, update_world, get_world, bind, ret.
    cbn [fst snd st_world st_self]. rewrite Hf.
    destruct cb;
      (destruct (ffprobe E path) as [d|]; [destruct (truthy_float (Some d))|]);
      cbn [fst snd st_world st_self]; rewrite Hsize, Hmem;
      cbn; split; reflexivity.
  - intros Hsize. apply Qlt_bool_false in Hsize. subst size_mb.
    unfold load_background_music, try_except, getsize, progress, get_audio_duration.
    unfold update_self, update_world, get_world, bind, ret.
    cbn [fst snd st_world st_self]. rewrite Hf.
    destruct cb;
      (destruct (ffprobe E path) as [d|]; [destruct (truthy_float (Some d))|]);
      cbn [fst snd st_world st_self]; rewrite Hsize, Hmem;
      cbn; split; reflexivity.
Qed.

Lemma load_memory_error_is_streaming_witness :
  w_fs (st_world sample_single) !! "ch1.mp3" = Some (DataFile 5000000) /\
  from_mp3 (sample_env 0 None [] false) "ch1.mp3" = inl MemoryError /\
  fst (load_audiobook (sample_env 0 None [] false) "ch1.mp3" true sample_single)
  = Ok (true, "Ready for streaming: ch1.mp3 (too large to load, streaming only)") /\
  audiobook (st_self (snd (load_audiobook (sample_env 0 None [] false) "ch1.mp3" true
                                          sample_single))) = None.
Proof.
  split; [reflexivity|]. split; [reflexivity|].
  refine (proj1 (load_memory_error_is_streaming (sample_env 0 None [] false) "ch1.mp3" true
                   sample_single (DataFile 5000000) eq_refl eq_refl) _).
  vm_compute. discriminate.
Defined.

(* --------------------------------------------------------------------- *)
(** ** Reasoning about the methods *)
(* --------------------------------------------------------------------- *)


Lemma preserves_ret {A : Type} P (a : A) : preserves P (ret a).
Proof. intros st H. exact H. Qed.

Lemma preserves_raise {A : Type} P e : preserves P (@raise A e).
Proof. intros st H. exact H. Qed.

Lemma preserves_bind {A B : Type} P (m : M A) (f : A -> M B) :
  preserves P m -> (forall a, preserves P (f a)) -> preserves P (bind m f).
Proof.
  intros Hm Hf st H. unfold bind. specialize (Hm st H).
  destruct (m st) as [[a|e|] st']; cbn in *; auto. apply Hf. exact Hm.
Qed.

Lemma preserves_try_except {A : Type} P (body : M A) handler :
  preserves P body ->
  (forall e k, handler e = Some k -> preserves P k) ->
  preserves P (try_except body handler).
Proof.
  intros Hb Hh st H. unfold try_except. specialize (Hb st H).
  destruct (body st) as [[a|e|] st']; cbn in *; auto.
  destruct (handler e) as [k|] eqn:Ek; cbn; auto. eapply Hh; eauto.
Qed.

Lemma preserves_try_pass P (body : M unit) :
  preserves P body -> preserves P (try_pass body).
Proof.
  intros Hb. apply preserves_try_except; [exact Hb|].
  intros e k [= <-]. apply preserves_ret.
Qed.




(** Properties of the object alone are kept by whatever touches only the
    world. *)
Lemma preserves_update_world (Q : AudioProcessor -> Prop) f :
  preserves (fun st => Q (st_self st)) (update_world f).
Proof. intros st H. exact H. Qed.

Lemma preserves_get_world P : preserves P get_world.
Proof. intros st H. exact H. Qed.

Lemma preserves_get_self P : preserves P get_self.
Proof. intros st H. exact H. Qed.

Lemma preserves_bind_get_self {B : Type} P (f : AudioProcessor -> M B) :
  (forall st, P st -> P (snd (f (st_self st) st))) -> preserves P (bind get_self f).
Proof. intros H st HP. unfold bind, get_self. cbn. apply H. exact HP. Qed.

Ltac world_only :=
  repeat first
    [ apply preserves_ret
    | apply preserves_raise
    | apply preserves_get_world
    | apply preserves_get_self
    | apply preserves_update_world
    | apply preserves_try_pass
    | apply preserves_bind; [|intros ?]
    | apply preserves_try_except; [|intros ? ? [= <-]]
    | match goal with
      | |- preserves _ (match ?x with _ => _ end) => destruct x
      | |- preserves _ (if ?x then _ else _) => destruct x
      end ].

Section ObjectProperties.

Variable Q : AudioProcessor -> Prop.

Lemma self_kept_sleep dt : preserves (fun st => Q (st_self st)) (sleep dt).
Proof. unfold sleep. world_only. Qed.

Lemma self_kept_path_exists p : preserves (fun st => Q (st_self st)) (path_exists p).
Proof. unfold path_exists. world_only. Qed.

Lemma self_kept_unlink p : preserves (fun st => Q (st_self st)) (unlink p).
Proof. unfold unlink. world_only. Qed.

Lemma self_kept_terminate_then_kill pid g :
  preserves (fun st => Q (st_self st)) (terminate_then_kill pid g).
Proof.
  unfold terminate_then_kill, proc_terminate, proc_wait_timeout, proc_kill, update_proc,
    sleep.
  world_only.
Qed.

Lemma self_kept_music_stop : preserves (fun st => Q (st_self st)) music_stop.
Proof. unfold music_stop, update_player. world_only. Qed.

End ObjectProperties.

(* --------------------------------------------------------------------- *)
(** ** The position clock (C6) *)
(* --------------------------------------------------------------------- *)





(** After a successful start the anchors are the requested offset and the
    time of the start. *)
Example sample_playing_anchors :
  fst (play_mix quiet_env 50 sample_single)
    = Ok (true, "Streaming mixed audio (starting from 50s)...") /\
  is_playing (st_self sample_playing) = true /\
  playback_start_position (st_self sample_playing) = 50 /\
  playback_start_time (st_self sample_playing) = w_clock (st_world sample_playing).
Proof. vm_compute. repeat split; reflexivity. Qed.

(* --------------------------------------------------------------------- *)
(** ** Seeking while idle (C5) *)
(* --------------------------------------------------------------------- *)

Lemma seek_while_idle_changes_nothing E position st :
  truthy_str (audiobook_path (st_self st)) || truthy_list (audiobook_files (st_self st))
    = true ->
  truthy_str (music_path (st_self st)) = true ->
  is_playing (st_self st) = false ->
  get_busy (w_player (st_world st)) = false ->
  seek_to_position E position st
    = (Ok (true, "Position set to " +:+ format_fixed 0 position +:+ "s"), st) /\
  get_playback_position st = (Ok 0, st).
Proof.
  intros Hbook Hmusic Hplay Hbusy. split.
  - unfold seek_to_position, is_audio_playing, try_except, music_get_busy.
    unfold get_self, get_world, bind, ret. cbn [fst snd].
    rewrite Hbook, Hmusic. cbn [negb orb]. rewrite Hbusy, Hplay. reflexivity.
  - unfold get_playback_position, get_self, bind, ret. cbn [fst snd].
    rewrite Hplay. reflexivity.
Qed.

(** C5, the code at the failing input.  Seeking to 50 s while idle answers
    "Position set to 50s" and starts no process, but leaves the object and
    the world as they were: the position then reads 0, and a play without
    offset starts its session at 0. *)
Theorem seek_while_idle_forgets_position :
  seek_to_position quiet_env 50 sample_single
    = (Ok (true, "Position set to 50s"), sample_single) /\
  fst (get_playback_position (snd (seek_to_position quiet_env 50 sample_single))) = Ok 0 /\
  fst (play_mix_no_offset quiet_env (snd (seek_to_position quiet_env 50 sample_single)))
    = Ok (true, "Streaming mixed audio (starting from 0s)...") /\
  playback_start_position
    (st_self (snd (play_mix_no_offset quiet_env
                     (snd (seek_to_position quiet_env 50 sample_single))))) = 0.
Proof.
  destruct (seek_while_idle_changes_nothing quiet_env 50 sample_single
              eq_refl eq_refl eq_refl eq_refl) as [Hseek Hpos].
  change (format_fixed 0 50) with "50" in Hseek.
  rewrite Hseek. cbn [snd]. rewrite Hpos.
  split; [reflexivity|]. split; [reflexivity|].
  vm_compute. split; reflexivity.
Qed.

(* --------------------------------------------------------------------- *)
(** ** Stopping while the encoder fills its buffer (C9) *)
(* --------------------------------------------------------------------- *)

(** C9, the code at the failing input.  While [play_mix] waits for the
    first bytes of its encoder the temporary file exists but is not yet
    recorded in [current_playback_file].  [stop_playback] then terminates
    the encoder (SIGTERM; and SIGKILL after the two seconds of the wait when
    it does not obey), clears the handle and the flag and returns normally,
    but the temporary file stays on disk. *)
Theorem stop_while_buffering_leaves_temp_file :
  (* the state while buffering *)
  streaming_process (st_self (sample_buffering false)) = Some 1%nat /\
  current_playback_file (st_self (sample_buffering false)) = None /\
  w_fs (st_world (sample_buffering false)) !! "/tmp/tmp0.wav" = Some (DataFile 0) /\
  (* an encoder that obeys SIGTERM *)
  fst (stop_playback (sample_buffering false)) = Ok (true, "Playback stopped") /\
  w_procs (st_world (snd (stop_playback (sample_buffering false)))) !! 1%nat
    = Some {| p_running := false; p_returncode := -15; p_stderr := EmptyString;
              p_stubborn := false; p_signals := [SIGTERM] |} /\
  is_playing (st_self (snd (stop_playback (sample_buffering false)))) = false /\
  streaming_process (st_self (snd (stop_playback (sample_buffering false)))) = None /\
  w_fs (st_world (snd (stop_playback (sample_buffering false)))) !! "/tmp/tmp0.wav"
    = Some (DataFile 0) /\
  (* an encoder that does not *)
  fst (stop_playback (sample_buffering true)) = Ok (true, "Playback stopped") /\
  w_procs (st_world (snd (stop_playback (sample_buffering true)))) !! 1%nat
    = Some {| p_running := false; p_returncode := -9; p_stderr := EmptyString;
              p_stubborn := true; p_signals := [SIGTERM; SIGKILL] |} /\
  w_fs (st_world (snd (stop_playback (sample_buffering true)))) !! "/tmp/tmp0.wav"
    = Some (DataFile 0).
Proof. vm_compute. repeat split; reflexivity. Qed.

(* --------------------------------------------------------------------- *)
(** ** The playlist of a failed render (C4) *)
(* --------------------------------------------------------------------- *)

(** C4, the code at the failing inputs.  A render of the folder writes its
    playlist to [/tmp/tmp0.txt].  The playlist is removed when the render
    succeeds; it is still there when the encoder exits with a non-zero
    code, leaves no output, leaves an output that is too small, or the
    render is cancelled. *)
Theorem render_failure_keeps_concat_list :
  let after env := render_to_file env "out.mp3" true sample_folder in
  let playlist env := w_fs (st_world (snd (after env))) !! "/tmp/tmp0.txt" in
  let written := Some (TextFile (concat_list ["ch1.mp3"; "ch2.mp3"; "ch3.mp3"])) in
  (* success *)
  fst (after (sample_env 0 (Some 2000000%Z) sample_events false))
    = Ok (true, "Audio saved to: out.mp3 (1.9 MB)") /\
  playlist (sample_env 0 (Some 2000000%Z) sample_events false) = None /\
  (* non-zero exit *)
  fst (after (sample_env 1 None sample_events false))
    = Ok (false, "FFmpeg render failed (code 1):" +:+ nl
                 +:+ "[mp3 @ 0x55] Error while decoding stream" +:+ nl
                 +:+ "Conversion failed!") /\
  playlist (sample_env 1 None sample_events false) = written /\
  (* no output *)
  fst (after (sample_env 0 None sample_events false))
    = Ok (false, "Output file was not created") /\
  playlist (sample_env 0 None sample_events false) = written /\
  (* output too small *)
  fst (after (sample_env 0 (Some 5000%Z) sample_events false))
    = Ok (false, "Output file is too small (0.00 MB), render may have failed") /\
  playlist (sample_env 0 (Some 5000%Z) sample_events false) = written /\
  (* cancelled *)
  fst (after (sample_env 0 None interrupted_events false))
    = Ok (false, "Render cancelled by user") /\
  playlist (sample_env 0 None interrupted_events false) = written.
Proof. vm_compute. repeat split; reflexivity. Qed.

(* --------------------------------------------------------------------- *)
(** ** The duration of a folder (C8) *)
(* --------------------------------------------------------------------- *)


Lemma terminate_then_kill_ok pid g st : fst (terminate_then_kill pid g st) = Ok tt.
Proof.
  unfold terminate_then_kill, try_except, try_pass, try_except.
  unfold proc_terminate, proc_wait_timeout, proc_kill, update_proc, sleep.
  unfold update_world, get_world, bind, ret, raise. cbn [fst snd].
  destruct (p_running (lookup_proc pid (st_world st))) eqn:Er.
  - cbn [fst snd st_world]. unfold lookup_proc at 1 3.
    cbn [w_procs set_w_procs]. rewrite lookup_insert_eq.
    cbn [proc_signal p_running].
    destruct (p_stubborn (lookup_proc pid (st_world st))); cbn [negb fst snd].
    + destruct g; cbn [fst snd st_world]; unfold lookup_proc;
        cbn [w_procs set_w_procs set_w_clock]; rewrite lookup_insert_eq;
        cbn [p_running negb fst snd]; reflexivity.
    + reflexivity.
  - cbn [fst snd]. rewrite Er. reflexivity.
Qed.

Lemma fst_bind {A B : Type} (m : M A) (f : A -> M B) st :
  fst (bind m f st) =
  match fst (m st) with
  | Ok a => fst (f a (snd (m st)))
  | Raise e => Raise e
  | Hang => Hang
  end.
Proof. unfold bind. destruct (m st) as [[a|e|] st']; reflexivity. Qed.

Lemma returns_ret {A : Type} (a : A) : returns (ret a).
Proof. intros st. eexists. reflexivity. Qed.

Lemma returns_bind {A B : Type} (m : M A) (f : A -> M B) :
  returns m -> (forall a, returns (f a)) -> returns (bind m f).
Proof.
  intros Hm Hf st. rewrite fst_bind. destruct (Hm st) as [a ->]. apply Hf.
Qed.

Lemma returns_update_self f : returns (update_self f).
Proof. intros st. eexists. reflexivity. Qed.

Lemma returns_update_world f : returns (update_world f).
Proof. intros st. eexists. reflexivity. Qed.

Lemma returns_get_self : returns get_self.
Proof. intros st. eexists. reflexivity. Qed.

Lemma returns_get_world : returns get_world.
Proof. intros st. eexists. reflexivity. Qed.

Lemma returns_terminate_then_kill pid g : returns (terminate_then_kill pid g).
Proof. intros st. exists tt. apply terminate_then_kill_ok. Qed.

Lemma returns_path_exists p : returns (path_exists p).
Proof.
  unfold path_exists. apply returns_bind; [apply returns_get_world|].
  intros w. apply returns_ret.
Qed.

Lemma returns_try_unlink (before : M unit) p :
  returns before -> returns (try_pass (before ;; unlink p)).
Proof.
  intros Hb st. unfold try_pass, try_except, bind.
  destruct (Hb st) as [[] Ha]. destruct (before st) as [[a|e|] st']; cbn in Ha;
    try discriminate.
  unfold unlink, bind, get_world, update_world, ret, raise. cbn [fst snd].
  destruct (w_fs (st_world st') !! p); eexists; reflexivity.
Qed.

Lemma yields_bind {A B : Type} (m : M A) (f : A -> M B) (b : B) :
  returns m -> (forall a st, fst (f a st) = Ok b) -> forall st, fst (bind m f st) = Ok b.
Proof.
  intros Hm Hf st. rewrite fst_bind. destruct (Hm st) as [a ->]. apply Hf.
Qed.

Lemma stop_playback_ok st : fst (stop_playback st) = Ok (true, "Playback stopped").
Proof.
  unfold stop_playback. apply try_except_ok. revert st.
  apply yields_bind; [unfold music_stop, update_player; apply returns_update_world|].
  intros _. apply yields_bind; [apply returns_update_self|].
  intros _. apply yields_bind; [apply returns_get_self|].
  intros self. apply yields_bind.
  { destruct (streaming_process self); [|apply returns_ret].
    apply returns_bind; [apply returns_terminate_then_kill|].
    intros _. apply returns_update_self. }
  intros _. apply yields_bind; [apply returns_get_self|].
  intros self'. apply yields_bind.
  { destruct (current_playback_file self'); [|apply returns_ret].
    destruct (truthy_str _); [apply returns_path_exists|apply returns_ret]. }
  intros present. apply yields_bind; [|reflexivity].
  destruct (current_playback_file self'); [|apply returns_ret].
  destruct present; [|apply returns_ret].
  apply returns_bind; [|intros _; apply returns_update_self].
  apply returns_try_unlink. unfold sleep. apply returns_update_world.
Qed.

Lemma stop_playback_same_sources st :
  same_sources (st_self st) (st_self (snd (stop_playback st))).
Proof.
  revert st.
  assert (forall s0, preserves (fun st => same_sources s0 (st_self st)) stop_playback) as H.
  2: { intros st. apply (H (st_self st)). unfold same_sources. auto 10. }
  intros s0. unfold stop_playback.
  apply preserves_try_except.
  - apply preserves_bind;
      [apply (self_kept_music_stop (fun s => same_sources s0 s))|]. intros _.
    apply preserves_bind; [intros st H; exact H|]. intros _.
    apply preserves_bind; [apply preserves_get_self|]. intros self.
    apply preserves_bind.
    { destruct (streaming_process self); [|apply preserves_ret].
      apply preserves_bind;
        [apply (self_kept_terminate_then_kill (fun s => same_sources s0 s))|].
      intros _ st H. exact H. }
    intros _. apply preserves_bind; [apply preserves_get_self|]. intros self'.
    apply preserves_bind.
    { destruct (current_playback_file self'); [|apply preserves_ret].
      destruct (truthy_str _); [|apply preserves_ret].
      apply (self_kept_path_exists (fun s => same_sources s0 s)). }
    intros present. apply preserves_bind; [|intros ?; apply preserves_ret].
    destruct (current_playback_file self'); [|apply preserves_ret].
    destruct present; [|apply preserves_ret].
    apply preserves_bind.
    { apply preserves_try_pass. apply preserves_bind.
      - apply (self_kept_sleep (fun s => same_sources s0 s)).
      - intros _. apply (self_kept_unlink (fun s => same_sources s0 s)). }
    intros _ st H. exact H.
  - intros e k. destruct (is_Exception e); intros [= <-]. apply preserves_ret.
Qed.

Lemma total_duration_fold E files : forall acc,
  fold_left
    (fun total file_path =>
       match get_audio_duration E (Some file_path) with
       | Some d => if truthy_float (Some d) then total + d else total
       | None => total
       end) files acc
  == acc + sum_Q (map (probe_or_zero E) files).
Proof.
  induction files as [|f files IH]; intros acc; cbn [fold_left map sum_Q]; [ring|].
  rewrite IH. unfold probe_or_zero at 2, get_audio_duration.
  destruct (ffprobe E f) as [d|]; [|ring].
  unfold truthy_float. destruct (Qeq_bool d 0) eqn:Ed; cbn [negb]; [|ring].
  apply Qeq_bool_iff in Ed. rewrite Ed. ring.
Qed.

Lemma total_duration_sum E files :
  total_duration_of E files == sum_Q (map (probe_or_zero E) files).
Proof. unfold total_duration_of. rewrite total_duration_fold. ring. Qed.

Lemma sum_Q_nonneg l : Forall (fun x => 0 <= x) l -> 0 <= sum_Q l.
Proof. induction 1; cbn [sum_Q]; lra. Qed.

Lemma sum_Q_zero l :
  Forall (fun x => 0 <= x) l -> (sum_Q l == 0 <-> Forall (fun x => x == 0) l).
Proof.
  induction 1 as [|x l Hx Hl IH]; cbn [sum_Q].
  - split; [constructor|reflexivity].
  - pose proof (sum_Q_nonneg l Hl). split.
    + intros Hs. constructor; [lra|]. apply IH. lra.
    + intros Hz. inversion Hz; subst. apply IH in H3. lra.
Qed.

Lemma total_zero_iff_all_fail E files :
  (forall f d, In f files -> ffprobe E f = Some d -> 0 < d) ->
  (total_duration_of E files == 0 <-> forall f, In f files -> ffprobe E f = None).
Proof.
  intros Hpos. rewrite total_duration_sum, sum_Q_zero.
  - rewrite Forall_map, Forall_forall. split.
    + intros H f Hin. apply list_elem_of_In in Hin. specialize (H f Hin). cbv beta in H.
      unfold probe_or_zero in H. destruct (ffprobe E f) as [d|] eqn:Ed; [|reflexivity].
      apply list_elem_of_In in Hin. specialize (Hpos f d Hin Ed). lra.
    + intros H f Hin. apply list_elem_of_In in Hin. unfold probe_or_zero.
      rewrite (H f Hin). reflexivity.
  - rewrite Forall_map, Forall_forall. intros f Hin. apply list_elem_of_In in Hin.
    unfold probe_or_zero. destruct (ffprobe E f) as [d|] eqn:Ed; [|lra].
    specialize (Hpos f d Hin Ed). lra.
Qed.

Lemma build_atempo_ok st :
  0 < audiobook_speed (st_self st) ->
  exists atempo_filter, build_atempo st = (Ok atempo_filter, st).
Proof.
  intros Hpos. unfold build_atempo, get_self, bind. cbn [fst snd].
  destruct (atempo_stages_total _ Hpos) as (stages & Hrun).
  unfold _build_atempo_filter. rewrite (Hrun _ (le_n _)). cbn [option_map].
  eexists. reflexivity.
Qed.

Lemma try_except_pass {A : Type} (body : M A) handler st a st' :
  body st = (Ok a, st') -> try_except body handler st = (Ok a, st').
Proof. intros H. unfold try_except. rewrite H. reflexivity. Qed.

Lemma stop_playback_step st :
  exists st1,
    stop_playback st = (Ok (true, "Playback stopped"), st1) /\
    same_sources (st_self st) (st_self st1).
Proof.
  pose proof (stop_playback_ok st) as Hok.
  pose proof (stop_playback_same_sources st) as Hsame.
  destruct (stop_playback st) as [o st1]. cbn in Hok, Hsame. subst o.
  exists st1. split; [reflexivity|exact Hsame].
Qed.

Lemma progress_step cb pct msg st :
  exists st', progress cb pct msg st = (Ok tt, st') /\ st_self st' = st_self st /\
              w_next (st_world st') = w_next (st_world st) /\
              w_fs (st_world st') = w_fs (st_world st).
Proof. destruct cb; eexists; repeat split; reflexivity. Qed.

Lemma Qeq_bool_true a b : a == b -> Qeq_bool a b = true.
Proof. apply Qeq_bool_iff. Qed.

Lemma play_mix_prepare_zero E start st :
  truthy_list (audiobook_files (st_self st)) = true ->
  total_duration_of E (audiobook_files (st_self st)) == 0 ->
  exists st', play_mix_prepare E start st = (Ok (inl no_duration), st').
Proof.
  intros Hfiles Hzero. unfold play_mix_prepare.
  destruct (stop_playback_step st) as (st1 & Hstop & Hsame).
  destruct Hsame as (_ & _ & _ & Hf & _).
  rewrite (bind_ok _ _ _ _ _ Hstop); cbv beta.
  rewrite (bind_ok _ _ st1 (st_self st1) st1) by reflexivity; cbv beta.
  rewrite <- Hf, Hfiles, (Qeq_bool_true _ _ Hzero). cbv beta iota. eexists. reflexivity.
Qed.

Lemma named_temporary_file_step suffix f st :
  named_temporary_file suffix f st =
  (Ok ("/tmp/tmp" +:+ str_of_Z (Z.of_nat (w_next (st_world st))) +:+ suffix),
   {| st_world :=
        set_w_next (S (w_next (st_world st)))
          (set_w_fs (<["/tmp/tmp" +:+ str_of_Z (Z.of_nat (w_next (st_world st)))
                       +:+ suffix := f]> (w_fs (st_world st)))
             (st_world st));
      st_self := st_self st |}).
Proof. reflexivity. Qed.

Lemma play_mix_prepare_sum E start st :
  truthy_list (audiobook_files (st_self st)) = true ->
  0 < audiobook_speed (st_self st) ->
  ~ total_duration_of E (audiobook_files (st_self st)) == 0 ->
  exists p st',
    play_mix_prepare E start st = (Ok (inr p), st') /\
    In [TNum (total_duration_of E (audiobook_files (st_self st))
              / audiobook_speed (st_self st) - start)] (pr_cmd p) /\
    pr_start_position p = start.
Proof.
  intros Hfiles Hspeed Hsum. unfold play_mix_prepare.
  destruct (stop_playback_step st) as (st1 & Hstop & Hsame).
  destruct Hsame as (_ & _ & _ & Hf & _ & Hs & _).
  rewrite (bind_ok _ _ _ _ _ Hstop); cbv beta.
  rewrite (bind_ok _ _ st1 (st_self st1) st1) by reflexivity; cbv beta.
  rewrite <- Hf, <- Hs, Hfiles, (Qeq_bool_false _ _ Hsum). cbv beta iota.
  unfold py_div. rewrite (Qeq_bool_false (audiobook_speed (st_self st)) 0) by lra.
  cbv beta iota.
  rewrite (bind_ok _ _ st1 _ st1) by reflexivity; cbv beta.
  rewrite (bind_ok _ _ _ _ _ (named_temporary_file_step _ _ st1)); cbv beta.
  match goal with |- context [bind build_atempo _ ?s] => set (st2 := s) end.
  destruct (build_atempo_ok st2) as (atempo & Hat).
  { subst st2. cbn [st_self]. rewrite <- Hs. exact Hspeed. }
  rewrite (bind_ok _ _ _ _ _ Hat); cbv beta.
  rewrite (bind_ok _ _ _ _ _ (named_temporary_file_step _ _ st2)); cbv beta.
  eexists _, _. split; [reflexivity|]. cbn [pr_cmd pr_start_position].
  split; [|reflexivity].
  apply in_or_app. right. apply in_or_app. right. cbn. auto.
Qed.

Lemma play_mix_no_duration E start st :
  truthy_list (audiobook_files (st_self st)) = true ->
  truthy_str (music_path (st_self st)) = true ->
  total_duration_of E (audiobook_files (st_self st)) == 0 ->
  fst (play_mix E start st) = Ok no_duration.
Proof.
  intros Hfiles Hmusic Hzero. unfold play_mix.
  rewrite (bind_ok _ _ st (st_self st) st) by reflexivity; cbv beta.
  rewrite Hfiles, Hmusic, orb_true_r. cbn [negb orb].
  destruct (play_mix_prepare_zero E start st Hfiles Hzero) as (st' & Hprep).
  rewrite (bind_ok _ _ st (inl no_duration) st'); [reflexivity|].
  apply try_except_pass. exact Hprep.
Qed.

Lemma render_streaming_no_duration E out cb st :
  truthy_list (audiobook_files (st_self st)) = true ->
  0 < audiobook_speed (st_self st) ->
  total_duration_of E (audiobook_files (st_self st)) == 0 ->
  fst (render_streaming E out cb st) = Ok no_duration.
Proof.
  intros Hfiles Hspeed Hzero. unfold render_streaming.
  destruct (progress_step cb 10 "Preparing ffmpeg render..." st) as (st1 & Hp1 & Hs1 & Hn1 & _).
  rewrite (bind_ok _ _ _ _ _ Hp1); cbv beta.
  destruct (build_atempo_ok st1) as (atempo & Hat); [rewrite Hs1; exact Hspeed|].
  rewrite (bind_ok _ _ _ _ _ Hat); cbv beta.
  rewrite (bind_ok _ _ st1 (st_self st1) st1) by reflexivity; cbv beta.
  rewrite Hs1, Hfiles.
  match goal with |- context [progress cb 15 ?m] =>
    destruct (progress_step cb 15 m st1) as (st2 & Hp2 & Hs2 & Hn2 & _) end.
  rewrite (bind_ok _ _ _ _ _ Hp2); cbv beta.
  rewrite (Qeq_bool_true _ _ Hzero). reflexivity.
Qed.

Lemma render_streaming_sum E out cb st :
  truthy_list (audiobook_files (st_self st)) = true ->
  truthy_str (music_path (st_self st)) = true ->
  0 < audiobook_speed (st_self st) ->
  ~ total_duration_of E (audiobook_files (st_self st)) == 0 ->
  exists cmd concat_file_path st',
    render_streaming E out cb st
    = render_run E out cb cmd
        (total_duration_of E (audiobook_files (st_self st)) / audiobook_speed (st_self st))
        (Some concat_file_path) st' /\
    In [TNum (total_duration_of E (audiobook_files (st_self st))
              / audiobook_speed (st_self st))] cmd /\
    w_fs (st_world st') !! concat_file_path
    = Some (TextFile (concat_list (audiobook_files (st_self st)))) /\
    concat_file_path
    = "/tmp/tmp" +:+ str_of_Z (Z.of_nat (w_next (st_world st))) +:+ ".txt".
Proof.
  intros Hfiles Hmusic Hspeed Hsum. unfold render_streaming.
  destruct (progress_step cb 10 "Preparing ffmpeg render..." st) as (st1 & Hp1 & Hs1 & Hn1 & _).
  rewrite (bind_ok _ _ _ _ _ Hp1); cbv beta.
  destruct (build_atempo_ok st1) as (atempo & Hat); [rewrite Hs1; exact Hspeed|].
  rewrite (bind_ok _ _ _ _ _ Hat); cbv beta.
  rewrite (bind_ok _ _ st1 (st_self st1) st1) by reflexivity; cbv beta.
  rewrite Hs1, Hfiles.
  match goal with |- context [progress cb 15 ?m] =>
    destruct (progress_step cb 15 m st1) as (st2 & Hp2 & Hs2 & Hn2 & _) end.
  rewrite (bind_ok _ _ _ _ _ Hp2); cbv beta.
  rewrite (Qeq_bool_false _ _ Hsum).
  unfold py_div. rewrite (Qeq_bool_false (audiobook_speed (st_self st)) 0) by lra.
  rewrite (bind_ok _ _ st2 _ st2) by reflexivity; cbv beta.
  rewrite (bind_ok _ _ _ _ _ (named_temporary_file_step _ _ st2)); cbv beta.
  match goal with |- context [bind (progress cb 20 ?m) _ ?s] =>
    destruct (progress_step cb 20 m s) as (st3 & Hp3 & Hs3 & _ & _);
    pose proof (f_equal (fun r => w_fs (st_world (snd r))) Hp3) as Hfs3 end.
  rewrite (bind_ok _ _ _ _ _ Hp3); cbv beta.
  destruct (music_path (st_self st)) as [music|]; [|discriminate].
  eexists _, _, st3. split; [reflexivity|]. split; [|split].
  - apply in_or_app. right. cbn. auto 10.
  - cbn [snd] in Hfs3. rewrite <- Hfs3. destruct cb; cbn; apply lookup_insert_eq.
  - rewrite Hn2, Hn1. reflexivity.
Qed.

Lemma render_to_file_streaming E out cb st :
  truthy_list (audiobook_files (st_self st)) = true ->
  truthy_str (music_path (st_self st)) = true ->
  truthy_segment (audiobook (st_self st)) && truthy_segment (background_music (st_self st))
    = false ->
  render_to_file E out cb st
  = try_except (render_streaming E out cb) (render_handler None) st.
Proof.
  intros Hfiles Hmusic Hmem. unfold render_to_file.
  rewrite (bind_ok _ _ st (st_self st) st) by reflexivity; cbv beta.
  rewrite Hfiles, Hmusic, Hmem, !orb_true_r. reflexivity.
Qed.

(** C8.  For a folder of files the duration used by [play_mix] and by
    [render_to_file] is the sum of the probes, a failed probe counting 0.
    When the sum is 0 both stop with "Could not determine audiobook
    duration"; when it is not, both go on with [sum / speed]: it is the
    duration in the command of the playback encoder (less the start offset)
    and the duration with which the render runs its encoder.  When the
    probes that succeed are positive, the sum is 0 exactly when every probe
    failed. *)
Theorem aggregate_duration_is_sum E start out cb st :
  truthy_list (audiobook_files (st_self st)) = true ->
  truthy_str (music_path (st_self st)) = true ->
  0 < audiobook_speed (st_self st) ->
  truthy_segment (audiobook (st_self st)) && truthy_segment (background_music (st_self st))
    = false ->
  let files := audiobook_files (st_self st) in
  let total := total_duration_of E files in
  let speed := audiobook_speed (st_self st) in
  total == sum_Q (map (probe_or_zero E) files) /\
  (total == 0 ->
   fst (play_mix E start st) = Ok (false, "Could not determine audiobook duration") /\
   fst (render_to_file E out cb st)
     = Ok (false, "Could not determine audiobook duration")) /\
  (~ total == 0 ->
   (exists p st',
      play_mix_prepare E start st = (Ok (inr p), st') /\
      In [TNum (total / speed - start)] (pr_cmd p)) /\
   (exists cmd concat_file_path st',
      render_to_file E out cb st
      = try_except (render_streaming E out cb) (render_handler None) st /\
      render_streaming E out cb st
      = render_run E out cb cmd (total / speed) (Some concat_file_path) st' /\
      In [TNum (total / speed)] cmd)) /\
  ((forall f d, In f files -> ffprobe E f = Some d -> 0 < d) ->
   (total == 0 <-> forall f, In f files -> ffprobe E f = None)).
Proof.
  intros Hfiles Hmusic Hspeed Hmem files total speed.
  split; [apply total_duration_sum|]. split; [|split].
  - intros Hzero. split; [apply play_mix_no_duration; assumption|].
    rewrite render_to_file_streaming by assumption.
    apply try_except_ok. apply render_streaming_no_duration; assumption.
  - intros Hsum. split.
    + destruct (play_mix_prepare_sum E start st Hfiles Hspeed Hsum)
        as (p & st' & Hp & Hin & _).
      exists p, st'. split; assumption.
    + destruct (render_streaming_sum E out cb st Hfiles Hmusic Hspeed Hsum)
        as (cmd & c & st' & Hr & Hin & _ & _).
      exists cmd, c, st'. split; [|split; [exact Hr|exact Hin]].
      apply render_to_file_streaming; assumption.
  - apply total_zero_iff_all_fail.
Qed.

Lemma aggregate_duration_is_sum_witness :
  truthy_list (audiobook_files (st_self sample_folder)) = true /\
  truthy_str (music_path (st_self sample_folder)) = true /\
  0 < audiobook_speed (st_self sample_folder) /\
  truthy_segment (audiobook (st_self sample_folder))
  && truthy_segment (background_music (st_self sample_folder)) = false /\
  total_duration_of quiet_env ["ch1.mp3"; "ch2.mp3"; "ch3.mp3"]
  == sum_Q (map (probe_or_zero quiet_env) ["ch1.mp3"; "ch2.mp3"; "ch3.mp3"]).
Proof.
  split; [reflexivity|]. split; [reflexivity|]. split; [reflexivity|].
  split; [reflexivity|].
  exact (proj1 (aggregate_duration_is_sum quiet_env 0 "out.mp3" true sample_folder
                  eq_refl eq_refl eq_refl eq_refl)).
Defined.

(** Three files, the second of which cannot be probed: the duration is the
    sum of the other two, and playback and render go on. *)
Example three_files_one_failed_probe :
  ffprobe quiet_env "ch2.mp3" = None /\
  total_duration_of quiet_env ["ch1.mp3"; "ch2.mp3"; "ch3.mp3"] == 60 + 60 /\
  fst (play_mix quiet_env 0 sample_folder)
    = Ok (true, "Streaming mixed audio (starting from 0s)...").
Proof. vm_compute. repeat split; reflexivity. Qed.

(* --------------------------------------------------------------------- *)
(** ** Files that stop_playback leaves alone (C9, in general) *)
(* --------------------------------------------------------------------- *)


Section FramedProperties.

(** A property of the files and of the object. *)
Variable P : State -> Prop.
Hypothesis P_frame :
  forall st st', st_self st' = st_self st ->
                 w_fs (st_world st') = w_fs (st_world st) -> P st -> P st'.

Lemma framed_update_world f :
  (forall w, w_fs (f w) = w_fs w) -> preserves P (update_world f).
Proof. intros Hf st H. apply (P_frame st); [reflexivity|apply Hf|exact H]. Qed.

Lemma framed_sleep dt : preserves P (sleep dt).
Proof. apply framed_update_world. reflexivity. Qed.

Lemma framed_path_exists p : preserves P (path_exists p).
Proof. unfold path_exists. world_only. Qed.

Lemma framed_music_stop : preserves P music_stop.
Proof. apply framed_update_world. reflexivity. Qed.

Lemma framed_update_proc pid f : preserves P (update_proc pid f).
Proof. apply framed_update_world. reflexivity. Qed.

Lemma framed_terminate_then_kill pid g : preserves P (terminate_then_kill pid g).
Proof.
  unfold terminate_then_kill, proc_terminate, proc_wait_timeout, proc_kill.
  repeat first
    [ apply preserves_ret
    | apply preserves_raise
    | apply preserves_get_world
    | apply framed_update_proc
    | apply framed_sleep
    | apply preserves_try_pass
    | apply preserves_bind; [|intros ?]
    | apply preserves_try_except; [|intros ? ? [= <-]]
    | match goal with
      | |- preserves _ (if ?x then _ else _) => destruct x
      end ].
Qed.

End FramedProperties.

(** [stop_playback] removes no other file than the one recorded in
    [current_playback_file]: a temporary file that is not yet recorded there
    survives it. *)
Lemma stop_playback_keeps_unrecorded_file (p : string) st :
  current_playback_file (st_self st) <> Some p ->
  w_fs (st_world (snd (stop_playback st))) !! p = w_fs (st_world st) !! p.
Proof.
  intros Hne.
  set (P := fun s : State =>
              w_fs (st_world s) !! p = w_fs (st_world st) !! p /\
              current_playback_file (st_self s) <> Some p).
  assert (forall s s', st_self s' = st_self s ->
                       w_fs (st_world s') = w_fs (st_world s) -> P s -> P s') as Hframe.
  { intros s s' Hs Hf [H1 H2]. unfold P. rewrite Hs, Hf. auto. }
  assert (preserves P stop_playback) as Hpre.
  2: { apply (Hpre st). split; [reflexivity|exact Hne]. }
  unfold stop_playback. apply preserves_try_except.
  - apply preserves_bind; [apply (framed_music_stop P Hframe)|]. intros _.
    apply preserves_bind; [intros s H; exact H|]. intros _.
    apply preserves_bind; [apply preserves_get_self|]. intros self.
    apply preserves_bind.
    { destruct (streaming_process self); [|apply preserves_ret].
      apply preserves_bind; [apply (framed_terminate_then_kill P Hframe)|].
      intros _ s H. exact H. }
    intros _. apply preserves_bind_get_self. intros s [H1 H2].
    destruct (current_playback_file (st_self s)) as [f|] eqn:Ef.
    2: { cbn. split; [exact H1|rewrite Ef; exact H2]. }
    assert (f <> p) as Hfp by congruence.
    assert (P s) as HP by (split; [exact H1|rewrite Ef; exact H2]).
    revert HP. generalize s. clear s H1 H2 Ef.
    change (preserves P
              (present <- (if truthy_str (Some f) then path_exists f else ret false) ;;
               match present with
               | true => try_pass (sleep (1 # 10) ;; unlink f) ;;
                         update_self (with_current_playback_file None)
               | false => ret tt
               end ;; ret (true, "Playback stopped"))).
    apply preserves_bind.
    { destruct (truthy_str _); [apply (framed_path_exists P)|apply preserves_ret]. }
    intros present. apply preserves_bind; [|intros ?; apply preserves_ret].
    destruct present; [|apply preserves_ret].
    apply preserves_bind.
    + apply preserves_try_pass. apply preserves_bind; [apply (framed_sleep P Hframe)|].
      intros _. unfold unlink. apply preserves_bind; [apply preserves_get_world|].
      intros w. destruct (w_fs w !! f); [|apply preserves_raise].
      intros s [H1 H2]. split; [|exact H2]. cbn.
      rewrite lookup_delete_ne by exact Hfp. exact H1.
    + intros _ s [H1 H2]. split; [exact H1|]. cbn. discriminate.
  - intros e k. destruct (is_Exception e); intros [= <-]. apply preserves_ret.
Qed.

(* --------------------------------------------------------------------- *)
(** ** Failed renders keep their playlist (C4, in general) *)
(* --------------------------------------------------------------------- *)


Lemma render_run_is_finish E out cb cmd ad concat st :
  rr_spawn_error (render_engine E cmd) = None ->
  no_interrupt (rr_events (render_engine E cmd)) = true ->
  exists st2,
    render_run E out cb cmd ad concat st
    = render_finish out cb (rr_returncode (render_engine E cmd))
        (String.concat EmptyString (event_lines (rr_events (render_engine E cmd))))
        concat st2 /\
    st_self st2 = st_self st /\
    w_fs (st_world st2) =
      match rr_writes (render_engine E cmd) with
      | Some size => <[out := DataFile size]> (w_fs (st_world st))
      | None => w_fs (st_world st)
      end.
Proof.
  intros Hspawn Hni. unfold render_run. rewrite Hspawn.
  set (run := render_engine E cmd) in *.
  set (pid := w_next (st_world st)).
  set (st1 := {| st_world :=
                   set_w_next (S pid)
                     (set_w_procs
                        (<[pid := {| p_running := true; p_returncode := rr_returncode run;
                                     p_stderr := EmptyString;
                                     p_stubborn := rr_stubborn run;
                                     p_signals := [] |}]> (w_procs (st_world st)))
                        (st_world st));
                 st_self := st_self st |}).
  rewrite (bind_ok _ _ st pid st1) by reflexivity.
  destruct (render_read_completes cb ad (w_clock (st_world st1)) pid run
              out (rr_events run)
              {| rl_stderr_lines := []; rl_last_update_time := w_clock (st_world st1) |}
              st1 Hni)
    as (loop' & st2 & Hrun & Hlines & Hself & Hfs & Hprocs).
  exists st2. split; [|split; [exact Hself|exact Hfs]].
  unfold try_except.
  rewrite (bind_ok _ _ st1 (w_clock (st_world st1)) st1) by reflexivity.
  rewrite (bind_ok _ _ _ _ _ Hrun).
  rewrite (bind_ok _ _ st2 (st_world st2) st2) by reflexivity.
  cbn [rl_stderr_lines app] in Hlines. rewrite Hlines.
  assert (p_returncode (lookup_proc pid (st_world st2)) = rr_returncode run) as ->.
  { unfold lookup_proc. rewrite Hprocs, lookup_insert_eq.
    subst st1. unfold lookup_proc.
    cbn [st_world w_procs set_w_next set_w_procs proc_exit p_returncode].
    rewrite lookup_insert_eq. reflexivity. }
  pose proof (render_finish_result out cb (rr_returncode run)
                (String.concat EmptyString (event_lines (rr_events run))) concat st2) as Hok.
  destruct (render_finish _ _ _ _ _ st2) as [[r|e|] st3]; cbn in Hok;
    try discriminate; reflexivity.
Qed.

Lemma render_finish_failure_state out cb rc text concat st message :
  fst (render_finish out cb rc text concat st) = Ok (false, message) ->
  snd (render_finish out cb rc text concat st) = st.
Proof.
  unfold render_finish.
  destruct (negb (rc =? 0)%Z); [reflexivity|].
  unfold bind at 1. unfold path_exists, bind, get_world, ret. cbn [fst snd].
  destruct (w_fs (st_world st) !! out) as [f|] eqn:Ef; cbn [negb]; [|reflexivity].
  unfold getsize, bind, get_world, ret. cbn [fst snd]. rewrite Ef.
  destruct (Qlt_bool (inject_Z (file_size f) / MB) (1 # 10)); [reflexivity|].
  unfold get_self. cbn [fst snd].
  destruct cb;
    (destruct concat as [c|]; [destruct (truthy_list _)|]);
    unfold try_pass, try_except, unlink, progress, bind, get_world, update_world, ret, raise;
    cbn [fst snd]; try discriminate;
    destruct (w_fs (st_world st) !! c); cbn [fst snd]; discriminate.
Qed.

(** Whenever a render of a folder has started its encoder, has read it to
    the end and reports a failure, the playlist it wrote is still on disk. *)
Lemma render_failure_keeps_playlist E out cb st message :
  truthy_list (audiobook_files (st_self st)) = true ->
  truthy_str (music_path (st_self st)) = true ->
  0 < audiobook_speed (st_self st) ->
  truthy_segment (audiobook (st_self st)) && truthy_segment (background_music (st_self st))
    = false ->
  ~ total_duration_of E (audiobook_files (st_self st)) == 0 ->
  (forall cmd, rr_spawn_error (render_engine E cmd) = None /\
               no_interrupt (rr_events (render_engine E cmd)) = true) ->
  fst (render_to_file E out cb st) = Ok (false, message) ->
  let concat_file_path :=
    "/tmp/tmp" +:+ str_of_Z (Z.of_nat (w_next (st_world st))) +:+ ".txt" in
  concat_file_path <> out ->
  w_fs (st_world (snd (render_to_file E out cb st))) !! concat_file_path
  = Some (TextFile (concat_list (audiobook_files (st_self st)))).
Proof.
  intros Hfiles Hmusic Hspeed Hmem Hsum Hengine Hfail concat_file_path Hne.
  destruct (render_streaming_sum E out cb st Hfiles Hmusic Hspeed Hsum)
    as (cmd & c & st' & Hr & _ & Hc & Hname).
  fold concat_file_path in Hname. subst c.
  destruct (Hengine cmd) as [Hspawn Hni].
  destruct (render_run_is_finish E out cb cmd
              (total_duration_of E (audiobook_files (st_self st))
               / audiobook_speed (st_self st)) (Some concat_file_path) st' Hspawn Hni)
    as (st2 & Hrun & _ & Hfs).
  rewrite render_to_file_streaming in * by assumption.
  unfold try_except in *. rewrite Hr, Hrun in *.
  destruct (render_finish _ _ _ _ _ st2) as [[r|e|] st3] eqn:Ef; cbn [fst snd] in *.
  - injection Hfail as ->.
    pose proof (render_finish_failure_state out cb
                  (rr_returncode (render_engine E cmd))
                  (String.concat EmptyString
                     (event_lines (rr_events (render_engine E cmd))))
                  (Some concat_file_path) st2 message) as Hst.
    rewrite Ef in Hst. cbn [fst snd] in Hst. rewrite (Hst eq_refl), Hfs.
    destruct (rr_writes _); [rewrite lookup_insert_ne by congruence|]; exact Hc.
  - pose proof (render_finish_result out cb (rr_returncode (render_engine E cmd))
        (String.concat EmptyString (event_lines (rr_events (render_engine E cmd))))
        (Some concat_file_path) st2) as Hok.
    rewrite Ef in Hok. discriminate Hok.
  - discriminate Hfail.
Qed.

(* --------------------------------------------------------------------- *)
(** ** From [render_to_file] to the encoder                               *)
(* --------------------------------------------------------------------- *)

Lemma try_except_returned {A : Type} (body : M A) handler st a :
  fst (body st) = Ok a -> try_except body handler st = body st.
Proof.
  unfold try_except. destruct (body st) as [[x|e|] st']; cbn; intros H;
    try discriminate; reflexivity.
Qed.

Lemma render_streaming_single E out cb st book music d :
  truthy_list (audiobook_files (st_self st)) = false ->
  audiobook_path (st_self st) = Some book ->
  music_path (st_self st) = Some music ->
  ffprobe E book = Some d -> ~ d == 0 ->
  0 < audiobook_speed (st_self st) ->
  exists cmd st',
    render_streaming E out cb st
    = render_run E out cb cmd (d / audiobook_speed (st_self st)) None st' /\
    In [TNum (d / audiobook_speed (st_self st))] cmd /\
    w_fs (st_world st') = w_fs (st_world st).
Proof.
  intros Hfiles Hbook Hmusic Hprobe Hd Hspeed. unfold render_streaming.
  destruct (progress_step cb 10 "Preparing ffmpeg render..." st)
    as (st1 & Hp1 & Hs1 & _ & Hfs1).
  rewrite (bind_ok _ _ _ _ _ Hp1); cbv beta.
  destruct (build_atempo_ok st1) as (atempo & Hat); [rewrite Hs1; exact Hspeed|].
  rewrite (bind_ok _ _ _ _ _ Hat); cbv beta.
  rewrite (bind_ok _ _ st1 (st_self st1) st1) by reflexivity; cbv beta.
  rewrite Hs1, Hfiles, Hbook, Hmusic. cbn [get_audio_duration]. rewrite Hprobe.
  unfold truthy_float. rewrite (Qeq_bool_false _ _ Hd). cbn [negb].
  unfold py_div. rewrite (Qeq_bool_false (audiobook_speed (st_self st)) 0) by lra.
  rewrite (bind_ok _ _ st1 _ st1) by reflexivity; cbv beta.
  match goal with |- context [bind (progress cb 20 ?m) _ ?s] =>
    destruct (progress_step cb 20 m s) as (st2 & Hp2 & Hs2 & _ & Hfs2) end.
  rewrite (bind_ok _ _ _ _ _ Hp2); cbv beta.
  eexists _, st2. split; [reflexivity|]. split.
  - apply in_or_app. right. cbn. auto 10.
  - rewrite Hfs2, Hfs1. reflexivity.
Qed.

(** A streaming render of a folder whose duration is known is the run of
    its encoder: [render_to_file] returns what [render_run] returns. *)
Lemma render_to_file_folder E out cb st :
  truthy_list (audiobook_files (st_self st)) = true ->
  truthy_str (music_path (st_self st)) = true ->
  0 < audiobook_speed (st_self st) ->
  truthy_segment (audiobook (st_self st)) && truthy_segment (background_music (st_self st))
    = false ->
  ~ total_duration_of E (audiobook_files (st_self st)) == 0 ->
  (forall cmd, rr_spawn_error (render_engine E cmd) = None /\
               no_interrupt (rr_events (render_engine E cmd)) = true) ->
  exists cmd concat_file_path st',
    render_to_file E out cb st
    = render_run E out cb cmd
        (total_duration_of E (audiobook_files (st_self st)) / audiobook_speed (st_self st))
        (Some concat_file_path) st'.
Proof.
  intros Hfiles Hmusic Hspeed Hmem Hsum Hengine.
  destruct (render_streaming_sum E out cb st Hfiles Hmusic Hspeed Hsum)
    as (cmd & c & st' & Hr & _).
  exists cmd, c, st'. rewrite render_to_file_streaming by assumption.
  destruct (Hengine cmd) as [Hspawn Hni].
  erewrite try_except_returned; [exact Hr|].
  rewrite Hr. apply render_run_result; assumption.
Qed.

(** The same for a single audiobook. *)
Lemma render_to_file_single E out cb st book music d :
  truthy_list (audiobook_files (st_self st)) = false ->
  audiobook_path (st_self st) = Some book -> truthy_str (Some book) = true ->
  music_path (st_self st) = Some music -> truthy_str (Some music) = true ->
  truthy_segment (audiobook (st_self st)) && truthy_segment (background_music (st_self st))
    = false ->
  ffprobe E book = Some d -> ~ d == 0 ->
  0 < audiobook_speed (st_self st) ->
  (forall cmd, rr_spawn_error (render_engine E cmd) = None /\
               no_interrupt (rr_events (render_engine E cmd)) = true) ->
  exists cmd st',
    render_to_file E out cb st
    = render_run E out cb cmd (d / audiobook_speed (st_self st)) None st' /\
    w_fs (st_world st') = w_fs (st_world st).
Proof.
  intros Hfiles Hbook Hbt Hmusic Hmt Hmem Hprobe Hd Hspeed Hengine.
  destruct (render_streaming_single E out cb st book music d
              Hfiles Hbook Hmusic Hprobe Hd Hspeed) as (cmd & st' & Hr & _ & Hfs).
  exists cmd, st'. split; [|exact Hfs].
  unfold render_to_file.
  rewrite (bind_ok _ _ st (st_self st) st) by reflexivity; cbv beta.
  rewrite Hbook, Hmusic, Hbt, Hmt, Hmem, !orb_true_r. cbn [negb orb].
  destruct (Hengine cmd) as [Hspawn Hni].
  erewrite try_except_returned; [exact Hr|].
  rewrite Hr. apply render_run_result; assumption.
Qed.

(* ===================================================================== *)
(** * Further properties of the methods                                  *)
(* ===================================================================== *)

(* --------------------------------------------------------------------- *)
(** ** The speed and volume settings *)
(* --------------------------------------------------------------------- *)

Lemma clamp_range (speed : Q) : 1 # 2 <= Qmax (1 # 2) (Qmin 2 speed) <= 2.
Proof.
  split; [apply Q.le_max_l|].
  apply Q.max_lub; [discriminate|apply Q.le_min_l].
Qed.

Lemma clamp_id (speed : Q) : 1 # 2 <= speed <= 2 -> Qmax (1 # 2) (Qmin 2 speed) == speed.
Proof.
  intros [Hlo Hhi]. rewrite Q.min_r by exact Hhi. apply Q.max_r. exact Hlo.
Qed.

Lemma atempo_stages_in_range (speed : Q) (fuel : nat) :
  1 # 2 <= speed <= 2 ->
  atempo_stages fuel speed = Some (if Qeq_bool speed 1 then [] else [AtempoRem speed]).
Proof.
  intros [Hlo Hhi]. unfold atempo_stages.
  destruct (Qeq_bool speed 1) eqn:Hone; [reflexivity|].
  rewrite speed_down_id by exact Hhi. rewrite speed_up_id by exact Hlo.
  rewrite Hone. reflexivity.
Qed.

(** X1.  After [set_audiobook_speed] the speed lies in [0.5, 2.0] and is the
    requested one when that is in the range; the tempo filter built from it
    is then empty or a single [atempo] stage, and the builder returns. *)
Theorem set_audiobook_speed_single_stage (speed : Q) (st : State) :
  let st' := snd (set_audiobook_speed speed st) in
  let clamped := audiobook_speed (st_self st') in
  fst (set_audiobook_speed speed st) = Ok tt /\
  1 # 2 <= clamped <= 2 /\
  (1 # 2 <= speed <= 2 -> clamped == speed) /\
  (speed <= 1 # 2 -> clamped == 1 # 2) /\
  (2 <= speed -> clamped == 2) /\
  build_atempo st'
  = (Ok (if Qeq_bool clamped 1 then EmptyString
         else "atempo=" +:+ format_fixed 3 clamped), st').
Proof.
  cbn zeta.
  assert (audiobook_speed (st_self (snd (set_audiobook_speed speed st)))
          = Qmax (1 # 2) (Qmin 2 speed)) as Hs by reflexivity.
  rewrite Hs.
  split; [reflexivity|]. split; [apply clamp_range|].
  split; [apply clamp_id|].
  split.
  { intros H. apply Q.max_l. eapply Qle_trans; [apply Q.le_min_r|exact H]. }
  split.
  { intros H. rewrite Q.min_l by exact H. apply Q.max_r. discriminate. }
  unfold build_atempo, bind, get_self. rewrite Hs.
  unfold _build_atempo_filter.
  rewrite (atempo_stages_in_range _ _ (clamp_range speed)).
  destruct (Qeq_bool (Qmax (1 # 2) (Qmin 2 speed)) 1); reflexivity.
Qed.


(** The volume the two setters give the mixer. *)
Lemma update_playback_volume_effect E st :
  let self := st_self st in
  let v := Qmax 0 (Qmin 1 (db_to_linear E (audiobook_volume self) * (7 # 10)
                           + db_to_linear E (music_volume self) * (3 # 10))) in
  _update_playback_volume E st =
  (Ok tt,
   if is_playing self && get_busy (w_player (st_world st)) then
     {| st_world :=
          set_w_player {| pl_loaded := pl_loaded (w_player (st_world st));
                          pl_playing := pl_playing (w_player (st_world st));
                          pl_paused := pl_paused (w_player (st_world st));
                          pl_volume := v |} (st_world st);
        st_self := with_current_pygame_volume v self |}
   else st).
Proof.
  cbn zeta. unfold _update_playback_volume, music_get_busy, music_set_volume, update_player.
  unfold update_self, update_world, get_self, get_world, bind, ret. cbn [fst snd].
  destruct (is_playing (st_self st) && get_busy (w_player (st_world st))); reflexivity.
Qed.




(* --------------------------------------------------------------------- *)
(** ** Pausing, resuming and stopping *)
(* --------------------------------------------------------------------- *)

Lemma get_busy_true p : get_busy p = true -> pl_playing p = true /\ pl_paused p = false.
Proof.
  unfold get_busy. intros H. apply andb_true_iff in H as [H1 H2].
  split; [exact H1|]. apply negb_true_iff. exact H2.
Qed.

(** X3.  While a stream is playing, [pause_playback] succeeds and the player is
    no longer busy; a second [pause_playback] is refused; [resume_playback]
    succeeds and gives back the very state in which the pause was asked
    for. *)
Theorem pause_resume_roundtrip (st : State) :
  is_playing (st_self st) = true ->
  get_busy (w_player (st_world st)) = true ->
  let paused := snd (pause_playback st) in
  fst (pause_playback st) = Ok (true, "Playback paused") /\
  fst (is_audio_playing paused) = Ok false /\
  pause_playback paused = (Ok (false, "No audio is currently playing"), paused) /\
  resume_playback paused = (Ok (true, "Playback resumed"), st).
Proof.
  intros Hflag Hbusy. cbn zeta.
  destruct (get_busy_true _ Hbusy) as [Hplaying Hpaused].
  unfold pause_playback, resume_playback, is_audio_playing, try_except.
  unfold music_get_busy, music_pause, music_unpause, update_player.
  unfold update_world, get_self, get_world, bind, ret. cbn [fst snd].
  rewrite Hflag, Hbusy. cbn [andb fst snd st_world st_self].
  unfold get_busy. cbn [w_player set_w_player pl_playing pl_paused].
  rewrite Hflag, Hplaying. cbn [andb negb fst snd].
  repeat split.
  destruct st as [w self]. destruct w as [fs procs player clock next prog].
  destruct player as [loaded playing paused volume].
  cbn in Hpaused, Hplaying. subst paused playing. reflexivity.
Qed.

Lemma pause_resume_roundtrip_witness :
  is_playing (st_self sample_playing) = true /\
  get_busy (w_player (st_world sample_playing)) = true /\
  resume_playback (snd (pause_playback sample_playing))
  = (Ok (true, "Playback resumed"), sample_playing).
Proof.
  split; [reflexivity|]. split; [reflexivity|].
  exact (proj2 (proj2 (proj2 (pause_resume_roundtrip sample_playing eq_refl eq_refl)))).
Defined.


(** What the termination ladder leaves: the process is gone, and nothing
    but the process table and the clock has changed. *)
Lemma terminate_then_kill_effect pid g st :
  exists st',
    terminate_then_kill pid g st = (Ok tt, st') /\
    st_self st' = st_self st /\
    p_running (lookup_proc pid (st_world st')) = false /\
    w_fs (st_world st') = w_fs (st_world st) /\
    w_player (st_world st') = w_player (st_world st) /\
    w_next (st_world st') = w_next (st_world st) /\
    w_progress (st_world st') = w_progress (st_world st).
Proof.
  unfold terminate_then_kill, try_except, try_pass, try_except.
  unfold proc_terminate, proc_wait_timeout, proc_kill, update_proc, sleep.
  unfold update_world, get_world, bind, ret, raise. cbn [fst snd].
  destruct (p_running (lookup_proc pid (st_world st))) eqn:Er.
  - cbn [fst snd st_world]. unfold lookup_proc at 1 3.
    cbn [w_procs set_w_procs]. rewrite lookup_insert_eq.
    cbn [proc_signal p_running].
    destruct (p_stubborn (lookup_proc pid (st_world st))); cbn [negb fst snd].
    + destruct g; cbn [fst snd st_world]; unfold lookup_proc at 1;
        cbn [w_procs set_w_procs set_w_clock]; rewrite lookup_insert_eq;
        cbn [p_running negb fst snd]; eexists; (split; [reflexivity|]);
        cbn [st_self st_world]; unfold lookup_proc;
        cbn [w_procs set_w_procs set_w_clock w_fs w_player w_next w_progress];
        rewrite lookup_insert_eq; cbn; repeat split; reflexivity.
    + eexists; (split; [reflexivity|]).
      cbn [st_self st_world]; unfold lookup_proc;
        cbn [w_procs set_w_procs set_w_clock w_fs w_player w_next w_progress];
        rewrite lookup_insert_eq; cbn; repeat split; reflexivity.
  - cbn [fst snd]. rewrite Er. exists st. repeat split. exact Er.
Qed.


Lemma try_unlink_effect dt f st :
  exists st',
    try_pass (sleep dt ;; unlink f) st = (Ok tt, st') /\
    st_self st' = st_self st /\
    w_fs (st_world st') = delete f (w_fs (st_world st)) /\
    w_procs (st_world st') = w_procs (st_world st) /\
    w_player (st_world st') = w_player (st_world st) /\
    w_next (st_world st') = w_next (st_world st) /\
    w_progress (st_world st') = w_progress (st_world st).
Proof.
  unfold try_pass, try_except, sleep, unlink, update_world, get_world, bind, ret, raise.
  cbn [fst snd st_world w_fs set_w_clock].
  destruct (w_fs (st_world st) !! f) eqn:Ef; eexists; (split; [reflexivity|]);
    cbn; repeat split; try reflexivity.
  symmetry. apply delete_id. exact Ef.
Qed.

(** The player after [pygame.mixer.music.stop()] *)
Lemma music_stop_effect st :
  music_stop st =
  (Ok tt, {| st_world :=
               set_w_player {| pl_loaded := pl_loaded (w_player (st_world st));
                               pl_playing := false; pl_paused := false;
                               pl_volume := pl_volume (w_player (st_world st)) |}
                            (st_world st);
             st_self := st_self st |}).
Proof. reflexivity. Qed.

(** The second half of [stop_playback]: the temporary playback file. *)
Lemma stop_cleanup_effect s :
  exists s',
    (self <- get_self ;;
     present <- match current_playback_file self with
                | Some f => if truthy_str (Some f) then path_exists f else ret false
                | None => ret false
                end ;;
     match current_playback_file self, present with
     | Some f, true =>
         try_pass (sleep (1 # 10) ;; unlink f) ;;
         update_self (with_current_playback_file None)
     | _, _ => ret tt
     end ;;
     ret (true, "Playback stopped")) s = (Ok (true, "Playback stopped"), s') /\
    is_playing (st_self s') = is_playing (st_self s) /\
    streaming_process (st_self s') = streaming_process (st_self s) /\
    current_playback_file (st_self s') =
      match current_playback_file (st_self s) with
      | Some f =>
          if truthy_str (Some f)
          then match w_fs (st_world s) !! f with Some _ => None | None => Some f end
          else Some f
      | None => None
      end /\
    w_fs (st_world s') =
      match current_playback_file (st_self s) with
      | Some f => if truthy_str (Some f) then delete f (w_fs (st_world s))
                  else w_fs (st_world s)
      | None => w_fs (st_world s)
      end /\
    w_procs (st_world s') = w_procs (st_world s) /\
    w_player (st_world s') = w_player (st_world s) /\
    w_next (st_world s') = w_next (st_world s) /\
    w_progress (st_world s') = w_progress (st_world s).
Proof.
  rewrite (bind_ok get_self _ s (st_self s) s) by reflexivity. cbv beta.
  destruct (current_playback_file (st_self s)) as [f|] eqn:Ef.
  2: { exists s. repeat split; try reflexivity; assumption. }
  destruct (truthy_str (Some f)) eqn:Et.
  2: { exists s. repeat split; try reflexivity; assumption. }
  unfold path_exists at 1.
  rewrite (bind_ok (w <- get_world ;; ret _) _ s
             (match w_fs (st_world s) !! f with Some _ => true | None => false end) s)
    by reflexivity.
  cbv beta.
  destruct (w_fs (st_world s) !! f) as [file|] eqn:Efile.
  2: { exists s. repeat split; try reflexivity; try assumption.
       symmetry. apply delete_id. exact Efile. }
  destruct (try_unlink_effect (1 # 10) f s) as (s1 & H1 & Hself & Hfs & Hprocs & Hpl & Hn & Hpr).
  exists {| st_world := st_world s1; st_self := with_current_playback_file None (st_self s1) |}.
  split.
  { rewrite (bind_ok _ _ s tt
               {| st_world := st_world s1;
                  st_self := with_current_playback_file None (st_self s1) |}).
    - reflexivity.
    - rewrite (bind_ok _ _ s tt s1 H1). reflexivity. }
  cbn [st_self st_world]. rewrite <- Hself.
  repeat split; try reflexivity; assumption.
Qed.

(** [stop_playback], step by step. *)
Lemma stop_playback_effect st :
  exists st',
    stop_playback st = (Ok (true, "Playback stopped"), st') /\
    is_playing (st_self st') = false /\
    streaming_process (st_self st') = None /\
    current_playback_file (st_self st') =
      match current_playback_file (st_self st) with
      | Some f =>
          if truthy_str (Some f)
          then match w_fs (st_world st) !! f with Some _ => None | None => Some f end
          else Some f
      | None => None
      end /\
    w_fs (st_world st') =
      match current_playback_file (st_self st) with
      | Some f => if truthy_str (Some f) then delete f (w_fs (st_world st))
                  else w_fs (st_world st)
      | None => w_fs (st_world st)
      end /\
    pl_playing (w_player (st_world st')) = false /\
    pl_paused (w_player (st_world st')) = false /\
    pl_loaded (w_player (st_world st')) = pl_loaded (w_player (st_world st)) /\
    pl_volume (w_player (st_world st')) = pl_volume (w_player (st_world st)) /\
    (forall pid, streaming_process (st_self st) = Some pid ->
                 p_running (lookup_proc pid (st_world st')) = false) /\
    w_next (st_world st') = w_next (st_world st) /\
    w_progress (st_world st') = w_progress (st_world st).
Proof.
  set (s1 := {| st_world :=
                  set_w_player {| pl_loaded := pl_loaded (w_player (st_world st));
                                  pl_playing := false; pl_paused := false;
                                  pl_volume := pl_volume (w_player (st_world st)) |}
                               (st_world st);
                st_self := with_is_playing false (st_self st) |}).
  assert (exists s2,
            (match streaming_process (st_self s1) with
             | Some pid =>
                 terminate_then_kill pid true ;;
                 update_self (with_streaming_process None)
             | None => ret tt
             end) s1 = (Ok tt, s2) /\
            is_playing (st_self s2) = false /\
            streaming_process (st_self s2) = None /\
            current_playback_file (st_self s2) = current_playback_file (st_self st) /\
            w_fs (st_world s2) = w_fs (st_world st) /\
            w_player (st_world s2) = w_player (st_world s1) /\
            (forall pid, streaming_process (st_self st) = Some pid ->
                         p_running (lookup_proc pid (st_world s2)) = false) /\
            w_next (st_world s2) = w_next (st_world st) /\
            w_progress (st_world s2) = w_progress (st_world st)) as (s2 & H2 & Hflag & Hproc & Hcpf & Hfs & Hpl & Hdead & Hn & Hpr).
  { change (streaming_process (st_self s1)) with (streaming_process (st_self st)).
    destruct (streaming_process (st_self st)) as [pid|] eqn:Ep.
    - destruct (terminate_then_kill_effect pid true s1)
        as (t & Ht & Hself & Hrun & Hfs & Hpl & Hn & Hpr).
      exists {| st_world := st_world t; st_self := with_streaming_process None (st_self t) |}.
      split; [rewrite (bind_ok _ _ s1 tt t Ht); reflexivity|].
      cbn [st_self st_world]. rewrite Hself.
      repeat split; try reflexivity; try assumption.
      intros pid' [= <-]. exact Hrun.
    - exists s1. repeat split; try reflexivity; [exact Ep|intros pid' [=]]. }
  destruct (stop_cleanup_effect s2)
    as (s3 & H3 & Hflag3 & Hproc3 & Hcpf3 & Hfs3 & Hprocs3 & Hpl3 & Hn3 & Hpr3).
  exists s3. split.
  { unfold stop_playback. apply try_except_pass.
    rewrite (bind_ok music_stop _ st tt
               {| st_world := st_world s1; st_self := st_self st |}) by reflexivity.
    cbv beta.
    rewrite (bind_ok (update_self _) _ _ tt s1) by reflexivity. cbv beta.
    rewrite (bind_ok get_self _ s1 (st_self s1) s1 eq_refl). cbv beta.
    rewrite (bind_ok _ _ s1 tt s2 H2). cbv beta. exact H3. }
  rewrite Hflag3, Hproc3, Hcpf3, Hfs3, Hpl3, Hn3, Hpr3, Hcpf, Hfs, Hpl, Hn, Hpr.
  repeat split; try assumption; try reflexivity.
  intros pid Hpid. unfold lookup_proc. rewrite Hprocs3. apply (Hdead pid Hpid).
Qed.


(** On an object that plays nothing, [stop_playback] changes nothing. *)
Lemma stop_playback_idle st :
  is_playing (st_self st) = false ->
  streaming_process (st_self st) = None ->
  pl_playing (w_player (st_world st)) = false ->
  pl_paused (w_player (st_world st)) = false ->
  match current_playback_file (st_self st) with
  | Some f => truthy_str (Some f) = true -> w_fs (st_world st) !! f = None
  | None => True
  end ->
  stop_playback st = (Ok (true, "Playback stopped"), st).
Proof.
  destruct st as [[fs procs [loaded playing paused vol] clock next prog] self].
  destruct self as [a b c d e f g h flag cpf sp t0 p0 v].
  cbn [st_self st_world is_playing streaming_process w_player pl_playing pl_paused
       current_playback_file w_fs].
  intros -> -> -> -> Hfile.
  unfold stop_playback, try_except, music_stop, update_player, path_exists.
  unfold update_self, update_world, get_self, get_world, bind, ret.
  cbn [fst snd st_self st_world streaming_process current_playback_file w_fs
       set_w_player w_player with_is_playing].
  destruct cpf as [file|]; [|reflexivity].
  destruct (truthy_str (Some file)); [|reflexivity].
  cbn [fst snd st_self st_world w_fs set_w_player w_player pl_loaded pl_volume].
  rewrite (Hfile eq_refl). reflexivity.
Qed.

(** X4.  [stop_playback] always returns [(True, "Playback stopped")].  Afterwards
    the flag [is_playing] is off, no encoder is recorded and the one that
    was recorded has exited (after SIGTERM, and SIGKILL if it ignored that),
    the player is neither playing nor paused, and the file that
    [current_playback_file] named is no longer there.  A second
    [stop_playback] changes nothing. *)
Theorem stop_playback_quiesces (st : State) :
  let st' := snd (stop_playback st) in
  fst (stop_playback st) = Ok (true, "Playback stopped") /\
  is_playing (st_self st') = false /\
  streaming_process (st_self st') = None /\
  (forall pid, streaming_process (st_self st) = Some pid ->
               p_running (lookup_proc pid (st_world st')) = false) /\
  get_busy (w_player (st_world st')) = false /\
  pl_paused (w_player (st_world st')) = false /\
  (forall f, current_playback_file (st_self st) = Some f -> truthy_str (Some f) = true ->
             w_fs (st_world st') !! f = None) /\
  stop_playback st' = (Ok (true, "Playback stopped"), st').
Proof.
  cbn zeta.
  destruct (stop_playback_effect st)
    as (st' & H & Hflag & Hproc & Hcpf & Hfs & Hplaying & Hpaused & _ & _ & Hdead & _ & _).
  rewrite H. cbn [fst snd].
  split; [reflexivity|]. split; [exact Hflag|]. split; [exact Hproc|].
  split; [exact Hdead|].
  split; [unfold get_busy; rewrite Hplaying; reflexivity|].
  split; [exact Hpaused|].
  assert (forall f, current_playback_file (st_self st) = Some f ->
                    truthy_str (Some f) = true -> w_fs (st_world st') !! f = None) as Hgone.
  { intros f Hf Ht. rewrite Hfs, Hf, Ht. apply lookup_delete_eq. }
  split; [exact Hgone|].
  apply stop_playback_idle; try assumption.
  rewrite Hcpf. destruct (current_playback_file (st_self st)) as [f|] eqn:Ef; [|exact I].
  destruct (truthy_str (Some f)) eqn:Et.
  - destruct (w_fs (st_world st) !! f); [exact I|].
    intros _. apply Hgone; [reflexivity|exact Et].
  - intros Ht. rewrite Et in Ht. discriminate.
Qed.


(* --------------------------------------------------------------------- *)
(** ** Loading a folder *)
(* --------------------------------------------------------------------- *)

Lemma folder_percent_mono (n i j : nat) :
  (0 < n)%nat -> (i <= j)%nat -> (folder_percent n i <= folder_percent n j)%Z.
Proof.
  intros Hn Hij. unfold folder_percent.
  assert (0 < inject_Z (Z.of_nat n)) as Hpos.
  { change 0 with (inject_Z 0). rewrite <- Zlt_Qlt. lia. }
  assert (forall k : nat, 0 <= inject_Z (Z.of_nat k) / inject_Z (Z.of_nat n) * 80) as Hnn.
  { intros k. apply Qmult_le_0_compat; [|discriminate].
    apply Qdiv_nonneg; [|exact Hpos].
    change 0 with (inject_Z 0). rewrite <- Zle_Qle. lia. }
  rewrite !py_int_nonneg by apply Hnn.
  apply Qfloor_resp_le.
  apply Qmult_le_compat_r; [|discriminate].
  apply Qdiv_le_mono; [exact Hpos|]. rewrite <- Zle_Qle. lia.
Qed.

Lemma folder_percent_range (n i : nat) :
  (0 < n)%nat -> (i <= n)%nat -> (0 <= folder_percent n i <= 80)%Z.
Proof.
  intros Hn Hi. split.
  - change 0%Z with (folder_percent n 0) at 1.
    + apply folder_percent_mono; [exact Hn|lia].
  - assert (folder_percent n n = 80%Z) as <-.
    2: { apply folder_percent_mono; assumption. }
    unfold folder_percent.
    assert (inject_Z (Z.of_nat n) / inject_Z (Z.of_nat n) * 80 == inject_Z 80) as Heq.
    { assert (~ inject_Z (Z.of_nat n) == 0) as Hne.
      { intros H. unfold Qeq in H. cbn in H. lia. }
      field. exact Hne. }
    rewrite py_int_nonneg.
    + rewrite Heq. apply Qfloor_Z.
    + rewrite Heq. discriminate.
Qed.


Lemma progress_effect cb pct msg st :
  exists st',
    progress cb pct msg st = (Ok tt, st') /\
    only_reports st st' (if cb then [(pct, msg)] else []) /\
    w_clock (st_world st') = w_clock (st_world st).
Proof.
  destruct cb; cbn.
  - eexists. split; [reflexivity|]. split; [|reflexivity].
    unfold only_reports. cbn. auto 10.
  - exists st. split; [reflexivity|]. split; [apply only_reports_refl|reflexivity].
Qed.

Lemma getsize_present p f st :
  w_fs (st_world st) !! p = Some f -> getsize p st = (Ok (file_size f), st).
Proof. intros H. unfold getsize, bind, get_world, ret. cbn. rewrite H. reflexivity. Qed.

Lemma getsize_missing p st :
  w_fs (st_world st) !! p = None -> getsize p st = (Raise (no_such_file p), st).
Proof. intros H. unfold getsize, bind, get_world, raise. cbn. rewrite H. reflexivity. Qed.

(** The loop of [load_audiobook_folder] over files that all exist: the two
    totals, and reports that never go backwards. *)
Lemma analyze_files_present E cb n files : forall i total_size total_duration st,
  (0 < n)%nat -> (i + length files <= n)%nat ->
  Forall (fun p => is_Some (w_fs (st_world st) !! p)) files ->
  exists reports st',
    analyze_files E cb n i files total_size total_duration st
    = (Ok (fold_left
             (fun total file_path =>
                match w_fs (st_world st) !! file_path with
                | Some f => total + inject_Z (file_size f) / MB
                | None => total
                end) files total_size,
           fold_left
             (fun total file_path =>
                match get_audio_duration E (Some file_path) with
                | Some d => if truthy_float (Some d) then total + d else total
                | None => total
                end) files total_duration), st') /\
    only_reports st st' reports /\
    w_clock (st_world st') = w_clock (st_world st) /\
    (cb = false -> reports = []) /\
    Forall (fun r => (folder_percent n i <= fst r <= 80)%Z) reports /\
    StronglySorted Z.le (map fst reports).
Proof.
  induction files as [|p files IH]; intros i ts td st Hn Hlen Hall.
  - exists [], st. split; [reflexivity|]. split; [apply only_reports_refl|].
    split; [reflexivity|]. split; [reflexivity|]. split; constructor.
  - apply Forall_cons in Hall as [[f Hf] Hall]. cbn [length] in Hlen.
    cbn [analyze_files fold_left]. rewrite Hf.
    rewrite (bind_ok _ _ st (file_size f) st (getsize_present p f st Hf)). cbv beta zeta.
    set (ts' := ts + inject_Z (file_size f) / MB).
    set (td' := match get_audio_duration E (Some p) with
                | Some d => if truthy_float (Some d) then td + d else td
                | None => td
                end).
    assert (exists r1 st1,
              (if (i mod 5 =? 0)%nat
               then progress cb (py_int (inject_Z (Z.of_nat i) / inject_Z (Z.of_nat n) * 80))
                      ("Analyzed " +:+ str_of_Z (Z.of_nat (i + 1)) +:+ "/"
                       +:+ str_of_Z (Z.of_nat n) +:+ " files...")
               else ret tt) st = (Ok tt, st1) /\
              only_reports st st1 r1 /\
              w_clock (st_world st1) = w_clock (st_world st) /\
              (cb = false -> r1 = []) /\
              Forall (fun r => fst r = folder_percent n i) r1 /\
              (length r1 <= 1)%nat) as (r1 & st1 & H1 & Hrep1 & Hclock1 & Hcb1 & Hpct1 & Hone).
    { destruct (i mod 5 =? 0)%nat.
      - destruct (progress_effect cb (folder_percent n i)
                    ("Analyzed " +:+ str_of_Z (Z.of_nat (i + 1)) +:+ "/"
                     +:+ str_of_Z (Z.of_nat n) +:+ " files...") st)
          as (st1 & H1 & Hrep & Hclock).
        eexists _, st1. split; [exact H1|]. split; [exact Hrep|]. split; [exact Hclock|].
        destruct cb; (split; [intros; try reflexivity; discriminate|]);
          (split; [repeat constructor|cbn; lia]).
      - exists [], st. split; [reflexivity|]. split; [apply only_reports_refl|].
        split; [reflexivity|]. split; [reflexivity|]. split; [constructor|cbn; lia]. }
    rewrite (bind_ok _ _ st tt st1 H1). cbv beta.
    assert (w_fs (st_world st1) = w_fs (st_world st)) as Hfs1 by apply Hrep1.
    destruct (IH (S i) ts' td' st1 Hn) as (r2 & st2 & H2 & Hrep2 & Hclock2 & Hcb2 & Hpct2 & Hsort2).
    { lia. }
    { rewrite Hfs1. exact Hall. }
    exists (r1 ++ r2), st2. split.
    { rewrite H2, Hfs1. reflexivity. }
    split; [eapply only_reports_trans; eassumption|].
    split; [congruence|].
    split; [intros Hcb; rewrite (Hcb1 Hcb), (Hcb2 Hcb); reflexivity|].
    assert (folder_percent n i <= folder_percent n (S i))%Z as Hstep
      by (apply folder_percent_mono; [exact Hn|lia]).
    assert (0 <= folder_percent n i <= 80)%Z as Hrange
      by (apply folder_percent_range; [exact Hn|lia]).
    split.
    + apply Forall_app. split.
      * eapply Forall_impl; [exact Hpct1|]. cbn. intros r ->. lia.
      * eapply Forall_impl; [exact Hpct2|]. cbn. intros r Hr. lia.
    + rewrite map_app. destruct r1 as [|r [|? ?]]; cbn in Hone; try lia.
      * exact Hsort2.
      * cbn. constructor; [exact Hsort2|].
        apply Forall_cons in Hpct1 as [-> _].
        apply Forall_map. eapply Forall_impl; [exact Hpct2|]. cbn. intros x Hx. lia.
Qed.


(** A run of [load_audiobook_folder] on files that all exist. *)
Lemma load_audiobook_folder_run E file_paths cb st :
  file_paths <> [] ->
  Forall (fun p => is_Some (w_fs (st_world st) !! p)) file_paths ->
  let n := str_of_Z (Z.of_nat (length file_paths)) in
  let minutes := format_fixed 1 (total_duration_of E file_paths / 60) in
  let size := format_fixed 1 (total_size_of (w_fs (st_world st)) file_paths) in
  exists mid st',
    load_audiobook_folder E file_paths cb st
    = (Ok (true, "Ready: " +:+ n +:+ " files (" +:+ minutes +:+ " min, " +:+ size
                 +:+ " MB) - Streaming mode"), st') /\
    st_self st'
    = with_audiobook None
        (with_audiobook_path None (with_audiobook_files file_paths (st_self st))) /\
    w_fs (st_world st') = w_fs (st_world st) /\
    w_procs (st_world st') = w_procs (st_world st) /\
    w_player (st_world st') = w_player (st_world st) /\
    w_next (st_world st') = w_next (st_world st) /\
    w_clock (st_world st') = w_clock (st_world st) /\
    w_progress (st_world st')
    = w_progress (st_world st)
      ++ (if cb then
            [(0%Z, "Analyzing " +:+ n +:+ " files...")] ++ mid
            ++ [(90%Z, "Total: " +:+ n +:+ " files, " +:+ size +:+ " MB, " +:+ minutes
                       +:+ " min");
                (100%Z, "Ready for streaming")]
          else []) /\
    Forall (fun r => (0 <= fst r <= 80)%Z) mid /\
    StronglySorted Z.le (map fst mid).
Proof.
  intros Hne Hall. cbn zeta.
  unfold load_audiobook_folder.
  destruct file_paths as [|p0 rest] eqn:Efiles; [contradiction|]. rewrite <- Efiles in *.
  assert (truthy_list file_paths = true) as -> by (rewrite Efiles; reflexivity).
  cbn [negb].
  set (s2 := {| st_world := st_world st;
                st_self := with_audiobook_path None
                             (with_audiobook_files file_paths (st_self st)) |}).
  set (n := length file_paths).
  destruct (progress_effect cb 0 ("Analyzing " +:+ str_of_Z (Z.of_nat n) +:+ " files...") s2)
    as (s3 & H3 & Hrep3 & Hclock3).
  assert (w_fs (st_world s3) = w_fs (st_world st)) as Hfs3 by apply Hrep3.
  destruct (analyze_files_present E cb n file_paths 0 0 0 s3)
    as (mid & s4 & H4 & Hrep4 & Hclock4 & Hcb4 & Hpct4 & Hsort4).
  { subst n. rewrite Efiles. cbn. lia. }
  { cbn. lia. }
  { rewrite Hfs3. exact Hall. }
  rewrite Hfs3 in H4.
  change (fold_left _ file_paths 0, fold_left _ file_paths 0)
    with (total_size_of (w_fs (st_world st)) file_paths, total_duration_of E file_paths)
    in H4.
  destruct (progress_effect cb 90
              ("Total: " +:+ str_of_Z (Z.of_nat n) +:+ " files, "
               +:+ format_fixed 1 (total_size_of (w_fs (st_world st)) file_paths)
               +:+ " MB, "
               +:+ format_fixed 1 (total_duration_of E file_paths / 60) +:+ " min") s4)
    as (s5 & H5 & Hrep5 & Hclock5).
  set (s6 := {| st_world := st_world s5; st_self := with_audiobook None (st_self s5) |}).
  destruct (progress_effect cb 100 "Ready for streaming" s6) as (s7 & H7 & Hrep7 & Hclock7).
  exists mid, s7. split.
  { apply try_except_pass.
    rewrite (bind_ok (update_self _) _ st tt
               {| st_world := st_world st;
                  st_self := with_audiobook_files file_paths (st_self st) |})
      by reflexivity.
    cbv beta.
    rewrite (bind_ok (update_self _) _ _ tt s2) by reflexivity. cbv beta zeta.
    rewrite (bind_ok _ _ s2 tt s3 H3). cbv beta.
    rewrite (bind_ok _ _ s3 _ s4 H4). cbv beta zeta. cbn [fst snd].
    rewrite (bind_ok _ _ s4 tt s5 H5). cbv beta.
    rewrite (bind_ok (update_self _) _ s5 tt s6) by reflexivity. cbv beta.
    rewrite (bind_ok _ _ s6 tt s7 H7). reflexivity. }
  destruct Hrep3 as (A1 & A2 & A3 & A4 & A5 & A6).
  destruct Hrep4 as (B1 & B2 & B3 & B4 & B5 & B6).
  destruct Hrep5 as (C1 & C2 & C3 & C4 & C5 & C6).
  destruct Hrep7 as (D1 & D2 & D3 & D4 & D5 & D6).
  cbn [st_self st_world s6 s2] in *.
  split; [rewrite D1, C1, B1, A1; reflexivity|].
  split; [rewrite D2, C2, B2, A2; reflexivity|].
  split; [rewrite D3, C3, B3, A3; reflexivity|].
  split; [rewrite D4, C4, B4, A4; reflexivity|].
  split; [rewrite D5, C5, B5, A5; reflexivity|].
  split; [rewrite Hclock7, Hclock5, Hclock4, Hclock3; reflexivity|].
  split.
  { rewrite D6, C6, B6, A6. destruct cb.
    - rewrite <- !app_assoc. reflexivity.
    - rewrite (Hcb4 eq_refl), !app_nil_r. reflexivity. }
  split; [|exact Hsort4].
  eapply Forall_impl; [exact Hpct4|]. cbn. intros r Hr.
  assert (0 <= folder_percent n 0)%Z by (apply folder_percent_range; subst n; rewrite Efiles; cbn; lia).
  lia.
Qed.






(** X6.  The progress that [load_audiobook_folder] reports for files that
    all exist: first 0, then the percentages of the files analysed, then 90
    and 100; the percentages never decrease and lie between 0 and 100.
    Without a callback nothing is reported. *)
Theorem load_audiobook_folder_progress E (file_paths : list string) (cb : bool) (st : State) :
  file_paths <> [] ->
  Forall (fun p => is_Some (w_fs (st_world st) !! p)) file_paths ->
  exists reports,
    w_progress (st_world (snd (load_audiobook_folder E file_paths cb st)))
    = w_progress (st_world st) ++ reports /\
    (cb = false -> reports = []) /\
    (cb = true ->
     exists first mid total,
       reports = [(0%Z, first)] ++ mid ++ [(90%Z, total); (100%Z, "Ready for streaming")] /\
       Forall (fun r => (0 <= fst r <= 80)%Z) mid) /\
    StronglySorted Z.le (map fst reports) /\
    Forall (fun r => (0 <= fst r <= 100)%Z) reports.
Proof.
  intros Hne Hall.
  destruct (load_audiobook_folder_run E file_paths cb st Hne Hall)
    as (mid & st' & H & _ & _ & _ & _ & _ & _ & Hprog & Hpct & Hsort).
  rewrite H. cbn [snd]. eexists. split; [exact Hprog|].
  destruct cb.
  - split; [discriminate|]. split.
    { intros _. eexists _, mid, _. split; [reflexivity|exact Hpct]. }
    split.
    + cbn [app map fst]. constructor.
      * rewrite map_app. cbn [map fst].
        clear Hprog H. induction mid as [|r mid IH]; cbn [app map].
        -- repeat (constructor; try (cbn [fst]; lia)).
        -- apply Forall_cons in Hpct as [Hr Hpct].
           apply StronglySorted_inv in Hsort as [Hsort Hle].
           constructor; [apply IH; assumption|].
           apply Forall_app. split; [exact Hle|]. repeat (constructor; try (cbn [fst]; lia)).
      * rewrite map_app. apply Forall_app. split.
        -- apply Forall_map. eapply Forall_impl; [exact Hpct|]. cbn. intros r Hr. lia.
        -- repeat (constructor; try (cbn [fst]; lia)).
    + cbn [app]. constructor; [cbn; lia|].
      apply Forall_app. split.
      * eapply Forall_impl; [exact Hpct|]. cbn. intros r Hr. lia.
      * repeat (constructor; try (cbn; lia)).
  - split; [reflexivity|]. split; [discriminate|]. split; constructor.
Qed.

Lemma load_audiobook_folder_progress_witness :
  ["ch1.mp3"; "ch2.mp3"; "ch3.mp3"] <> [] /\
  Forall (fun p => is_Some (w_fs (st_world sample_single) !! p))
         ["ch1.mp3"; "ch2.mp3"; "ch3.mp3"] /\
  exists reports,
    w_progress (st_world (snd (load_audiobook_folder quiet_env
                                 ["ch1.mp3"; "ch2.mp3"; "ch3.mp3"] true sample_single)))
    = w_progress (st_world sample_single) ++ reports /\
    StronglySorted Z.le (map fst reports).
Proof.
  assert (["ch1.mp3"; "ch2.mp3"; "ch3.mp3"] <> ([] : list string)) as Hne by discriminate.
  assert (Forall (fun p => is_Some (w_fs (st_world sample_single) !! p))
                 ["ch1.mp3"; "ch2.mp3"; "ch3.mp3"]) as Hall.
  { repeat constructor; eexists; vm_compute; reflexivity. }
  split; [exact Hne|]. split; [exact Hall|].
  destruct (load_audiobook_folder_progress quiet_env ["ch1.mp3"; "ch2.mp3"; "ch3.mp3"] true
              sample_single Hne Hall) as (reports & Hprog & _ & _ & Hsort & _).
  exists reports. split; assumption.
Defined.




(* --------------------------------------------------------------------- *)
(** ** The duration shown and the duration played *)
(* --------------------------------------------------------------------- *)

Lemma py_div_ok a b st : ~ b == 0 -> py_div a b st = (Ok (a / b), st).
Proof. intros H. unfold py_div. rewrite (Qeq_bool_false _ _ H). reflexivity. Qed.

Lemma play_mix_prepare_single E start st book d :
  audiobook_files (st_self st) = [] ->
  audiobook_path (st_self st) = Some book ->
  ffprobe E book = Some d -> ~ d == 0 ->
  0 < audiobook_speed (st_self st) ->
  exists p st',
    play_mix_prepare E start st = (Ok (inr p), st') /\
    In [TNum (d / audiobook_speed (st_self st) - start)] (pr_cmd p) /\
    pr_start_position p = start.
Proof.
  intros Hfiles Hbook Hprobe Hd Hspeed. unfold play_mix_prepare.
  destruct (stop_playback_step st) as (st1 & Hstop & Hsame).
  destruct Hsame as (_ & _ & Hp & Hf & _ & Hs & _).
  rewrite (bind_ok _ _ _ _ _ Hstop); cbv beta.
  rewrite (bind_ok _ _ st1 (st_self st1) st1) by reflexivity; cbv beta.
  rewrite <- Hf, <- Hs, <- Hp, Hfiles, Hbook. cbn [truthy_list get_audio_duration].
  rewrite Hprobe. unfold truthy_float. rewrite (Qeq_bool_false _ _ Hd). cbn [negb].
  assert (~ audiobook_speed (st_self st) == 0) as Hnz by lra.
  rewrite (bind_ok _ _ st1 _ st1 (py_div_ok d _ st1 Hnz)). cbv beta.
  rewrite (bind_ok _ _ _ _ _ (named_temporary_file_step _ _ st1)); cbv beta.
  match goal with |- context [bind build_atempo _ ?s] => set (st2 := s) end.
  destruct (build_atempo_ok st2) as (atempo & Hat).
  { subst st2. cbn [st_self]. rewrite <- Hs. exact Hspeed. }
  rewrite (bind_ok _ _ _ _ _ Hat); cbv beta.
  eexists _, _. split; [reflexivity|]. cbn [pr_cmd pr_start_position].
  split; [|reflexivity].
  apply in_or_app. right. apply in_or_app. right. cbn. auto.
Qed.

Lemma play_mix_single_no_duration E start st :
  audiobook_files (st_self st) = [] ->
  truthy_str (audiobook_path (st_self st)) = true ->
  truthy_str (music_path (st_self st)) = true ->
  truthy_float (get_audio_duration E (audiobook_path (st_self st))) = false ->
  fst (play_mix E start st) = Ok no_duration.
Proof.
  intros Hfiles Hbook Hmusic Hprobe. unfold play_mix.
  rewrite (bind_ok _ _ st (st_self st) st) by reflexivity; cbv beta.
  rewrite Hbook, Hmusic. cbn [negb orb].
  destruct (stop_playback_step st) as (st1 & Hstop & Hsame).
  destruct Hsame as (_ & _ & Hp & Hf & _).
  rewrite (bind_ok _ _ st (inl no_duration) st1); [reflexivity|].
  apply try_except_pass. unfold play_mix_prepare.
  rewrite (bind_ok _ _ _ _ _ Hstop); cbv beta.
  rewrite (bind_ok _ _ st1 (st_self st1) st1) by reflexivity; cbv beta.
  rewrite <- Hf, <- Hp, Hfiles. cbn [truthy_list]. rewrite Hprobe. reflexivity.
Qed.

(** X8.  In streaming mode (no audiobook in memory) the duration that
    [get_mixed_duration] gives the seek bar is the one [play_mix] works
    with: when it is 0, [play_mix] answers that the duration could not be
    determined; otherwise [play_mix] asks the encoder for that duration
    less the start position.  The object holds either a folder (with a
    total that is not negative) or a single file. *)
Theorem mixed_duration_is_what_play_mix_plays E (start : Q) (st : State) :
  let self := st_self st in
  audiobook self = None ->
  truthy_str (music_path self) = true ->
  0 < audiobook_speed self ->
  (truthy_list (audiobook_files self) = true /\ audiobook_path self = None /\
   0 <= total_duration_of E (audiobook_files self))
  \/ (audiobook_files self = [] /\ truthy_str (audiobook_path self) = true) ->
  exists d,
    get_mixed_duration E st = (Ok d, st) /\
    (d == 0 ->
     fst (play_mix E start st) = Ok (false, "Could not determine audiobook duration")) /\
    (~ d == 0 ->
     exists p st',
       play_mix_prepare E start st = (Ok (inr p), st') /\
       In [TNum (d - start)] (pr_cmd p)).
Proof.
  cbn zeta. intros Hmem Hmusic Hspeed Hsource.
  unfold get_mixed_duration.
  rewrite (bind_ok _ _ st (st_self st) st) by reflexivity; cbv beta zeta.
  rewrite Hmem.
  assert (~ audiobook_speed (st_self st) == 0) as Hnz by lra.
  destruct Hsource as [(Hfiles & Hpath & Htotal)|(Hfiles & Hpath)].
  - rewrite Hfiles, Hpath. cbn [truthy_str].
    destruct (Qlt_bool 0 (total_duration_of E (audiobook_files (st_self st)))) eqn:Hlt.
    + apply Qlt_bool_iff in Hlt.
      exists (total_duration_of E (audiobook_files (st_self st)) / audiobook_speed (st_self st)).
      split; [apply py_div_ok; exact Hnz|].
      assert (0 < total_duration_of E (audiobook_files (st_self st))
                  / audiobook_speed (st_self st)) as Hpos.
      { apply Qlt_shift_div_l; [exact Hspeed|]. lra. }
      split; [intros Hz; lra|]. intros _.
      destruct (play_mix_prepare_sum E start st Hfiles Hspeed) as (p & st' & Hp & Hin & _).
      { lra. }
      exists p, st'. split; assumption.
    + apply Qlt_bool_false_iff in Hlt.
      exists 0. split; [reflexivity|].
      split; [|intros Hz; exfalso; apply Hz; reflexivity].
      intros _. apply play_mix_no_duration; [exact Hfiles|exact Hmusic|lra].
  - rewrite Hfiles, Hpath. cbn [truthy_list].
    destruct (audiobook_path (st_self st)) as [book|] eqn:Hbook; [|discriminate].
    cbn [get_audio_duration].
    destruct (ffprobe E book) as [d|] eqn:Hprobe.
    + destruct (truthy_float (Some d)) eqn:Ht.
      * assert (~ d == 0) as Hd.
        { intros Hz. unfold truthy_float in Ht. rewrite (Qeq_bool_true _ _ Hz) in Ht.
          discriminate. }
        exists (d / audiobook_speed (st_self st)).
        split; [apply py_div_ok; exact Hnz|].
        split.
        { intros Hz. exfalso. apply Hd.
          assert (d == d / audiobook_speed (st_self st) * audiobook_speed (st_self st)) as ->
            by (field; exact Hnz).
          rewrite Hz. ring. }
        intros _.
        destruct (play_mix_prepare_single E start st book d Hfiles Hbook Hprobe Hd Hspeed)
          as (p & st' & Hp & Hin & _).
        exists p, st'. split; assumption.
      * exists 0. split; [reflexivity|].
        split; [|intros Hz; exfalso; apply Hz; reflexivity].
        intros _. apply play_mix_single_no_duration; try assumption.
        -- rewrite Hbook. exact Hpath.
        -- rewrite Hbook. cbn [get_audio_duration]. rewrite Hprobe. exact Ht.
    + exists 0. split; [reflexivity|].
      split; [|intros Hz; exfalso; apply Hz; reflexivity].
      intros _. apply play_mix_single_no_duration; try assumption.
      -- rewrite Hbook. exact Hpath.
      -- rewrite Hbook. cbn [get_audio_duration]. rewrite Hprobe. reflexivity.
Qed.

Lemma mixed_duration_is_what_play_mix_plays_witness :
  audiobook (st_self sample_folder) = None /\
  truthy_str (music_path (st_self sample_folder)) = true /\
  0 < audiobook_speed (st_self sample_folder) /\
  (truthy_list (audiobook_files (st_self sample_folder)) = true /\
   audiobook_path (st_self sample_folder) = None /\
   0 <= total_duration_of quiet_env (audiobook_files (st_self sample_folder))) /\
  exists d,
    get_mixed_duration quiet_env sample_folder = (Ok d, sample_folder) /\
    (~ d == 0 ->
     exists p st',
       play_mix_prepare quiet_env 30 sample_folder = (Ok (inr p), st') /\
       In [TNum (d - 30)] (pr_cmd p)).
Proof.
  assert (truthy_list (audiobook_files (st_self sample_folder)) = true /\
          audiobook_path (st_self sample_folder) = None /\
          0 <= total_duration_of quiet_env (audiobook_files (st_self sample_folder)))
    as Hsource.
  { split; [reflexivity|]. split; [reflexivity|]. vm_compute. discriminate. }
  split; [reflexivity|]. split; [reflexivity|]. split; [reflexivity|].
  split; [exact Hsource|].
  destruct (mixed_duration_is_what_play_mix_plays quiet_env 30 sample_folder
              eq_refl eq_refl eq_refl (or_introl Hsource)) as (d & Hd & _ & Hplay).
  exists d. split; assumption.
Defined.


Lemma Qdiv_nonzero (a b : Q) : ~ a == 0 -> ~ b == 0 -> ~ a / b == 0.
Proof.
  intros Ha Hb Hz. apply Ha.
  assert (a == a / b * b) as -> by (field; exact Hb).
  rewrite Hz. ring.
Qed.

Lemma truthy_float_nonzero (d : Q) : truthy_float (Some d) = true -> ~ d == 0.
Proof.
  unfold truthy_float. intros Ht Hz. rewrite (Qeq_bool_true _ _ Hz) in Ht. discriminate.
Qed.

Lemma seg_duration_nonzero (book : AudioSegment) :
  truthy_segment (Some book) = true -> ~ inject_Z (seg_ms book) / 1000 == 0.
Proof.
  unfold truthy_segment. intros Ht. apply Qdiv_nonzero; [|discriminate].
  intros Hz. unfold Qeq in Hz. cbn in Hz.
  apply negb_true_iff in Ht. apply Z.eqb_neq in Ht. lia.
Qed.

(** X9.  The information label and the seek bar agree on whether there is an
    audiobook to play: whenever [get_mixed_duration] returns 0,
    [get_audiobook_info] says "No audiobook loaded"; and when the object
    holds a folder or a single file, but not both, the label says so only
    then.  Neither method changes anything. *)
Theorem audiobook_info_agrees_with_duration E (st : State) :
  let self := st_self st in
  ~ audiobook_speed self == 0 ->
  exists d info,
    get_mixed_duration E st = (Ok d, st) /\
    get_audiobook_info E st = (Ok info, st) /\
    (d == 0 -> info = no_audiobook_loaded) /\
    (audiobook_files self = [] \/ audiobook_path self = None ->
     info = no_audiobook_loaded -> d == 0).
Proof.
  cbn zeta. intros Hnz.
  unfold get_mixed_duration, get_audiobook_info.
  rewrite !(bind_ok get_self _ st (st_self st) st eq_refl). cbv beta zeta.
  assert (forall x (label : Q -> Arg), ~ x == 0 ->
            (forall a, (1 < length (label a))%nat) ->
            exists d info,
              py_div x (audiobook_speed (st_self st)) st = (Ok d, st) /\
              (adjusted <- py_div x (audiobook_speed (st_self st)) ;; ret (label adjusted)) st
              = (Ok info, st) /\
              (d == 0 -> info = no_audiobook_loaded) /\
              (audiobook_files (st_self st) = [] \/ audiobook_path (st_self st) = None ->
               info = no_audiobook_loaded -> d == 0)) as Hshown.
  { intros x label Hx Hlen.
    exists (x / audiobook_speed (st_self st)), (label (x / audiobook_speed (st_self st))).
    split; [apply py_div_ok; exact Hnz|].
    split; [rewrite (bind_ok _ _ st _ st (py_div_ok x _ st Hnz)); reflexivity|].
    split.
    - intros Hz. exfalso. exact (Qdiv_nonzero _ _ Hx Hnz Hz).
    - intros _ Heq. specialize (Hlen (x / audiobook_speed (st_self st))).
      rewrite Heq in Hlen. cbn in Hlen. lia. }
  assert (exists d info,
            (@ret Q 0) st = (Ok d, st) /\ ret no_audiobook_loaded st = (Ok info, st) /\
            (d == 0 -> info = no_audiobook_loaded) /\
            (audiobook_files (st_self st) = [] \/ audiobook_path (st_self st) = None ->
             info = no_audiobook_loaded -> d == 0)) as Hnone.
  { exists 0, no_audiobook_loaded. repeat split; reflexivity. }
  (* the branches for an audiobook that is not in memory *)
  assert (exists d info,
            (if truthy_list (audiobook_files (st_self st))
             then
               if Qlt_bool 0 (total_duration_of E (audiobook_files (st_self st)))
               then py_div (total_duration_of E (audiobook_files (st_self st)))
                           (audiobook_speed (st_self st))
               else
                 if truthy_str (audiobook_path (st_self st))
                 then match get_audio_duration E (audiobook_path (st_self st)) with
                      | Some duration =>
                          if truthy_float (Some duration)
                          then py_div duration (audiobook_speed (st_self st))
                          else ret 0
                      | None => ret 0
                      end
                 else ret 0
             else
               if truthy_str (audiobook_path (st_self st))
               then match get_audio_duration E (audiobook_path (st_self st)) with
                    | Some duration =>
                        if truthy_float (Some duration)
                        then py_div duration (audiobook_speed (st_self st))
                        else ret 0
                    | None => ret 0
                    end
               else ret 0) st = (Ok d, st) /\
            (if truthy_list (audiobook_files (st_self st))
             then
               if Qlt_bool 0 (total_duration_of E (audiobook_files (st_self st)))
               then
                 adjusted_duration <-
                   py_div (total_duration_of E (audiobook_files (st_self st)))
                          (audiobook_speed (st_self st)) ;;
                 ret ([TStr ("Duration: "
                             +:+ format_fixed 1
                                   (total_duration_of E (audiobook_files (st_self st)) / 60)
                             +:+ "min " +:+ arrow +:+ " "
                             +:+ format_fixed 1 (adjusted_duration / 60) +:+ "min")]
                      ++ at_speed (audiobook_speed (st_self st))
                      ++ [TStr (" ["
                                +:+ str_of_Z (Z.of_nat (length (audiobook_files (st_self st))))
                                +:+ " files]")])
               else ret no_audiobook_loaded
             else
               if truthy_str (audiobook_path (st_self st))
               then match get_audio_duration E (audiobook_path (st_self st)) with
                    | Some duration =>
                        if truthy_float (Some duration)
                        then
                          adjusted_duration <-
                            py_div duration (audiobook_speed (st_self st)) ;;
                          ret ([TStr ("Duration: " +:+ format_fixed 1 (duration / 60)
                                      +:+ "min " +:+ arrow +:+ " "
                                      +:+ format_fixed 1 (adjusted_duration / 60) +:+ "min")]
                               ++ at_speed (audiobook_speed (st_self st))
                               ++ [TStr " [Streaming]"])
                        else ret no_audiobook_loaded
                    | None => ret no_audiobook_loaded
                    end
               else ret no_audiobook_loaded) st = (Ok info, st) /\
            (d == 0 -> info = no_audiobook_loaded) /\
            (audiobook_files (st_self st) = [] \/ audiobook_path (st_self st) = None ->
             info = no_audiobook_loaded -> d == 0)) as Hstream.
  { destruct (audiobook_files (st_self st)) as [|f0 files] eqn:Hfiles; cbn [truthy_list].
    - (* a single file, or nothing *)
      destruct (truthy_str (audiobook_path (st_self st))); [|exact Hnone].
      destruct (get_audio_duration E (audiobook_path (st_self st))) as [dp|]; [|exact Hnone].
      destruct (truthy_float (Some dp)) eqn:Hdp; [|exact Hnone].
      apply Hshown; [apply truthy_float_nonzero; exact Hdp|]. intros a. cbn. lia.
    - (* a folder *)
      destruct (Qlt_bool 0 (total_duration_of E (f0 :: files))) eqn:Hlt.
      + apply Qlt_bool_iff in Hlt.
        apply Hshown; [lra|]. intros a. cbn. lia.
      + (* the total is not positive: the label gives up, the duration
           falls back on the single path *)
        destruct (truthy_str (audiobook_path (st_self st))) eqn:Hpath.
        2: { exists 0, no_audiobook_loaded. repeat split; reflexivity. }
        destruct (get_audio_duration E (audiobook_path (st_self st))) as [dp|] eqn:Hprobe.
        2: { exists 0, no_audiobook_loaded. repeat split; reflexivity. }
        destruct (truthy_float (Some dp)) eqn:Hdp.
        2: { exists 0, no_audiobook_loaded. repeat split; reflexivity. }
        exists (dp / audiobook_speed (st_self st)), no_audiobook_loaded.
        split; [apply py_div_ok; exact Hnz|]. split; [reflexivity|].
        split; [reflexivity|].
        intros [Hempty|Hno]; [discriminate|].
        rewrite Hno in Hpath. discriminate. }
  destruct (audiobook (st_self st)) as [book|] eqn:Hbook.
  - destruct (truthy_segment (Some book)) eqn:Hseg.
    + apply Hshown; [apply seg_duration_nonzero; exact Hseg|]. intros a. cbn. lia.
    + exact Hstream.
  - exact Hstream.
Qed.

Lemma audiobook_info_agrees_with_duration_witness :
  ~ audiobook_speed (st_self sample_folder) == 0 /\
  exists d info,
    get_mixed_duration quiet_env sample_folder = (Ok d, sample_folder) /\
    get_audiobook_info quiet_env sample_folder = (Ok info, sample_folder) /\
    (d == 0 -> info = no_audiobook_loaded).
Proof.
  assert (~ audiobook_speed (st_self sample_folder) == 0) as Hnz by discriminate.
  split; [exact Hnz|].
  destruct (audiobook_info_agrees_with_duration quiet_env sample_folder Hnz)
    as (d & info & Hd & Hinfo & Hzero & _).
  exists d, info. split; [exact Hd|]. split; [exact Hinfo|exact Hzero].
Defined.


(* --------------------------------------------------------------------- *)
(** ** The settings file *)
(* --------------------------------------------------------------------- *)

(** Whatever the disk holds, the loaded settings have every default key. *)
Lemma load_settings_has_defaults home disk key :
  is_Some (default_settings home !! key) -> is_Some (load_settings home disk !! key).
Proof.
  intros Hdef. unfold load_settings.
  destruct (sd_file disk) as [[settings|]|]; try exact Hdef.
  apply lookup_union_is_Some. right. exact Hdef.
Qed.

Lemma load_settings_absorbs_defaults home disk key :
  (load_settings home disk ∪ default_settings home) !! key = load_settings home disk !! key.
Proof.
  destruct (load_settings home disk !! key) as [v|] eqn:Hv.
  - apply lookup_union_Some_l. exact Hv.
  - apply lookup_union_None. split; [exact Hv|].
    destruct (default_settings home !! key) as [d|] eqn:Hd; [|reflexivity].
    destruct (load_settings_has_defaults home disk key) as [x Hx]; [eexists; exact Hd|].
    congruence.
Qed.

Lemma load_after_save home settings disk :
  sd_writable disk = true ->
  load_settings home (snd (save_settings settings disk))
  = settings ∪ default_settings home.
Proof. intros Hw. unfold save_settings. rewrite Hw. reflexivity. Qed.

Lemma set_setting_effect home key value disk :
  sd_writable disk = true ->
  let disk' := snd (set_setting home key value disk) in
  fst (set_setting home key value disk) = true /\
  sd_writable disk' = true /\
  sd_file disk' = Some (ObjectText (<[key := value]> (load_settings home disk))) /\
  (forall default, get_setting home key default disk' = value) /\
  (forall key' default, key' <> key ->
     get_setting home key' default disk' = get_setting home key' default disk).
Proof.
  intros Hw. cbn zeta.
  assert (load_settings home (snd (set_setting home key value disk))
          = <[key := value]> (load_settings home disk) ∪ default_settings home) as Hload.
  { unfold set_setting. apply load_after_save. exact Hw. }
  split; [unfold set_setting, save_settings; rewrite Hw; reflexivity|].
  split; [unfold set_setting, save_settings; rewrite Hw; reflexivity|].
  split; [unfold set_setting, save_settings; rewrite Hw; reflexivity|].
  split.
  { intros default. unfold get_setting. cbv zeta. rewrite Hload.
    rewrite (lookup_union_Some_l _ _ key value); [reflexivity|].
    apply lookup_insert_eq. }
  intros key' default Hne. unfold get_setting. cbv zeta. rewrite Hload.
  assert ((<[key := value]> (load_settings home disk) ∪ default_settings home) !! key'
          = load_settings home disk !! key') as ->; [|reflexivity].
  rewrite <- (load_settings_absorbs_defaults home disk key').
  rewrite !lookup_union, lookup_insert_ne by congruence. reflexivity.
Qed.

Lemma clear_file_paths_effect home disk :
  sd_writable disk = true ->
  let disk' := snd (clear_file_paths home disk) in
  fst (clear_file_paths home disk) = true /\
  (forall default, get_setting home "last_audiobook_path" default disk' = JNull) /\
  (forall default, get_setting home "last_music_path" default disk' = JNull) /\
  (forall key default,
     key <> "last_audiobook_path" -> key <> "last_music_path" ->
     get_setting home key default disk' = get_setting home key default disk).
Proof.
  intros Hw. cbn zeta.
  assert (load_settings home (snd (clear_file_paths home disk))
          = <["last_music_path" := JNull]>
              (<["last_audiobook_path" := JNull]> (load_settings home disk))
            ∪ default_settings home) as Hload.
  { unfold clear_file_paths. apply load_after_save. exact Hw. }
  split; [unfold clear_file_paths, save_settings; rewrite Hw; reflexivity|].
  split.
  { intros default. unfold get_setting. cbv zeta. rewrite Hload.
    rewrite (lookup_union_Some_l _ _ "last_audiobook_path" JNull); [reflexivity|].
    rewrite lookup_insert_ne by discriminate. apply lookup_insert_eq. }
  split.
  { intros default. unfold get_setting. cbv zeta. rewrite Hload.
    rewrite (lookup_union_Some_l _ _ "last_music_path" JNull); [reflexivity|].
    apply lookup_insert_eq. }
  intros key default Hbook Hmusic. unfold get_setting. cbv zeta. rewrite Hload.
  assert ((<["last_music_path" := JNull]>
             (<["last_audiobook_path" := JNull]> (load_settings home disk))
           ∪ default_settings home) !! key
          = load_settings home disk !! key) as ->; [|reflexivity].
  rewrite <- (load_settings_absorbs_defaults home disk key).
  rewrite !lookup_union, !lookup_insert_ne by congruence. reflexivity.
Qed.

(** X10.  [set_setting] then [get_setting].  When the file can be written,
    [set_setting(key, value)] returns [True]; afterwards [get_setting(key)]
    returns [value], every other key reads as it did before, and the file
    holds an object with all the default keys (also when it was missing or
    unreadable before).  When the file cannot be written, [set_setting]
    returns [False] and the disk is as before. *)
Theorem settings_set_then_get (home key : string) (value : Json) (disk : SettingsDisk) :
  let disk' := snd (set_setting home key value disk) in
  (sd_writable disk = true ->
   fst (set_setting home key value disk) = true /\
   (forall default, get_setting home key default disk' = value) /\
   (forall key' default, key' <> key ->
      get_setting home key' default disk' = get_setting home key' default disk) /\
   exists stored,
     sd_file disk' = Some (ObjectText stored) /\
     forall k, is_Some (default_settings home !! k) -> is_Some (stored !! k)) /\
  (sd_writable disk = false -> set_setting home key value disk = (false, disk)).
Proof.
  cbn zeta. split.
  - intros Hw.
    destruct (set_setting_effect home key value disk Hw) as (Hres & _ & Hfile & Hget & Hother).
    split; [exact Hres|]. split; [exact Hget|]. split; [exact Hother|].
    eexists. split; [exact Hfile|].
    intros k Hk. destruct (decide (k = key)) as [->|Hne].
    + rewrite lookup_insert_eq. eexists. reflexivity.
    + rewrite lookup_insert_ne by congruence.
      apply load_settings_has_defaults. exact Hk.
  - intros Hw. unfold set_setting, save_settings. rewrite Hw. reflexivity.
Qed.

(** X11.  [get_setting] and the defaults.  For a key of [default_settings]
    the [default] argument of [get_setting] plays no role: the result is
    the value in the file if the file is a JSON object that has the key,
    and the value of [default_settings] in every other case (no file, a
    file that cannot be read as an object, an object without the key).
    For any other key the result is the file's value, or [default]. *)
Theorem get_setting_falls_back_on_defaults (home key : string) (disk : SettingsDisk) :
  let in_file :=
    match sd_file disk with
    | Some (ObjectText settings) => settings !! key
    | _ => None
    end in
  forall default,
    get_setting home key default disk =
    match in_file, default_settings home !! key with
    | Some value, _ => value
    | None, Some value => value
    | None, None => default
    end.
Proof.
  cbn zeta. intros default. unfold get_setting, load_settings. cbv zeta.
  destruct (sd_file disk) as [[settings|]|].
  - rewrite lookup_union.
    destruct (settings !! key); destruct (default_settings home !! key); reflexivity.
  - destruct (default_settings home !! key); reflexivity.
  - destruct (default_settings home !! key); reflexivity.
Qed.

(** A new installation: the saved audiobook path reads as [None] although
    the caller asks for another default. *)
Example get_setting_new_installation :
  get_setting "/home/me" "last_audiobook_path" (JStr "book.mp3")
              {| sd_file := None; sd_writable := true |} = JNull /\
  get_setting "/home/me" "last_audiobook_dir" JNull
              {| sd_file := Some OtherText; sd_writable := true |} = JStr "/home/me" /\
  get_setting "/home/me" "window_size" (JNum 3)
              {| sd_file := None; sd_writable := true |} = JNum 3.
Proof. repeat split; vm_compute; reflexivity. Qed.

(** X12.  [clear_file_paths], when the file can be written, returns [True];
    afterwards the two saved paths read as [None] and every other key reads
    as before.  When the file cannot be written it returns [False] and the
    disk is as before. *)
Theorem clear_file_paths_forgets_paths (home : string) (disk : SettingsDisk) :
  let disk' := snd (clear_file_paths home disk) in
  (sd_writable disk = true ->
   fst (clear_file_paths home disk) = true /\
   (forall default, get_setting home "last_audiobook_path" default disk' = JNull) /\
   (forall default, get_setting home "last_music_path" default disk' = JNull) /\
   (forall key default,
      key <> "last_audiobook_path" -> key <> "last_music_path" ->
      get_setting home key default disk' = get_setting home key default disk)) /\
  (sd_writable disk = false -> clear_file_paths home disk = (false, disk)).
Proof.
  cbn zeta. split.
  - apply clear_file_paths_effect.
  - intros Hw. unfold clear_file_paths, save_settings. rewrite Hw. reflexivity.
Qed.

(** X13.  The checkbox "auto-reload".  When the file can be written,
    [on_auto_reload_toggle] stores the state of the checkbox.  Unchecked:
    the two saved paths then read as [None], while the directories, the
    speed and the volumes read as before.  Checked: every setting then reads
    as the front-end has it at that moment. *)
Theorem auto_reload_toggle_settings (home : string) (app : AudioMixerApp)
    (disk : SettingsDisk) :
  sd_writable disk = true ->
  let disk' := on_auto_reload_toggle home app disk in
  (forall default,
     get_setting home "auto_reload_files" default disk' = JBool (auto_reload_var app)) /\
  (auto_reload_var app = false ->
   (forall default, get_setting home "last_audiobook_path" default disk' = JNull) /\
   (forall default, get_setting home "last_music_path" default disk' = JNull) /\
   (forall key default,
      key <> "auto_reload_files" -> key <> "last_audiobook_path" ->
      key <> "last_music_path" ->
      get_setting home key default disk' = get_setting home key default disk)) /\
  (auto_reload_var app = true ->
   forall key value default,
     settings_dict app !! key = Some value ->
     get_setting home key default disk' = value).
Proof.
  intros Hw. cbn zeta. unfold on_auto_reload_toggle.
  destruct (set_setting_effect home "auto_reload_files" (JBool (auto_reload_var app)) disk Hw)
    as (_ & Hw1 & _ & Hget & Hother).
  set (disk1 := snd (set_setting home "auto_reload_files" (JBool (auto_reload_var app)) disk))
    in *.
  destruct (clear_file_paths_effect home disk1 Hw1) as (_ & Hbook & Hmusic & Hkeep).
  destruct (auto_reload_var app) eqn:Hvar; cbn [negb].
  - split.
    { intros default. unfold get_setting, save_current_settings. cbv zeta.
      rewrite load_after_save by exact Hw1.
      rewrite (lookup_union_Some_l _ _ "auto_reload_files" (JBool true)); [reflexivity|].
      unfold settings_dict. rewrite Hvar. apply lookup_insert_eq. }
    split; [discriminate|].
    intros _ key value default Hkey. unfold get_setting, save_current_settings. cbv zeta.
    rewrite load_after_save by exact Hw1.
    rewrite (lookup_union_Some_l _ _ key value Hkey). reflexivity.
  - split.
    { intros default. rewrite Hkeep by discriminate. apply Hget. }
    split; [|discriminate].
    intros _. split; [exact Hbook|]. split; [exact Hmusic|].
    intros key default H1 H2 H3. rewrite Hkeep by assumption. apply Hother. exact H1.
Qed.

Lemma auto_reload_toggle_settings_witness :
  sd_writable sample_disk = true /\
  get_setting "/home/u" "last_audiobook_path" (JStr "none") 
    (on_auto_reload_toggle "/home/u" sample_app sample_disk) = JNull /\
  get_setting "/home/u" "audiobook_speed" JNull
    (on_auto_reload_toggle "/home/u" sample_app sample_disk) = JNum (3 # 2).
Proof.
  split; [reflexivity|].
  destruct (auto_reload_toggle_settings "/home/u" sample_app sample_disk eq_refl)
    as (_ & Hoff & _).
  destruct (Hoff eq_refl) as (Hbook & _ & Hkeep).
  split; [apply Hbook|].
  rewrite Hkeep by discriminate. reflexivity.
Defined.


(* --------------------------------------------------------------------- *)
(** ** Times as text *)
(* --------------------------------------------------------------------- *)

Lemma Qfloor_unique (x : Q) (z : Z) :
  inject_Z z <= x -> x < inject_Z (z + 1) -> Qfloor x = z.
Proof.
  intros Hlo Hhi.
  assert (z <= Qfloor x)%Z as H1.
  { rewrite <- (Qfloor_Z z). apply Qfloor_resp_le. exact Hlo. }
  assert (Qfloor x < z + 1)%Z as H2.
  { rewrite Zlt_Qlt. eapply Qle_lt_trans; [apply Qfloor_le|exact Hhi]. }
  lia.
Qed.

Lemma inject_Z_sub (a b : Z) : inject_Z (a - b) == inject_Z a - inject_Z b.
Proof. unfold Z.sub. rewrite inject_Z_plus, inject_Z_opp. ring. Qed.

(** [x // c] and [x % c] for a positive integer [c]. *)
Lemma floordiv_mod_spec (x : Q) (c : Z) :
  (0 < c)%Z ->
  let q := Qfloor (x / inject_Z c) in
  let r := x - inject_Z c * inject_Z q in
  0 <= r /\ r < inject_Z c /\ Qfloor r = (Qfloor x - c * q)%Z /\ (0 <= Qfloor r < c)%Z.
Proof.
  intros Hc. cbn zeta.
  set (q := Qfloor (x / inject_Z c)).
  assert (0 < inject_Z c) as Hcq.
  { change 0 with (inject_Z 0). rewrite <- Zlt_Qlt. exact Hc. }
  assert (inject_Z q <= x / inject_Z c) as Hlo by apply Qfloor_le.
  assert (x / inject_Z c < inject_Z (q + 1)) as Hhi by apply Qlt_floor.
  rewrite inject_Z_plus in Hhi. change (inject_Z 1) with 1 in Hhi.
  assert (x == x / inject_Z c * inject_Z c) as Hx by (field; lra).
  assert (0 <= x - inject_Z c * inject_Z q) as Hr0.
  { assert (inject_Z q * inject_Z c <= x / inject_Z c * inject_Z c) as H
      by (apply Qmult_le_compat_r; [exact Hlo|lra]).
    rewrite <- Hx in H. lra. }
  assert (x - inject_Z c * inject_Z q < inject_Z c) as Hr1.
  { assert (x / inject_Z c * inject_Z c < (inject_Z q + 1) * inject_Z c) as H
      by (apply Qmult_lt_compat_r; [exact Hcq|exact Hhi]).
    rewrite <- Hx in H. lra. }
  split; [exact Hr0|]. split; [exact Hr1|].
  assert (Qfloor (x - inject_Z c * inject_Z q) = (Qfloor x - c * q)%Z) as Hfloor.
  { apply Qfloor_unique.
    - rewrite inject_Z_sub, inject_Z_mult.
      assert (inject_Z (Qfloor x) <= x) by apply Qfloor_le. lra.
    - rewrite inject_Z_plus, inject_Z_sub, inject_Z_mult. change (inject_Z 1) with 1.
      assert (x < inject_Z (Qfloor x + 1)) as H by apply Qlt_floor.
      rewrite inject_Z_plus in H. change (inject_Z 1) with 1 in H. lra. }
  split; [exact Hfloor|].
  split.
  - change 0%Z with (Qfloor (inject_Z 0)). apply Qfloor_resp_le. exact Hr0.
  - rewrite Zlt_Qlt. eapply Qle_lt_trans; [apply Qfloor_le|exact Hr1].
Qed.

Lemma py_int_floor (z : Z) : py_int (inject_Z z) = z.
Proof. unfold py_int. cbn. apply Z.quot_1_r. Qed.

Lemma two_digits (n : Z) : (0 <= n <= 99)%Z -> String.length (zero_pad 2 (str_of_Z n)) = 2%nat.
Proof.
  intros Hn.
  assert (exists k : nat, (k < 100)%nat /\ n = Z.of_nat k) as (k & Hk & ->)
    by (exists (Z.to_nat n); lia).
  clear Hn. do 100 (destruct k as [|k]; [vm_compute; reflexivity|]). lia.
Qed.

(** X14.  [AudioMixerApp.format_time] on a time that is not negative: the
    text is the minutes, a colon and the seconds; the seconds are between 0
    and 59 and are written with exactly two digits; minutes and seconds make
    up the whole seconds of the time. *)
Theorem app_format_time_parts (seconds : Q) :
  0 <= seconds ->
  exists minutes secs : Z,
    app_format_time seconds = str_of_Z minutes +:+ ":" +:+ zero_pad 2 (str_of_Z secs) /\
    (0 <= minutes)%Z /\ (0 <= secs <= 59)%Z /\
    (60 * minutes + secs = Qfloor seconds)%Z /\
    String.length (zero_pad 2 (str_of_Z secs)) = 2%nat.
Proof.
  intros Hpos.
  destruct (floordiv_mod_spec seconds 60 eq_refl) as (Hr0 & Hr1 & Hfloor & Hrange).
  change (inject_Z 60) with 60 in *.
  exists (Qfloor (seconds / 60)), (Qfloor (seconds - 60 * inject_Z (Qfloor (seconds / 60)))).
  assert (0 <= Qfloor (seconds / 60))%Z as Hmin.
  { change 0%Z with (Qfloor (inject_Z 0)). apply Qfloor_resp_le.
    apply Qdiv_nonneg; [exact Hpos|reflexivity]. }
  split.
  { unfold app_format_time, py_floordiv, py_mod. rewrite py_int_floor.
    rewrite (py_int_nonneg _ Hr0). unfold format_02d.
    destruct (Z.ltb_spec (Qfloor (seconds - 60 * inject_Z (Qfloor (seconds / 60)))) 0);
      [lia|reflexivity]. }
  split; [exact Hmin|]. split; [lia|]. split; [lia|].
  apply two_digits. lia.
Qed.

Lemma app_format_time_parts_witness :
  0 <= 754 + (1 # 2) /\
  exists minutes secs : Z,
    app_format_time (754 + (1 # 2))
    = str_of_Z minutes +:+ ":" +:+ zero_pad 2 (str_of_Z secs) /\
    (60 * minutes + secs = Qfloor (754 + (1 # 2)))%Z.
Proof.
  split; [discriminate|].
  destruct (app_format_time_parts (754 + (1 # 2))) as (m & s & Htext & _ & _ & Hsum & _).
  { discriminate. }
  exists m, s. split; assumption.
Defined.

Example app_format_time_samples :
  app_format_time 0 = "0:00" /\
  app_format_time 59 = "0:59" /\
  app_format_time (754 + (1 # 2)) = "12:34" /\
  app_format_time 3600 = "60:00".
Proof. repeat split; vm_compute; reflexivity. Qed.

(** X15.  The remaining time that [render_to_file] shows, for a time that is
    not negative: under a minute the whole seconds; under an hour the
    minutes (1 to 59) and the seconds (0 to 59) that make up the whole
    seconds; from an hour on the hours and the minutes (0 to 59) that make
    up the whole minutes. *)
Theorem render_eta_parts (seconds : Q) :
  0 <= seconds ->
  (seconds < 60 ->
   format_time seconds = str_of_Z (Qfloor seconds) +:+ "s" /\
   (0 <= Qfloor seconds <= 59)%Z) /\
  (60 <= seconds -> seconds < 3600 ->
   exists mins secs : Z,
     format_time seconds = str_of_Z mins +:+ "m " +:+ str_of_Z secs +:+ "s" /\
     (1 <= mins <= 59)%Z /\ (0 <= secs <= 59)%Z /\
     (60 * mins + secs = Qfloor seconds)%Z) /\
  (3600 <= seconds ->
   exists hours mins : Z,
     format_time seconds = str_of_Z hours +:+ "h " +:+ str_of_Z mins +:+ "m" /\
     (1 <= hours)%Z /\ (0 <= mins <= 59)%Z /\
     (60 * hours + mins = Qfloor (seconds / 60))%Z).
Proof.
  intros Hpos. split; [|split].
  - intros Hlt. unfold format_time.
    rewrite (proj2 (Qlt_bool_iff seconds 60) Hlt).
    rewrite (py_int_nonneg _ Hpos). split; [reflexivity|]. split.
    + change 0%Z with (Qfloor (inject_Z 0)). apply Qfloor_resp_le. exact Hpos.
    + assert (Qfloor seconds < 60)%Z; [|lia].
      rewrite Zlt_Qlt. eapply Qle_lt_trans; [apply Qfloor_le|exact Hlt].
  - intros Hlo Hhi. unfold format_time.
    rewrite (proj2 (Qlt_bool_false_iff seconds 60) Hlo).
    rewrite (proj2 (Qlt_bool_iff seconds 3600) Hhi).
    destruct (floordiv_mod_spec seconds 60 eq_refl) as (Hr0 & Hr1 & Hfloor & Hrange).
    change (inject_Z 60) with 60 in *.
    assert (1 <= seconds / 60) as Hq1 by (apply Qle_shift_div_l; [reflexivity|lra]).
    assert (seconds / 60 < 60) as Hq2 by (apply Qlt_shift_div_r; [reflexivity|lra]).
    exists (Qfloor (seconds / 60)), (Qfloor (seconds - 60 * inject_Z (Qfloor (seconds / 60)))).
    split.
    { rewrite (py_int_nonneg (seconds / 60)) by lra.
      rewrite (py_int_nonneg _ Hr0). reflexivity. }
    split.
    { split.
      - change 1%Z with (Qfloor (inject_Z 1)). apply Qfloor_resp_le. exact Hq1.
      - assert (Qfloor (seconds / 60) < 60)%Z; [|lia].
        rewrite Zlt_Qlt. eapply Qle_lt_trans; [apply Qfloor_le|exact Hq2]. }
    split; lia.
  - intros Hlo. unfold format_time.
    rewrite (proj2 (Qlt_bool_false_iff seconds 60)) by lra.
    rewrite (proj2 (Qlt_bool_false_iff seconds 3600) Hlo).
    destruct (floordiv_mod_spec seconds 3600 eq_refl) as (Hr0 & Hr1 & _ & _).
    change (inject_Z 3600) with 3600 in *.
    set (hours := Qfloor (seconds / 3600)) in *.
    set (rest := seconds - 3600 * inject_Z hours) in *.
    assert (1 <= seconds / 3600) as Hq1 by (apply Qle_shift_div_l; [reflexivity|lra]).
    assert (1 <= hours)%Z as Hhours.
    { change 1%Z with (Qfloor (inject_Z 1)). apply Qfloor_resp_le. exact Hq1. }
    assert (0 <= rest / 60) as Hm0 by (apply Qdiv_nonneg; [exact Hr0|reflexivity]).
    assert (rest / 60 < 60) as Hm1 by (apply Qlt_shift_div_r; [reflexivity|lra]).
    exists hours, (Qfloor (rest / 60)).
    split.
    { rewrite (py_int_nonneg (seconds / 3600)) by lra.
      rewrite (py_int_nonneg _ Hm0). reflexivity. }
    split; [exact Hhours|].
    assert (0 <= Qfloor (rest / 60))%Z as Hmin0.
    { change 0%Z with (Qfloor (inject_Z 0)). apply Qfloor_resp_le. exact Hm0. }
    assert (Qfloor (rest / 60) < 60)%Z as Hmin1.
    { rewrite Zlt_Qlt. eapply Qle_lt_trans; [apply Qfloor_le|exact Hm1]. }
    split; [lia|].
    symmetry. apply Qfloor_unique.
    + rewrite inject_Z_plus, inject_Z_mult.
      assert (inject_Z (Qfloor (rest / 60)) <= rest / 60) as H by apply Qfloor_le.
      assert (seconds / 60 == 60 * inject_Z hours + rest / 60) as ->
        by (subst rest; field).
      change (inject_Z 60) with 60. lra.
    + rewrite !inject_Z_plus, inject_Z_mult. change (inject_Z 1) with 1.
      assert (rest / 60 < inject_Z (Qfloor (rest / 60) + 1)) as H by apply Qlt_floor.
      rewrite inject_Z_plus in H. change (inject_Z 1) with 1 in H.
      assert (seconds / 60 == 60 * inject_Z hours + rest / 60) as ->
        by (subst rest; field).
      change (inject_Z 60) with 60. lra.
Qed.

Lemma render_eta_parts_witness :
  0 <= 3725 /\
  exists hours mins : Z,
    format_time 3725 = str_of_Z hours +:+ "h " +:+ str_of_Z mins +:+ "m" /\
    (1 <= hours)%Z /\ (0 <= mins <= 59)%Z.
Proof.
  split; [discriminate|].
  destruct (proj2 (proj2 (render_eta_parts 3725 ltac:(discriminate))))
    as (h & m & Htext & Hh & Hm & _).
  { discriminate. }
  exists h, m. auto.
Defined.

Example render_eta_samples :
  format_time 42 = "42s" /\
  format_time (125 + (1 # 2)) = "2m 5s" /\
  format_time 3725 = "1h 2m" /\
  format_time 3599 = "59m 59s".
Proof. repeat split; vm_compute; reflexivity. Qed.


(* --------------------------------------------------------------------- *)
(** ** Loading a single file *)
(* --------------------------------------------------------------------- *)

Ltac keeps_object_field :=
  repeat first
    [ apply preserves_ret
    | apply preserves_raise
    | apply preserves_get_world
    | apply preserves_get_self
    | apply preserves_update_world
    | apply preserves_try_pass
    | apply preserves_bind; [|intros ?]
    | apply preserves_try_except; [|intros ? ? [= <-]]
    | match goal with
      | |- preserves _ (update_self _) => intros ? ?; assumption
      | |- preserves _ (progress ?cb _ _) => unfold progress; destruct cb
      | |- preserves _ (match ?x with _ => _ end) => destruct x
      | |- preserves _ (if ?x then _ else _) => destruct x
      end ].

Lemma load_audiobook_keeps_files E path cb (files : list string) :
  preserves (fun st => audiobook_files (st_self st) = files) (load_audiobook E path cb).
Proof.
  unfold load_audiobook, getsize, update_self.
  apply preserves_try_except.
  - keeps_object_field.
  - intros e k He. destruct e; try discriminate; injection He as <-; keeps_object_field.
Qed.

(** X16.  [load_audiobook] of a file that does not exist returns [False] with
    the error of [os.path.getsize]; by then [audiobook_path] is already the
    new path, while the audiobook in memory is still the previous one.  And
    whatever it returns, [load_audiobook] leaves the list [audiobook_files]
    of a folder loaded earlier in place. *)
Theorem load_audiobook_partial_update E (path : string) (cb : bool) (st : State) :
  let st' := snd (load_audiobook E path cb st) in
  audiobook_files (st_self st') = audiobook_files (st_self st) /\
  (w_fs (st_world st) !! path = None ->
   load_audiobook E path cb st
   = (Ok (load_error_result "audiobook" (no_such_file path)),
      {| st_world := st_world st; st_self := with_audiobook_path (Some path) (st_self st) |}) /\
   fst (load_error_result "audiobook" (no_such_file path)) = false /\
   audiobook_path (st_self st') = Some path /\
   audiobook (st_self st') = audiobook (st_self st)).
Proof.
  cbn zeta. split.
  - apply (load_audiobook_keeps_files E path cb (audiobook_files (st_self st)) st).
    reflexivity.
  - intros Hmissing.
    assert (load_audiobook E path cb st
            = (Ok (load_error_result "audiobook" (no_such_file path)),
               {| st_world := st_world st;
                  st_self := with_audiobook_path (Some path) (st_self st) |})) as Hrun.
    { unfold load_audiobook, try_except.
      rewrite (bind_ok (update_self _) _ st tt
                 {| st_world := st_world st;
                    st_self := with_audiobook_path (Some path) (st_self st) |})
        by reflexivity.
      cbv beta. unfold bind at 1.
      rewrite getsize_missing by exact Hmissing. reflexivity. }
    rewrite Hrun. cbn [fst snd st_self].
    split; [reflexivity|]. split; [|split; reflexivity].
    unfold load_error_result. destruct (_ || _); reflexivity.
Qed.





(* --------------------------------------------------------------------- *)
(** ** A playback that has started *)
(* --------------------------------------------------------------------- *)

Lemma bind_inv {A B : Type} (m : M A) (f : A -> M B) st b st' :
  bind m f st = (Ok b, st') ->
  exists a st1, m st = (Ok a, st1) /\ f a st1 = (Ok b, st').
Proof.
  unfold bind. destruct (m st) as [[a|e|] st1]; intros H; try discriminate.
  exists a, st1. split; [reflexivity|exact H].
Qed.

Lemma try_except_inv {A : Type} (body : M A) handler st a st' :
  try_except body handler st = (Ok a, st') ->
  body st = (Ok a, st') \/
  exists e st1 k, body st = (Raise e, st1) /\ handler e = Some k /\ k st1 = (Ok a, st').
Proof.
  unfold try_except. destruct (body st) as [[x|e|] st1]; intros H; try discriminate.
  - left. exact H.
  - right. destruct (handler e) as [k|] eqn:Hk; [|discriminate].
    exists e, st1, k. auto.
Qed.

(** The results of a method all have a property. *)
Lemma results_bind {A B : Type} (R : B -> Prop) (m : M A) (f : A -> M B) :
  (forall a st b st', f a st = (Ok b, st') -> R b) ->
  forall st b st', bind m f st = (Ok b, st') -> R b.
Proof.
  intros Hf st b st' H. apply bind_inv in H as (a & st1 & _ & H). eapply Hf. exact H.
Qed.

Lemma suffix_differs (a : string) : forall b, a +:+ ".txt" <> b +:+ ".wav".
Proof.
  induction a as [|c a IH]; intros b H.
  - rewrite append_nil in H.
    do 4 (destruct b as [|? b];
          [rewrite ?append_nil in H; discriminate
          |rewrite append_cons in H; injection H as _ H]).
    destruct b; discriminate.
  - rewrite append_cons in H. destruct b as [|d b].
    + rewrite append_nil in H. injection H as _ H.
      do 3 (destruct a as [|? a];
            [rewrite ?append_nil in H; discriminate
            |rewrite append_cons in H; injection H as _ H]).
      destruct a; discriminate.
    + rewrite append_cons in H. injection H as _ H. exact (IH b H).
Qed.

Lemma temp_names_differ (n m : nat) :
  "/tmp/tmp" +:+ str_of_Z (Z.of_nat n) +:+ ".txt"
  <> "/tmp/tmp" +:+ str_of_Z (Z.of_nat m) +:+ ".wav".
Proof.
  rewrite <- !str_app_assoc. apply suffix_differs.
Qed.


Lemma build_atempo_inv st a st' : build_atempo st = (Ok a, st') -> st' = st.
Proof.
  unfold build_atempo, bind, get_self.
  destruct (_build_atempo_filter _ _); cbn; intros H; [|discriminate].
  injection H as _ <-. reflexivity.
Qed.

Lemma py_div_inv a b st r st' : py_div a b st = (Ok r, st') -> r = a / b /\ st' = st.
Proof.
  unfold py_div. destruct (Qeq_bool b 0); cbn; intros H; [discriminate|].
  injection H as <- <-. auto.
Qed.

(** What [play_mix] has prepared when it reaches the encoder. *)
Lemma play_mix_prepare_inv E start st r s1 :
  play_mix_prepare E start st = (Ok r, s1) ->
  r = inl no_duration \/
  exists p,
    r = inr p /\
    pr_start_position p = start /\
    pr_temp_path p
    = "/tmp/tmp" +:+ str_of_Z (Z.of_nat (w_next (st_world st))) +:+ ".wav" /\
    pr_concat_file_path p
    = (if truthy_list (audiobook_files (st_self st))
       then Some ("/tmp/tmp" +:+ str_of_Z (Z.of_nat (S (w_next (st_world st)))) +:+ ".txt")
       else None) /\
    streaming_process (st_self s1) = None /\
    st_self s1 = st_self (snd (stop_playback st)) /\
    w_player (st_world s1) = w_player (st_world (snd (stop_playback st))) /\
    is_Some (w_fs (st_world s1) !! pr_temp_path p).
Proof.
  intros H. unfold play_mix_prepare in H.
  destruct (stop_playback_effect st)
    as (st1 & Hstop & _ & Hproc & _ & _ & _ & _ & _ & _ & _ & Hnext & _).
  assert (audiobook_files (st_self st1) = audiobook_files (st_self st)) as Hfiles.
  { pose proof (stop_playback_same_sources st) as Hsame. rewrite Hstop in Hsame.
    symmetry. apply Hsame. }
  rewrite (bind_ok _ _ _ _ _ Hstop) in H; cbv beta in H.
  rewrite (bind_ok get_self _ st1 (st_self st1) st1 eq_refl) in H; cbv beta zeta in H.
  rewrite Hfiles in H.
  match type of H with
  | (match ?d with Some _ => _ | None => _ end) _ = _ => destruct d as [duration|]
  end.
  2: { injection H as <- <-. left. reflexivity. }
  right.
  apply bind_inv in H as (adjusted & s & Hdiv & H).
  apply py_div_inv in Hdiv as [-> ->].
  rewrite (bind_ok _ _ _ _ _ (named_temporary_file_step _ _ st1)) in H; cbv beta in H.
  apply bind_inv in H as (atempo & s & Hat & H).
  apply build_atempo_inv in Hat as ->.
  destruct (truthy_list (audiobook_files (st_self st))).
  - rewrite (bind_ok _ _ _ _ _ (named_temporary_file_step _ _ _)) in H; cbv beta in H.
    injection H as <- <-. eexists. split; [reflexivity|].
    cbn [pr_start_position pr_temp_path pr_concat_file_path st_self st_world
         w_next set_w_next set_w_fs].
    rewrite Hnext, Hstop. repeat split; try reflexivity; [exact Hproc|].
    cbn [w_fs set_w_fs set_w_next].
    rewrite lookup_insert_ne; [rewrite lookup_insert_eq; eauto|].
    apply temp_names_differ.
  - injection H as <- <-. eexists. split; [reflexivity|].
    cbn [pr_start_position pr_temp_path pr_concat_file_path st_self st_world].
    rewrite Hnext, Hstop. repeat split; try reflexivity; [exact Hproc|].
    cbn [w_fs set_w_fs set_w_next]. rewrite lookup_insert_eq. eauto.
Qed.


Lemma hoare_ret {A : Type} (P : State -> Prop) (a : A) (R : A -> State -> Prop) :
  (forall st, P st -> R a st) -> hoare P (ret a) R.
Proof. intros H st b st' HP [= <- <-]. apply H. exact HP. Qed.

Lemma hoare_raise {A : Type} (P : State -> Prop) e (R : A -> State -> Prop) :
  hoare P (raise e) R.
Proof. intros st b st' _ H. discriminate. Qed.

Lemma hoare_hang {A : Type} (P : State -> Prop) (R : A -> State -> Prop) :
  hoare P hang R.
Proof. intros st b st' _ H. discriminate. Qed.

Lemma hoare_bind {A B : Type} (P : State -> Prop) (m : M A) (f : A -> M B)
    (Q : A -> State -> Prop) (R : B -> State -> Prop) :
  hoare P m Q -> (forall a, hoare (Q a) (f a) R) -> hoare P (bind m f) R.
Proof.
  intros Hm Hf st b st' HP H. apply bind_inv in H as (a & st1 & Ha & H).
  eapply Hf; [|exact H]. eapply Hm; eassumption.
Qed.

(** When only the result matters, what comes before its last step does
    not. *)
Lemma hoare_bind_any {A B : Type} (P : State -> Prop) (m : M A) (f : A -> M B)
    (R : B -> State -> Prop) :
  (forall a, hoare (fun _ => True) (f a) R) -> hoare P (bind m f) R.
Proof.
  intros Hf. eapply hoare_bind; [|exact Hf]. intros st a st' _ _. exact I.
Qed.

Lemma hoare_try_except {A : Type} (P : State -> Prop) (body : M A) handler
    (R : A -> State -> Prop) :
  hoare P body R ->
  (forall e k, handler e = Some k -> hoare (fun _ => True) k R) ->
  hoare P (try_except body handler) R.
Proof.
  intros Hb Hh st a st' HP H. apply try_except_inv in H as [H|(e & st1 & k & _ & Hk & H)].
  - eapply Hb; eassumption.
  - eapply Hh; [exact Hk|exact I|exact H].
Qed.

(** A method all of whose results, whatever the state, have a property. *)
Ltac any_result :=
  repeat first
    [ apply hoare_ret; intros ? _
    | apply hoare_raise
    | apply hoare_hang
    | apply hoare_bind_any; intros ?
    | match goal with
      | |- hoare _ (match ?x with _ => _ end) _ => destruct x
      | |- hoare _ (if ?x then _ else _) _ => destruct x
      end ].

(** The polling loop of [play_mix] leaves the object alone, and when it
    ends the method it is with a failure. *)
Lemma play_mix_poll_keeps_object E p (Q : AudioProcessor -> Prop) rounds :
  forall retry_count,
    preserves (fun st => Q (st_self st)) (play_mix_poll E p rounds retry_count).
Proof.
  induction rounds as [|rounds IH]; intros retry_count; cbn [play_mix_poll].
  - apply preserves_ret.
  - unfold encoder_progress, write_file, update_proc, path_exists, getsize, sleep,
      proc_poll, proc_read_stderr.
    repeat first
      [ apply IH
      | apply preserves_ret
      | apply preserves_raise
      | apply preserves_get_world
      | apply preserves_get_self
      | apply preserves_update_world
      | apply preserves_bind; [|intros ?]
      | match goal with
        | |- preserves _ (match ?x with _ => _ end) => destruct x
        | |- preserves _ (if ?x then _ else _) => destruct x
        end ].
Qed.

Lemma play_mix_poll_fails E p rounds :
  forall retry_count,
    hoare (fun _ => True) (play_mix_poll E p rounds retry_count)
          (fun r _ => forall x, r = Some x -> fst x = false).
Proof.
  induction rounds as [|rounds IH]; intros retry_count; cbn [play_mix_poll].
  - apply hoare_ret. intros st _ x H. discriminate.
  - repeat first
      [ apply IH
      | apply hoare_ret; intros ? _ ? ?
      | apply hoare_raise
      | apply hoare_bind_any; intros ?
      | match goal with
        | |- hoare _ (match ?x with _ => _ end) _ => destruct x
        | |- hoare _ (if ?x then _ else _) _ => destruct x
        end ];
    try discriminate.
    match goal with H : Some _ = Some _ |- _ => injection H as <- end. reflexivity.
Qed.

Lemma play_mix_handler_fails concat e k :
  play_mix_handler concat e = Some k ->
  hoare (fun _ => True) k (fun r _ => fst r = false).
Proof.
  unfold play_mix_handler. destruct (is_Exception e); [|discriminate].
  intros [= <-]. any_result. reflexivity.
Qed.


(** The polling loop touches files, processes and the clock only. *)
Lemma play_mix_poll_keeps_player E p (K : AudioProcessor -> Player -> Prop) rounds :
  forall retry_count,
    preserves (fun st => K (st_self st) (w_player (st_world st)))
              (play_mix_poll E p rounds retry_count).
Proof.
  induction rounds as [|rounds IH]; intros retry_count; cbn [play_mix_poll].
  - apply preserves_ret.
  - unfold encoder_progress, write_file, update_proc, path_exists, getsize, sleep,
      proc_poll, proc_read_stderr.
    repeat first
      [ apply IH
      | apply preserves_ret
      | apply preserves_raise
      | apply preserves_get_world
      | apply preserves_get_self
      | apply preserves_bind; [|intros ?]
      | match goal with
        | |- preserves _ (match ?x with _ => _ end) => destruct x
        | |- preserves _ (if ?x then _ else _) => destruct x
        | |- preserves _ (update_world _) => intros ? H; exact H
        end ].
Qed.

Lemma play_mix_spawn_inv E p st u st' :
  play_mix_spawn E p st = (Ok u, st') ->
  st_self st' = with_streaming_process (Some (w_next (st_world st))) (st_self st) /\
  w_player (st_world st') = w_player (st_world st).
Proof.
  unfold play_mix_spawn. destruct (sr_spawn_error _); [discriminate|].
  intros [= _ <-]. split; reflexivity.
Qed.

Lemma path_exists_inv p st b st' :
  path_exists p st = (Ok b, st') ->
  st' = st /\ b = match w_fs (st_world st) !! p with Some _ => true | None => false end.
Proof. intros [= <- <-]. auto. Qed.

Lemma getsize_inv p st size st' :
  getsize p st = (Ok size, st') ->
  st' = st /\ exists f, w_fs (st_world st) !! p = Some f /\ size = file_size f.
Proof.
  unfold getsize, bind, get_world. cbn.
  destruct (w_fs (st_world st) !! p) as [f|]; intros H; [|discriminate].
  injection H as <- <-. eauto.
Qed.

(** The clause [except pygame.error] of [play_mix] ends with a failure. *)
Lemma play_mix_load_error_fails (concat : option string) temp_path msg :
  hoare (fun _ => True)
    (self <- get_self ;;
     match streaming_process self with
     | Some pid =>
         _ <- proc_read_stderr pid ;;
         proc_terminate pid ;;
         update_self (with_streaming_process None)
     | None => ret tt
     end ;;
     match concat with
     | Some c =>
         present <- path_exists c ;;
         if truthy_str (Some c) && present then try_pass (unlink c) else ret tt
     | None => ret tt
     end ;;
     size <- getsize temp_path ;;
     ret (false, "Playback error: " +:+ msg +:+ ". File size: "
                 +:+ str_of_Z size +:+ " bytes. Check ffmpeg output."))
    (fun r _ => fst r = false).
Proof. any_result. reflexivity. Qed.

(** The cleanup of the playlist: [if concat_file_path and
    os.path.exists(concat_file_path): try: os.unlink(...) except: pass]. *)
Lemma unlink_concat_file_effect concat st :
  exists st',
    unlink_concat_file concat st = (Ok tt, st') /\
    st_self st' = st_self st /\
    w_fs (st_world st') =
      match concat with
      | Some c => if truthy_str (Some c) then delete c (w_fs (st_world st))
                  else w_fs (st_world st)
      | None => w_fs (st_world st)
      end /\
    w_procs (st_world st') = w_procs (st_world st) /\
    w_player (st_world st') = w_player (st_world st) /\
    w_clock (st_world st') = w_clock (st_world st) /\
    w_next (st_world st') = w_next (st_world st) /\
    w_progress (st_world st') = w_progress (st_world st).
Proof.
  unfold unlink_concat_file. destruct concat as [c|].
  2: { exists st. repeat split; reflexivity. }
  unfold path_exists, try_pass, try_except, unlink, update_world, get_world, bind, ret, raise.
  cbn [fst snd st_world w_fs].
  destruct (w_fs (st_world st) !! c) eqn:Ec; destruct (truthy_str (Some c));
    cbn [andb]; try rewrite Ec; eexists; (split; [reflexivity|]);
    cbn; repeat split; try reflexivity.
  symmetry. apply delete_id. exact Ec.
Qed.

(** What a successful end of [play_mix] leaves. *)
Lemma play_mix_start_inv E p st msg st' :
  pr_concat_file_path p <> Some (pr_temp_path p) ->
  play_mix_start E p st = (Ok (true, msg), st') ->
  msg = "Streaming mixed audio (starting from "
        +:+ format_fixed 0 (pr_start_position p) +:+ "s)..." /\
  st_self st'
  = with_playback_start_position (pr_start_position p)
      (with_playback_start_time (w_clock (st_world st))
         (with_current_playback_file (Some (pr_temp_path p))
            (with_is_playing true (st_self st)))) /\
  w_player (st_world st')
  = {| pl_loaded := Some (pr_temp_path p); pl_playing := true; pl_paused := false;
       pl_volume := pl_volume (w_player (st_world st)) |} /\
  w_clock (st_world st') = w_clock (st_world st) /\
  (exists f, w_fs (st_world st') !! pr_temp_path p = Some f /\
             (min_file_size <= file_size f)%Z) /\
  (forall c, pr_concat_file_path p = Some c -> truthy_str (Some c) = true ->
             w_fs (st_world st') !! c = None).
Proof.
  intros Hdiff H. unfold play_mix_start in H. cbv zeta in H.
  apply bind_inv in H as (present & s & Hp & H).
  apply path_exists_inv in Hp as [-> ->].
  destruct (w_fs (st_world st) !! pr_temp_path p) as [f|] eqn:Hf; cbn [negb] in H;
    [|unfold ret in H; congruence].
  apply bind_inv in H as (size & s & Hs & H).
  apply getsize_inv in Hs as (-> & f' & Hf' & ->).
  rewrite Hf in Hf'. injection Hf' as <-.
  destruct (file_size f <? min_file_size)%Z eqn:Hsize; [unfold ret in H; congruence|].
  apply Z.ltb_ge in Hsize.
  apply try_except_inv in H as [H|(e & s & k & _ & Hk & H)].
  2: { exfalso. destruct e as [| |msg0|]; try discriminate.
       injection Hk as <-.
       pose proof (play_mix_load_error_fails _ _ _ s _ _ I H) as Hfalse.
       discriminate Hfalse. }
  unfold music_load in H.
  destruct (sr_load_error (stream_engine E (pr_cmd p))); [discriminate H|].
  apply bind_inv in H as (u1 & s1 & Hstep & H). injection Hstep as _ <-.
  apply bind_inv in H as (u2 & s2 & Hstep & H).
  rewrite update_playback_volume_effect in Hstep.
  cbn [st_self st_world w_player set_w_player get_busy pl_playing andb] in Hstep.
  rewrite andb_false_r in Hstep. injection Hstep as _ <-.
  apply bind_inv in H as (u3 & s3 & Hstep & H). injection Hstep as _ <-.
  apply bind_inv in H as (u4 & s4 & Hstep & H). injection Hstep as _ <-.
  apply bind_inv in H as (u5 & s5 & Hstep & H). injection Hstep as _ <-.
  apply bind_inv in H as (now & s6 & Hstep & H). injection Hstep as <- <-.
  apply bind_inv in H as (u7 & s7 & Hstep & H). injection Hstep as _ <-.
  apply bind_inv in H as (u8 & s8 & Hstep & H). injection Hstep as _ <-.
  apply bind_inv in H as (u9 & s9 & Hstep & H). injection H as <- <-.
  change (unlink_concat_file (pr_concat_file_path p)
            {| st_world :=
                 set_w_player
                   {| pl_loaded := Some (pr_temp_path p); pl_playing := true;
                      pl_paused := false;
                      pl_volume := pl_volume (w_player (st_world st)) |}
                   (set_w_player
                      {| pl_loaded := Some (pr_temp_path p); pl_playing := false;
                         pl_paused := false;
                         pl_volume := pl_volume (w_player (st_world st)) |}
                      (st_world st));
               st_self :=
                 with_playback_start_position (pr_start_position p)
                   (with_playback_start_time (w_clock (st_world st))
                      (with_current_playback_file (Some (pr_temp_path p))
                         (with_is_playing true (st_self st)))) |}
          = (Ok u9, s9)) in Hstep.
  match type of Hstep with
  | unlink_concat_file _ ?s0 = _ =>
      destruct (unlink_concat_file_effect (pr_concat_file_path p) s0)
        as (s & Hs & Hself & Hfs & _ & Hplayer & Hclock & _)
  end.
  rewrite Hs in Hstep. injection Hstep as _ <-.
  cbn [st_self st_world w_player w_clock w_fs set_w_player] in Hself, Hfs, Hplayer, Hclock.
  split; [reflexivity|]. split; [exact Hself|]. split; [exact Hplayer|].
  split; [exact Hclock|]. rewrite Hfs. split.
  - exists f. split; [|exact Hsize].
    destruct (pr_concat_file_path p) as [c|]; [|exact Hf].
    destruct (truthy_str (Some c)); [|exact Hf].
    rewrite lookup_delete_ne; [exact Hf|]. intros ->. apply Hdiff. reflexivity.
  - intros c Hc Htruthy. rewrite Hc, Htruthy. apply lookup_delete_eq.
Qed.

(** X18.  What [play_mix] has done whenever it returns [True].  The message
    names the start position; the flag [is_playing] is set and an encoder
    is recorded; the player is busy with the file that
    [current_playback_file] names, which holds at least 200000 bytes; the
    position clock is anchored at the start position and at the present
    time, so that [get_playback_position] returns the start position; the
    playlist written for a folder is gone again.  The sources and settings
    of the object are as before, and so is the volume of the mixer: the
    initial volume is set before the player is busy, to no effect. *)
Theorem play_mix_started E (start : Q) (st : State) (msg : string) (st' : State) :
  play_mix E start st = (Ok (true, msg), st') ->
  msg = "Streaming mixed audio (starting from " +:+ format_fixed 0 start +:+ "s)..." /\
  is_playing (st_self st') = true /\
  (exists pid, streaming_process (st_self st') = Some pid) /\
  (exists temp f,
     current_playback_file (st_self st') = Some temp /\
     pl_loaded (w_player (st_world st')) = Some temp /\
     w_fs (st_world st') !! temp = Some f /\ (200000 <= file_size f)%Z) /\
  get_busy (w_player (st_world st')) = true /\
  playback_start_position (st_self st') = start /\
  playback_start_time (st_self st') = w_clock (st_world st') /\
  (exists position, get_playback_position st' = (Ok position, st') /\ position == start) /\
  (truthy_list (audiobook_files (st_self st)) = true ->
   w_fs (st_world st')
     !! ("/tmp/tmp" +:+ str_of_Z (Z.of_nat (S (w_next (st_world st)))) +:+ ".txt") = None) /\
  same_sources (st_self st) (st_self st') /\
  pl_volume (w_player (st_world st')) = pl_volume (w_player (st_world st)).
Proof.
  intros H. unfold play_mix in H.
  rewrite (bind_ok get_self _ st (st_self st) st eq_refl) in H; cbv beta zeta in H.
  destruct (negb _ || negb _); [unfold ret, need_both in H; congruence|].
  apply bind_inv in H as (prepared & s1 & Hprep & H).
  apply try_except_inv in Hprep as [Hprep|(e & s0 & k & _ & Hk & Hprep)].
  2: { exfalso. unfold option_map in Hk.
       destruct (play_mix_handler None e) as [k0|] eqn:Hk0; [|discriminate].
       injection Hk as <-. apply bind_inv in Hprep as (r & s & Hr & Hprep).
       injection Hprep as <- <-. cbn in H. injection H as -> _.
       pose proof (play_mix_handler_fails _ _ _ Hk0 _ _ _ I Hr) as Hfalse.
       discriminate Hfalse. }
  apply play_mix_prepare_inv in Hprep
    as [->|(p & -> & Hpos & Htemp & Hconcat & _ & Hself1 & Hplayer1 & _)].
  { unfold ret, no_duration in H. congruence. }
  apply try_except_inv in H as [H|(e & s0 & k & _ & Hk & H)].
  2: { exfalso. pose proof (play_mix_handler_fails _ _ _ Hk _ _ _ I H) as Hfalse.
       discriminate Hfalse. }
  apply bind_inv in H as (u & s2 & Hspawn & H).
  apply play_mix_spawn_inv in Hspawn as (Hself2 & Hplayer2).
  apply bind_inv in H as (u' & s3 & Hsleep & H). injection Hsleep as _ <-.
  apply bind_inv in H as (early & s4 & Hpoll & H).
  destruct early as [r|].
  { exfalso. pose proof (play_mix_poll_fails E p 20 0 _ _ _ I Hpoll r eq_refl) as Hfalse.
    injection H as -> _. discriminate Hfalse. }
  match type of Hpoll with
  | play_mix_poll _ _ _ _ ?s3 = _ =>
      pose proof (play_mix_poll_keeps_player E p
                    (fun self pl => self = st_self s2 /\ pl = w_player (st_world s2))
                    20 0 s3 (conj eq_refl eq_refl)) as Hkeep
  end.
  rewrite Hpoll in Hkeep. cbn [snd] in Hkeep. destruct Hkeep as [Hself4 Hplayer4].
  apply play_mix_start_inv in H as (Hmsg & Hself' & Hplayer' & Hclock' & Hfile & Hgone).
  2: { rewrite Htemp, Hconcat. destruct (truthy_list _); [|discriminate].
       intros [= Heq]. cbn [append] in Heq. exact (suffix_differs _ _ Heq). }
  destruct (stop_playback_effect st)
    as (st1 & Hstop & _ & _ & _ & _ & _ & _ & _ & Hvolume & _).
  pose proof (stop_playback_same_sources st) as Hsame.
  rewrite Hstop in Hself1, Hplayer1, Hsame. cbn [snd] in Hself1, Hplayer1, Hsame.
  rewrite Hself4, Hself2, Hself1 in Hself'. rewrite Hpos in Hmsg, Hself'.
  split; [exact Hmsg|]. rewrite Hself'.
  split; [reflexivity|]. split; [eexists; reflexivity|].
  split.
  { destruct Hfile as (f & Hf & Hsize). exists (pr_temp_path p), f.
    split; [reflexivity|]. rewrite Hplayer'. split; [reflexivity|].
    split; [exact Hf|exact Hsize]. }
  split; [rewrite Hplayer'; reflexivity|].
  split; [reflexivity|].
  split; [cbn; symmetry; exact Hclock'|].
  split.
  { exists (start + (w_clock (st_world st') - w_clock (st_world s4))).
    split; [|rewrite Hclock'; ring].
    unfold get_playback_position.
    rewrite (bind_ok get_self _ st' (st_self st') st' eq_refl); cbv beta.
    rewrite Hself'. reflexivity. }
  split.
  { intros Hfolder. apply Hgone; [|reflexivity]. rewrite Hconcat, Hfolder. reflexivity. }
  split.
  { unfold same_sources in *. cbn. exact Hsame. }
  rewrite Hplayer'. cbn [pl_volume]. rewrite Hplayer4, Hplayer2, Hplayer1. exact Hvolume.
Qed.

Lemma play_mix_started_witness :
  play_mix quiet_env 50 sample_single
  = (Ok (true, "Streaming mixed audio (starting from 50s)..."), sample_playing) /\
  is_playing (st_self sample_playing) = true /\
  playback_start_position (st_self sample_playing) = 50.
Proof.
  assert (play_mix quiet_env 50 sample_single
          = (Ok (true, "Streaming mixed audio (starting from 50s)..."), sample_playing))
    as Hrun by (vm_compute; reflexivity).
  split; [exact Hrun|].
  destruct (play_mix_started quiet_env 50 sample_single _ _ Hrun)
    as (_ & Hplaying & _ & _ & _ & Hpos & _).
  split; assumption.
Defined.

(* --------------------------------------------------------------------- *)
(** ** What a preview leaves alone *)
(* --------------------------------------------------------------------- *)

Lemma preserves_hang {A : Type} P : preserves P (@hang A).
Proof. intros st H. exact H. Qed.

Section PlaybackFrame.

(** A property of the object that does not depend on the four fields that
    playing a preview writes. *)
Variable K : AudioProcessor -> Prop.
Hypothesis K_is_playing : forall b s, K s -> K (with_is_playing b s).
Hypothesis K_streaming_process : forall o s, K s -> K (with_streaming_process o s).
Hypothesis K_current_playback_file : forall o s, K s -> K (with_current_playback_file o s).
Hypothesis K_current_pygame_volume : forall v s, K s -> K (with_current_pygame_volume v s).

Ltac frame_only :=
  repeat first
    [ apply preserves_ret
    | apply preserves_raise
    | apply preserves_hang
    | apply preserves_get_world
    | apply preserves_get_self
    | apply preserves_update_world
    | apply preserves_try_pass
    | apply preserves_bind; [|intros ?]
    | match goal with
      | |- preserves _ (update_self (with_is_playing _)) =>
          intros ? ?; apply K_is_playing; assumption
      | |- preserves _ (update_self (with_streaming_process _)) =>
          intros ? ?; apply K_streaming_process; assumption
      | |- preserves _ (update_self (with_current_playback_file _)) =>
          intros ? ?; apply K_current_playback_file; assumption
      | |- preserves _ (update_self (with_current_pygame_volume _)) =>
          intros ? ?; apply K_current_pygame_volume; assumption
      | |- preserves _ (match ?x with _ => _ end) => destruct x
      | |- preserves _ (if ?x then _ else _) => destruct x
      end ].

Lemma frame_stop_playback : preserves (fun st => K (st_self st)) stop_playback.
Proof.
  unfold stop_playback. apply preserves_try_except.
  - unfold music_stop, update_player, terminate_then_kill, proc_terminate,
      proc_wait_timeout, proc_kill, update_proc, path_exists, sleep, unlink.
    frame_only; apply preserves_try_except; frame_only; intros ? ? [= <-]; frame_only.
  - intros e k. destruct (is_Exception e); intros [= <-]. frame_only.
Qed.

Lemma frame_update_playback_volume E :
  preserves (fun st => K (st_self st)) (_update_playback_volume E).
Proof.
  unfold _update_playback_volume, music_get_busy, music_set_volume, update_player.
  frame_only.
Qed.

Lemma frame_unlink_concat_file concat :
  preserves (fun st => K (st_self st)) (unlink_concat_file concat).
Proof. unfold unlink_concat_file, path_exists, unlink. frame_only. Qed.

Lemma frame_preview_handler concat e k :
  preview_handler concat e = Some k -> preserves (fun st => K (st_self st)) k.
Proof.
  unfold preview_handler. destruct (is_Exception e); intros [= <-].
  apply preserves_bind; [apply frame_unlink_concat_file|]. intros _. apply preserves_ret.
Qed.

Lemma frame_mix_audio E : preserves (fun st => K (st_self st)) (mix_audio E).
Proof. unfold mix_audio. frame_only. Qed.

Lemma frame_named_temporary_file suffix f :
  preserves (fun st => K (st_self st)) (named_temporary_file suffix f).
Proof. unfold named_temporary_file. frame_only. Qed.

Lemma frame_preview_in_memory E slice export_wav wav_load_error duration_seconds start :
  preserves (fun st => K (st_self st))
            (preview_in_memory E slice export_wav wav_load_error duration_seconds start).
Proof.
  unfold preview_in_memory.
  apply preserves_bind; [apply frame_mix_audio|]. intros mixed.
  destruct (fst mixed) as [mixed_audio|]; [|apply preserves_ret].
  destruct (truthy_segment _); [|apply preserves_ret].
  destruct (_ <=? _)%Z; [apply preserves_ret|].
  apply preserves_bind; [apply frame_named_temporary_file|]. intros temp_path.
  destruct (export_wav _ _); [apply preserves_raise|].
  unfold write_file, music_load, music_play, update_player.
  apply preserves_bind; [frame_only|]. intros _.
  apply preserves_bind; [frame_only|]. intros _.
  apply preserves_bind; [apply frame_update_playback_volume|]. intros _.
  frame_only.
Qed.

Lemma frame_preview_prepare duration_seconds start :
  preserves (fun st => K (st_self st)) (preview_prepare duration_seconds start).
Proof.
  unfold preview_prepare, build_atempo.
  apply preserves_bind; [apply frame_named_temporary_file|]. intros temp_path.
  apply preserves_bind; [frame_only|]. intros atempo_filter.
  apply preserves_bind; [frame_only|]. intros self.
  destruct (truthy_list _); [|apply preserves_ret].
  apply preserves_bind; [apply frame_named_temporary_file|]. intros c. apply preserves_ret.
Qed.

Lemma frame_play_mix_spawn E p : preserves (fun st => K (st_self st)) (play_mix_spawn E p).
Proof. unfold play_mix_spawn, spawn. frame_only. Qed.

Lemma frame_preview_poll E p rounds :
  forall retry_count,
    preserves (fun st => K (st_self st)) (preview_poll E p rounds retry_count).
Proof.
  induction rounds as [|rounds IH]; intros retry_count; cbn [preview_poll].
  - apply preserves_ret.
  - unfold encoder_progress, write_file, update_proc, path_exists, getsize, sleep,
      proc_poll, proc_read_stderr.
    repeat first [ apply IH | progress frame_only ].
Qed.

Lemma frame_preview_start E p duration_seconds :
  preserves (fun st => K (st_self st)) (preview_start E p duration_seconds).
Proof.
  unfold preview_start. cbv zeta.
  apply preserves_bind; [unfold path_exists; frame_only|]. intros present.
  apply preserves_bind; [unfold getsize; frame_only|]. intros ready.
  destruct (negb ready); [apply preserves_ret|].
  apply preserves_try_except.
  - unfold music_load, music_play, update_player.
    apply preserves_bind; [frame_only|]. intros _.
    apply preserves_bind; [apply frame_update_playback_volume|]. intros _.
    apply preserves_bind; [frame_only|]. intros _.
    apply preserves_bind; [frame_only|]. intros _.
    apply preserves_bind; [frame_only|]. intros _.
    apply preserves_bind; [apply frame_unlink_concat_file|]. intros _.
    apply preserves_ret.
  - intros e k. destruct e; try discriminate. intros [= <-].
    apply preserves_bind; [apply preserves_get_self|]. intros self.
    apply preserves_bind.
    { unfold proc_read_stderr, proc_terminate, update_proc. frame_only. }
    intros stderr_output.
    apply preserves_bind; [apply frame_unlink_concat_file|]. intros _.
    apply preserves_ret.
Qed.

(** Whatever [preview_mix] returns, it has written no other field of the
    object than [is_playing], [streaming_process], [current_playback_file]
    and [current_pygame_volume]. *)
Lemma frame_preview_mix E slice export_wav wav_load_error duration_seconds start :
  preserves (fun st => K (st_self st))
            (preview_mix E slice export_wav wav_load_error duration_seconds start).
Proof.
  unfold preview_mix.
  apply preserves_bind; [apply preserves_get_self|]. intros self.
  destruct (_ || _); [apply preserves_ret|].
  apply preserves_bind.
  - apply preserves_try_except.
    + apply preserves_bind; [apply frame_stop_playback|]. intros _.
      apply preserves_bind; [apply preserves_get_self|]. intros self'.
      destruct (_ && _).
      * apply preserves_bind; [apply frame_preview_in_memory|]. intros r.
        apply preserves_ret.
      * apply preserves_bind; [apply frame_preview_prepare|]. intros p.
        apply preserves_ret.
    + intros e k Hk. unfold option_map in Hk.
      destruct (preview_handler None e) as [k0|] eqn:Hk0; [|discriminate].
      injection Hk as <-.
      apply preserves_bind; [exact (frame_preview_handler _ _ _ Hk0)|]. intros r.
      apply preserves_ret.
  - intros [early|p]; [apply preserves_ret|].
    apply preserves_try_except; [|apply frame_preview_handler].
    apply preserves_bind; [apply frame_play_mix_spawn|]. intros _.
    apply preserves_bind; [unfold sleep; frame_only|]. intros _.
    apply preserves_bind; [apply frame_preview_poll|]. intros [r|];
      [apply preserves_ret|apply frame_preview_start].
Qed.

End PlaybackFrame.

(* --------------------------------------------------------------------- *)
(** ** A preview that has started *)
(* --------------------------------------------------------------------- *)

Lemma mix_audio_inv E st r st' : mix_audio E st = (Ok r, st') -> st' = st.
Proof.
  unfold mix_audio. rewrite (bind_ok get_self _ st (st_self st) st eq_refl); cbv beta.
  destruct (audiobook (st_self st)) as [book|]; [|intros [= _ <-]; reflexivity].
  destruct (background_music (st_self st)) as [music|]; [|intros [= _ <-]; reflexivity].
  destruct (_ && _); [|intros [= _ <-]; reflexivity].
  destruct (pydub_mix _ _ _ _ _ _) as [e|mixed]; [|intros [= _ <-]; reflexivity].
  destruct (is_Exception e); [intros [= _ <-]; reflexivity|discriminate].
Qed.

(** The preview of a mix made in memory: what is played is the window from
    the start position that is cut at the end of the mix. *)
Lemma preview_in_memory_inv E slice export_wav wav_load_error d start st msg st' :
  preview_in_memory E slice export_wav wav_load_error d start st = (Ok (true, msg), st') ->
  exists mixed_audio size,
    let start_ms := py_int (start * 1000) in
    let end_ms := Qmin (inject_Z start_ms + d * 1000) (inject_Z (seg_ms mixed_audio)) in
    let temp := "/tmp/tmp" +:+ str_of_Z (Z.of_nat (w_next (st_world st))) +:+ ".wav" in
    (start_ms < seg_ms mixed_audio)%Z /\
    msg = [TStr ("Playing " +:+ format_fixed 1 ((end_ms - inject_Z start_ms) / 1000)
                 +:+ "s from " +:+ format_fixed 1 start +:+ "s...")] /\
    st_self st' = with_current_playback_file (Some temp) (with_is_playing true (st_self st)) /\
    w_player (st_world st')
    = {| pl_loaded := Some temp; pl_playing := true; pl_paused := false;
         pl_volume := pl_volume (w_player (st_world st)) |} /\
    w_fs (st_world st') !! temp = Some (DataFile size) /\
    w_clock (st_world st') = w_clock (st_world st).
Proof.
  intros H. unfold preview_in_memory in H.
  apply bind_inv in H as (mixed & s & Hmix & H).
  apply mix_audio_inv in Hmix as ->. cbv zeta in H.
  destruct (fst mixed) as [mixed_audio|]; [|unfold ret in H; congruence].
  destruct (truthy_segment _); [|unfold ret in H; congruence].
  destruct (seg_ms mixed_audio <=? py_int (start * 1000))%Z eqn:Hlen;
    [unfold ret in H; congruence|].
  apply Z.leb_gt in Hlen.
  rewrite (bind_ok _ _ _ _ _ (named_temporary_file_step _ _ st)) in H; cbv beta in H.
  destruct (export_wav _ _) as [e|size]; [discriminate H|].
  apply bind_inv in H as (u1 & s1 & Hstep & H). injection Hstep as _ <-.
  unfold music_load in H.
  destruct wav_load_error; [discriminate H|].
  apply bind_inv in H as (u2 & s2 & Hstep & H). injection Hstep as _ <-.
  apply bind_inv in H as (u3 & s3 & Hstep & H).
  rewrite update_playback_volume_effect in Hstep.
  cbn [st_self st_world w_player set_w_player get_busy pl_playing andb] in Hstep.
  rewrite andb_false_r in Hstep. injection Hstep as _ <-.
  apply bind_inv in H as (u4 & s4 & Hstep & H). injection Hstep as _ <-.
  apply bind_inv in H as (u5 & s5 & Hstep & H). injection Hstep as _ <-.
  apply bind_inv in H as (u6 & s6 & Hstep & H). injection Hstep as _ <-.
  injection H as <- <-.
  exists mixed_audio, size. cbv zeta.
  split; [exact Hlen|]. split; [reflexivity|]. split; [reflexivity|].
  split; [reflexivity|]. split; [|reflexivity].
  cbn [st_world w_fs set_w_fs set_w_player set_w_next]. apply lookup_insert_eq.
Qed.

Lemma preview_prepare_inv d start st p s1 :
  preview_prepare d start st = (Ok p, s1) ->
  pr_start_position p = start /\
  pr_temp_path p
  = "/tmp/tmp" +:+ str_of_Z (Z.of_nat (w_next (st_world st))) +:+ ".wav" /\
  pr_concat_file_path p
  = (if truthy_list (audiobook_files (st_self st))
     then Some ("/tmp/tmp" +:+ str_of_Z (Z.of_nat (S (w_next (st_world st)))) +:+ ".txt")
     else None) /\
  In [TNum d] (pr_cmd p) /\
  st_self s1 = st_self st /\
  w_player (st_world s1) = w_player (st_world st).
Proof.
  intros H. unfold preview_prepare in H.
  rewrite (bind_ok _ _ _ _ _ (named_temporary_file_step _ _ st)) in H; cbv beta in H.
  apply bind_inv in H as (atempo & s & Hat & H).
  apply build_atempo_inv in Hat as ->.
  match type of H with
  | bind get_self _ ?s0 = _ =>
      rewrite (bind_ok get_self _ s0 (st_self s0) s0 eq_refl) in H; cbv beta zeta in H
  end.
  cbn [st_self] in H.
  destruct (truthy_list (audiobook_files (st_self st))).
  - rewrite (bind_ok _ _ _ _ _ (named_temporary_file_step _ _ _)) in H; cbv beta in H.
    injection H as <- <-.
    cbn [pr_start_position pr_temp_path pr_concat_file_path pr_cmd st_self st_world
         w_next set_w_next set_w_fs w_player].
    repeat split; try reflexivity.
    cbn. repeat (first [left; reflexivity | right]).
  - injection H as <- <-.
    cbn [pr_start_position pr_temp_path pr_concat_file_path pr_cmd st_self st_world
         w_next set_w_next set_w_fs w_player].
    repeat split; try reflexivity.
    cbn. repeat (first [left; reflexivity | right]).
Qed.

(** The polling loop of [preview_mix] touches files, processes and the
    clock only, and when it ends the method it is with a failure. *)
Lemma preview_poll_keeps_player E p (K : AudioProcessor -> Player -> Prop) rounds :
  forall retry_count,
    preserves (fun st => K (st_self st) (w_player (st_world st)))
              (preview_poll E p rounds retry_count).
Proof.
  induction rounds as [|rounds IH]; intros retry_count; cbn [preview_poll].
  - apply preserves_ret.
  - unfold encoder_progress, write_file, update_proc, path_exists, getsize, sleep,
      proc_poll, proc_read_stderr.
    repeat first
      [ apply IH
      | apply preserves_ret
      | apply preserves_raise
      | apply preserves_get_world
      | apply preserves_get_self
      | apply preserves_bind; [|intros ?]
      | match goal with
        | |- preserves _ (match ?x with _ => _ end) => destruct x
        | |- preserves _ (if ?x then _ else _) => destruct x
        | |- preserves _ (update_world _) => intros ? H; exact H
        end ].
Qed.

Lemma preview_poll_fails E p rounds :
  forall retry_count,
    hoare (fun _ => True) (preview_poll E p rounds retry_count)
          (fun r _ => forall x, r = Some x -> fst x = false).
Proof.
  induction rounds as [|rounds IH]; intros retry_count; cbn [preview_poll].
  - apply hoare_ret. intros st _ x H. discriminate.
  - repeat first
      [ apply IH
      | apply hoare_ret; intros ? _ ? ?
      | apply hoare_raise
      | apply hoare_bind_any; intros ?
      | match goal with
        | |- hoare _ (match ?x with _ => _ end) _ => destruct x
        | |- hoare _ (if ?x then _ else _) _ => destruct x
        end ];
    try discriminate.
    match goal with H : Some _ = Some _ |- _ => injection H as <- end. reflexivity.
Qed.

Lemma preview_handler_fails concat e k :
  preview_handler concat e = Some k ->
  hoare (fun _ => True) k (fun r _ => fst r = false).
Proof.
  unfold preview_handler. destruct (is_Exception e); [|discriminate].
  intros [= <-]. unfold unlink_concat_file. any_result. reflexivity.
Qed.

(** The clause [except pygame.error] of [preview_mix] ends with a failure. *)
Lemma preview_load_error_fails (concat : option string) msg :
  hoare (fun _ => True)
    (self <- get_self ;;
     stderr_output <-
       match streaming_process self with
       | Some pid =>
           stderr_output <- proc_read_stderr pid ;;
           proc_terminate pid ;;
           update_self (with_streaming_process None) ;;
           ret (Some stderr_output)
       | None => ret None
       end ;;
     unlink_concat_file concat ;;
     ret (false, [TStr ("Preview playback error: " +:+ msg
                        +:+ ". Check ffmpeg: "
                        +:+ match stderr_output with
                            | Some text => str_last 200 text
                            | None => "no error log"
                            end)]))
    (fun r _ => fst r = false).
Proof. unfold unlink_concat_file. any_result; reflexivity. Qed.

(** What a successful end of the streaming [preview_mix] leaves. *)
Lemma preview_start_inv E p d st msg st' :
  pr_concat_file_path p <> Some (pr_temp_path p) ->
  preview_start E p d st = (Ok (true, msg), st') ->
  msg = [TStr "Streaming "; TNum d;
         TStr ("s preview from " +:+ format_fixed 0 (pr_start_position p) +:+ "s...")] /\
  st_self st'
  = with_current_playback_file (Some (pr_temp_path p)) (with_is_playing true (st_self st)) /\
  w_player (st_world st')
  = {| pl_loaded := Some (pr_temp_path p); pl_playing := true; pl_paused := false;
       pl_volume := pl_volume (w_player (st_world st)) |} /\
  w_clock (st_world st') = w_clock (st_world st) /\
  (exists f, w_fs (st_world st') !! pr_temp_path p = Some f /\
             (preview_min_file_size <= file_size f)%Z) /\
  (forall c, pr_concat_file_path p = Some c -> truthy_str (Some c) = true ->
             w_fs (st_world st') !! c = None).
Proof.
  intros Hdiff H. unfold preview_start in H. cbv zeta in H.
  apply bind_inv in H as (present & s & Hp & H).
  apply path_exists_inv in Hp as [-> ->].
  apply bind_inv in H as (ready & s & Hready & H).
  destruct (w_fs (st_world st) !! pr_temp_path p) as [f|] eqn:Hf.
  2: { injection Hready as <- <-. cbn [negb] in H. unfold ret in H. congruence. }
  apply bind_inv in Hready as (size & s0 & Hs & Hready).
  apply getsize_inv in Hs as (-> & f' & Hf' & ->).
  rewrite Hf in Hf'. injection Hf' as <-. injection Hready as <- <-.
  destruct (file_size f <? preview_min_file_size)%Z eqn:Hsize; cbn [negb] in H;
    [unfold ret in H; congruence|].
  apply Z.ltb_ge in Hsize.
  apply try_except_inv in H as [H|(e & s & k & _ & Hk & H)].
  2: { exfalso. destruct e as [| |msg0|]; try discriminate.
       injection Hk as <-.
       pose proof (preview_load_error_fails _ _ s _ _ I H) as Hfalse.
       discriminate Hfalse. }
  unfold music_load in H.
  destruct (sr_load_error (stream_engine E (pr_cmd p))); [discriminate H|].
  apply bind_inv in H as (u1 & s1 & Hstep & H). injection Hstep as _ <-.
  apply bind_inv in H as (u2 & s2 & Hstep & H).
  rewrite update_playback_volume_effect in Hstep.
  cbn [st_self st_world w_player set_w_player get_busy pl_playing andb] in Hstep.
  rewrite andb_false_r in Hstep. injection Hstep as _ <-.
  apply bind_inv in H as (u3 & s3 & Hstep & H). injection Hstep as _ <-.
  apply bind_inv in H as (u4 & s4 & Hstep & H). injection Hstep as _ <-.
  apply bind_inv in H as (u5 & s5 & Hstep & H). injection Hstep as _ <-.
  apply bind_inv in H as (u9 & s9 & Hstep & H). injection H as <- <-.
  match type of Hstep with
  | unlink_concat_file _ ?s0 = _ =>
      destruct (unlink_concat_file_effect (pr_concat_file_path p) s0)
        as (s & Hs & Hself & Hfs & _ & Hplayer & Hclock & _)
  end.
  rewrite Hs in Hstep. injection Hstep as _ <-.
  cbn [st_self st_world w_player w_clock w_fs set_w_player] in Hself, Hfs, Hplayer, Hclock.
  split; [reflexivity|]. split; [exact Hself|]. split; [exact Hplayer|].
  split; [exact Hclock|]. rewrite Hfs. split.
  - exists f. split; [|exact Hsize].
    destruct (pr_concat_file_path p) as [c|]; [|exact Hf].
    destruct (truthy_str (Some c)); [|exact Hf].
    rewrite lookup_delete_ne; [exact Hf|]. intros ->. apply Hdiff. reflexivity.
  - intros c Hc Htruthy. rewrite Hc, Htruthy. apply lookup_delete_eq.
Qed.

Lemma preview_window (s len : Z) (d : Q) :
  (s < len)%Z ->
  (Qmin (inject_Z s + d * 1000) (inject_Z len) - inject_Z s) / 1000 <= d /\
  (0 < d -> 0 < (Qmin (inject_Z s + d * 1000) (inject_Z len) - inject_Z s) / 1000).
Proof.
  intros Hlt. rewrite Zlt_Qlt in Hlt.
  destruct (Q.min_spec (inject_Z s + d * 1000) (inject_Z len)) as [[Hc ->]|[Hc ->]].
  - split; [apply Qle_shift_div_r|intros Hd; apply Qlt_shift_div_l]; lra.
  - split; [apply Qle_shift_div_r|intros Hd; apply Qlt_shift_div_l]; lra.
Qed.

(** X19.  What [preview_mix] has done whenever it returns [True].  The flag
    [is_playing] is set and the player is busy with the file that
    [current_playback_file] names, which exists.  The message is that of
    the in-memory preview, with a duration that is at most the requested
    one, or that of the streaming preview.  Sources, settings and the mixer
    volume are as before.  So are the two anchors of the position clock: a
    preview does not set them, and [get_playback_position] afterwards still
    counts from the anchors of the playback before. *)
Theorem preview_mix_started E slice export_wav wav_load_error (d start : Q)
    (st : State) (msg : Arg) (st' : State) :
  preview_mix E slice export_wav wav_load_error d start st = (Ok (true, msg), st') ->
  is_playing (st_self st') = true /\
  (exists temp f,
     current_playback_file (st_self st') = Some temp /\
     pl_loaded (w_player (st_world st')) = Some temp /\
     w_fs (st_world st') !! temp = Some f) /\
  get_busy (w_player (st_world st')) = true /\
  ((exists a,
      msg = [TStr ("Playing " +:+ format_fixed 1 a +:+ "s from "
                   +:+ format_fixed 1 start +:+ "s...")] /\
      a <= d /\ (0 < d -> 0 < a)) \/
   msg = [TStr "Streaming "; TNum d;
          TStr ("s preview from " +:+ format_fixed 0 start +:+ "s...")]) /\
  same_sources (st_self st) (st_self st') /\
  pl_volume (w_player (st_world st')) = pl_volume (w_player (st_world st)) /\
  playback_start_time (st_self st') = playback_start_time (st_self st) /\
  playback_start_position (st_self st') = playback_start_position (st_self st) /\
  get_playback_position st'
  = (Ok (playback_start_position (st_self st)
         + (w_clock (st_world st') - playback_start_time (st_self st))), st').
Proof.
  intros H.
  pose proof (frame_preview_mix
                (fun s => same_sources (st_self st) s /\
                          playback_start_time s = playback_start_time (st_self st) /\
                          playback_start_position s = playback_start_position (st_self st)))
    as Hframe.
  specialize (Hframe ltac:(intros b s Hs; exact Hs) ltac:(intros o s Hs; exact Hs)
                     ltac:(intros o s Hs; exact Hs) ltac:(intros v s Hs; exact Hs)
                     E slice export_wav wav_load_error d start st).
  rewrite H in Hframe. cbn [snd] in Hframe.
  destruct Hframe as (Hsame & Htime & Hposition).
  { unfold same_sources. repeat split; reflexivity. }
  assert (is_playing (st_self st') = true /\
          (exists temp f,
             current_playback_file (st_self st') = Some temp /\
             w_player (st_world st')
             = {| pl_loaded := Some temp; pl_playing := true; pl_paused := false;
                  pl_volume := pl_volume (w_player (st_world st)) |} /\
             w_fs (st_world st') !! temp = Some f) /\
          ((exists a,
              msg = [TStr ("Playing " +:+ format_fixed 1 a +:+ "s from "
                           +:+ format_fixed 1 start +:+ "s...")] /\
              a <= d /\ (0 < d -> 0 < a)) \/
           msg = [TStr "Streaming "; TNum d;
                  TStr ("s preview from " +:+ format_fixed 0 start +:+ "s...")]))
    as (Hplaying & (temp & f & Hfile & Hplayer & Hf) & Hmsg).
  { unfold preview_mix in H.
    rewrite (bind_ok get_self _ st (st_self st) st eq_refl) in H; cbv beta zeta in H.
    destruct (negb _ || negb _); [unfold ret in H; congruence|].
    apply bind_inv in H as (prepared & s1 & Hprep & H).
    destruct (stop_playback_effect st)
      as (st1 & Hstop & _ & _ & _ & _ & _ & _ & _ & Hvolume & _).
    apply try_except_inv in Hprep as [Hprep|(e & s0 & k & _ & Hk & Hprep)].
    2: { exfalso. unfold option_map in Hk.
         destruct (preview_handler None e) as [k0|] eqn:Hk0; [|discriminate].
         injection Hk as <-. apply bind_inv in Hprep as (r & s & Hr & Hprep).
         injection Hprep as <- <-. cbn in H. injection H as -> _.
         pose proof (preview_handler_fails _ _ _ Hk0 _ _ _ I Hr) as Hfalse.
         discriminate Hfalse. }
    rewrite (bind_ok _ _ _ _ _ Hstop) in Hprep; cbv beta in Hprep.
    rewrite (bind_ok get_self _ st1 (st_self st1) st1 eq_refl) in Hprep; cbv beta in Hprep.
    destruct (truthy_segment _ && truthy_segment _).
    - (* the mix is made in memory *)
      apply bind_inv in Hprep as (r & s & Hr & Hprep). injection Hprep as <- <-.
      cbn in H. injection H as -> ->.
      apply preview_in_memory_inv in Hr
        as (mixed_audio & size & Hlen & -> & Hself & Hpl & Hfs & _).
      rewrite Hself. split; [reflexivity|]. split.
      { eexists _, _. split; [reflexivity|]. split; [|exact Hfs].
        rewrite Hpl, Hvolume. reflexivity. }
      left. eexists. split; [reflexivity|]. apply preview_window. exact Hlen.
    - (* the mix is streamed *)
      apply bind_inv in Hprep as (p & s & Hp & Hprep). injection Hprep as <- <-.
      apply preview_prepare_inv in Hp
        as (Hpos & Htemp & Hconcat & _ & Hself1 & Hplayer1).
      cbv beta iota in H.
      apply try_except_inv in H as [H|(e & s0 & k & _ & Hk & H)].
      2: { exfalso. pose proof (preview_handler_fails _ _ _ Hk _ _ _ I H) as Hfalse.
           discriminate Hfalse. }
      apply bind_inv in H as (u & s2 & Hspawn & H).
      apply play_mix_spawn_inv in Hspawn as (Hself2 & Hplayer2).
      apply bind_inv in H as (u' & s3 & Hsleep & H). injection Hsleep as _ <-.
      apply bind_inv in H as (early & s4 & Hpoll & H).
      destruct early as [r|].
      { exfalso.
        pose proof (preview_poll_fails E p 15 0 _ _ _ I Hpoll r eq_refl) as Hfalse.
        injection H as -> _. discriminate Hfalse. }
      match type of Hpoll with
      | preview_poll _ _ _ _ ?s3 = _ =>
          pose proof (preview_poll_keeps_player E p
                        (fun self pl => self = st_self s2 /\ pl = w_player (st_world s2))
                        15 0 s3 (conj eq_refl eq_refl)) as Hkeep
      end.
      rewrite Hpoll in Hkeep. cbn [snd] in Hkeep. destruct Hkeep as [Hself4 Hplayer4].
      apply preview_start_inv in H as (-> & Hself' & Hplayer' & _ & Hready & _).
      2: { rewrite Htemp, Hconcat. destruct (truthy_list _); [|discriminate].
           intros [= Heq]. cbn [append] in Heq. exact (suffix_differs _ _ Heq). }
      rewrite Hself'. split; [reflexivity|]. split.
      { destruct Hready as (f & Hf & _). exists (pr_temp_path p), f.
        split; [reflexivity|]. split; [|exact Hf].
        rewrite Hplayer', Hplayer4, Hplayer2, Hplayer1, Hvolume. reflexivity. }
      right. rewrite Hpos. reflexivity. }
  split; [exact Hplaying|].
  split; [exists temp, f; rewrite Hplayer; auto|].
  split; [rewrite Hplayer; reflexivity|].
  split; [exact Hmsg|]. split; [exact Hsame|].
  split; [rewrite Hplayer; reflexivity|].
  split; [exact Htime|]. split; [exact Hposition|].
  unfold get_playback_position.
  rewrite (bind_ok get_self _ st' (st_self st') st' eq_refl); cbv beta.
  rewrite Hplaying, <- Htime, <- Hposition. reflexivity.
Qed.

Lemma preview_mix_started_witness :
  preview_mix quiet_env (fun a _ _ => a) (fun _ _ => inr 1000%Z) None 10 0 sample_single
  = (Ok (true, [TStr "Streaming "; TNum 10; TStr "s preview from 0s..."]),
     sample_previewing) /\
  is_playing (st_self sample_previewing) = true /\
  playback_start_position (st_self sample_previewing)
  = playback_start_position (st_self sample_single).
Proof.
  assert (preview_mix quiet_env (fun a _ _ => a) (fun _ _ => inr 1000%Z) None 10 0
            sample_single
          = (Ok (true, [TStr "Streaming "; TNum 10; TStr "s preview from 0s..."]),
             sample_previewing))
    as Hrun by (vm_compute; reflexivity).
  split; [exact Hrun|].
  destruct (preview_mix_started _ _ _ _ _ _ _ _ _ Hrun)
    as (Hplaying & _ & _ & _ & _ & _ & _ & Hposition & _).
  split; assumption.
Defined.

(* --------------------------------------------------------------------- *)
(** ** A playback that has failed *)
(* --------------------------------------------------------------------- *)







(** A method that always returns raises nothing. *)
Lemma triple_returns {A : Type} (P : State -> Prop) (m : M A) X :
  returns m -> preserves P m -> triple P m (fun _ => P) X.
Proof.
  intros Hr H st HP. specialize (H st HP). destruct (Hr st) as [a Ha].
  destruct (m st) as [[a'|e|] st1]; [exact H|discriminate Ha|exact I].
Qed.

Section UnrecordedFile.

Variable temp : string.















End UnrecordedFile.




